(** * Pomodoro timer: phase state machine and wall-clock countdown engine

    A shallow embedding of the timer core of [js/app.js]: the settings
    clamping ([clampMinutes], [applySettings]), the schedule builder
    ([buildPhases]), the countdown engine ([startTimer], [pauseTimer],
    [resetCurrentPhase], the 250 ms interval callback), the phase transition
    controller ([moveToNextPhase], [finalizeCurrentPhase]) and the click
    handlers that drive them.

    Conventions of the embedding.
    - The module-level [let] variables of the script are the fields of one
      record [state]; every function of the script that assigns them is a
      function on [state].  Field and function names are the script's.
    - Seconds, minutes, phase indices and [Date.now()] milliseconds are
      integers ([Z]); they stay far below 2^53, where JavaScript's number
      arithmetic on integers is exact.
    - [Date.now()] is an argument [now] of each handler.  No handler reads
      the clock twice, so one value per handler invocation is exact.
    - A handler that would raise an uncaught [TypeError] (reading a property
      of [phases[i]] when [i] is out of range) returns [None].
    - [setInterval] / [setTimeout] handles are positive numbers drawn from
      [nextHandle]; the browser's tables of live intervals and pending
      timeouts are the fields [activeIntervals] and [pendingTimeouts].
    - Sound, animation, DOM styling, analytics and local storage are not
      part of the state: they never feed back into the variables kept here.
    - The repository carries a second, near-identical copy of the script.
      The functions embedded here read the same in both copies, except
      that the copy postpones the display refresh after a phase change to
      the next animation frame, which assigns nothing new to the variables
      below. *)

From Stdlib Require Import ZArith Lia Bool String.
From stdpp Require Import base option list.

Set Warnings "-clear-no-such-hyp".

Open Scope Z_scope.

(** ** JavaScript numbers as far as the script uses them *)

(** The value of a draft duration: what [parseInt(input.value, 10)] or
    [Math.round(...)] produce, a whole number or [NaN]. *)
Inductive jsnum : Type :=
  | NaN
  | Num (z : Z).

(** [Math.round(n / d)] for integers [n] and [d > 0]: JavaScript rounds to
    the nearest integer with halves going up, i.e. [floor (n/d + 1/2)]. *)
Definition Math_round_div (n d : Z) : Z := (2 * n + d) / (2 * d).

(** ** Configuration constants *)

Module CONFIG.
Module TIMER.
Definition MIN_WORK_MINUTES : Z := 10.
Definition MIN_BREAK_MINUTES : Z := 1.
Definition MAX_BREAK_MINUTES : Z := 10.
Definition MIN_LONG_BREAK_MINUTES : Z := 5.
Definition DEFAULT_WORK : Z := 25.
Definition DEFAULT_BREAK : Z := 5.
Definition DEFAULT_LONG_BREAK : Z := 15.
End TIMER.
End CONFIG.

(** [APP_STATE]: the label kept in [timerState.appState]. *)
Inductive app_state : Type := IDLE | RUNNING | PAUSED | SETTINGS | MILESTONE.

(** ** Data model *)

(** The [type] strings ['work'], ['break'] and ['longBreak']. *)
Inductive phase_type : Type := work | break | longBreak.

Global Instance phase_type_eq_dec : EqDecision phase_type.
Proof. solve_decision. Defined.

Record phase : Type := Phase {
  type : phase_type;
  label : string;
  duration : Z
}.

(** [draftDurations], the staging copy edited while settings are open; its
    keys [work], [shortBreak] and [longBreak] carry the prefix [d_] here,
    [work] being the name of a phase type. *)
Record draft : Type := Draft {
  d_work : jsnum;
  d_shortBreak : jsnum;
  d_longBreak : jsnum
}.

(** The keys of [draftDurations] that [colorTargetPhase] ranges over. *)
Inductive draft_key : Type := kWork | kShortBreak | kLongBreak.

Record state : Type := Build_state {
  (* committed durations *)
  workMinutes : Z;
  breakMinutes : Z;
  longBreakMinutes : Z;
  (* settings panel *)
  draftDurations : draft;
  colorTargetPhase : draft_key;
  wasRunningBeforeSettings : bool;
  phaseIndexBeforeSettings : Z;
  (* schedule and countdown *)
  phases : list phase;
  currentPhaseIndex : Z;
  currentPhase : phase;
  totalSeconds : Z;
  remaining : Z;
  isRunning : bool;
  (* session statistics *)
  completedWorkSessions : Z;
  skippedNotStartedWorkSessions : Z;
  skippedNotCompletedWorkSessions : Z;
  totalWorkSeconds : Z;
  (* engine bookkeeping *)
  intervalId : option nat;
  targetTimestamp : option Z;
  silentPause : bool;
  autoStartTimeoutId : option nat;
  settingsOpen : bool;
  milestonePendingReset : bool;
  appState : app_state;
  (* browser timer tables *)
  nextHandle : nat;
  activeIntervals : list nat;
  pendingTimeouts : list nat
}.

(** Assignment to one variable. *)
Definition set_workMinutes (v : Z) (s : state) : state :=
  let '(Build_state _ bm lm dd ck wr pb ph ci cp ts rm ir cw sn sc tw ii tg sp ai so mp ap nh li pt) := s in
  Build_state v bm lm dd ck wr pb ph ci cp ts rm ir cw sn sc tw ii tg sp ai so mp ap nh li pt.
Definition set_breakMinutes (v : Z) (s : state) : state :=
  let '(Build_state wm _ lm dd ck wr pb ph ci cp ts rm ir cw sn sc tw ii tg sp ai so mp ap nh li pt) := s in
  Build_state wm v lm dd ck wr pb ph ci cp ts rm ir cw sn sc tw ii tg sp ai so mp ap nh li pt.
Definition set_longBreakMinutes (v : Z) (s : state) : state :=
  let '(Build_state wm bm _ dd ck wr pb ph ci cp ts rm ir cw sn sc tw ii tg sp ai so mp ap nh li pt) := s in
  Build_state wm bm v dd ck wr pb ph ci cp ts rm ir cw sn sc tw ii tg sp ai so mp ap nh li pt.
Definition set_draftDurations (v : draft) (s : state) : state :=
  let '(Build_state wm bm lm _ ck wr pb ph ci cp ts rm ir cw sn sc tw ii tg sp ai so mp ap nh li pt) := s in
  Build_state wm bm lm v ck wr pb ph ci cp ts rm ir cw sn sc tw ii tg sp ai so mp ap nh li pt.
Definition set_colorTargetPhase (v : draft_key) (s : state) : state :=
  let '(Build_state wm bm lm dd _ wr pb ph ci cp ts rm ir cw sn sc tw ii tg sp ai so mp ap nh li pt) := s in
  Build_state wm bm lm dd v wr pb ph ci cp ts rm ir cw sn sc tw ii tg sp ai so mp ap nh li pt.
Definition set_wasRunningBeforeSettings (v : bool) (s : state) : state :=
  let '(Build_state wm bm lm dd ck _ pb ph ci cp ts rm ir cw sn sc tw ii tg sp ai so mp ap nh li pt) := s in
  Build_state wm bm lm dd ck v pb ph ci cp ts rm ir cw sn sc tw ii tg sp ai so mp ap nh li pt.
Definition set_phaseIndexBeforeSettings (v : Z) (s : state) : state :=
  let '(Build_state wm bm lm dd ck wr _ ph ci cp ts rm ir cw sn sc tw ii tg sp ai so mp ap nh li pt) := s in
  Build_state wm bm lm dd ck wr v ph ci cp ts rm ir cw sn sc tw ii tg sp ai so mp ap nh li pt.
Definition set_phases (v : list phase) (s : state) : state :=
  let '(Build_state wm bm lm dd ck wr pb _ ci cp ts rm ir cw sn sc tw ii tg sp ai so mp ap nh li pt) := s in
  Build_state wm bm lm dd ck wr pb v ci cp ts rm ir cw sn sc tw ii tg sp ai so mp ap nh li pt.
Definition set_currentPhaseIndex (v : Z) (s : state) : state :=
  let '(Build_state wm bm lm dd ck wr pb ph _ cp ts rm ir cw sn sc tw ii tg sp ai so mp ap nh li pt) := s in
  Build_state wm bm lm dd ck wr pb ph v cp ts rm ir cw sn sc tw ii tg sp ai so mp ap nh li pt.
Definition set_currentPhase (v : phase) (s : state) : state :=
  let '(Build_state wm bm lm dd ck wr pb ph ci _ ts rm ir cw sn sc tw ii tg sp ai so mp ap nh li pt) := s in
  Build_state wm bm lm dd ck wr pb ph ci v ts rm ir cw sn sc tw ii tg sp ai so mp ap nh li pt.
Definition set_totalSeconds (v : Z) (s : state) : state :=
  let '(Build_state wm bm lm dd ck wr pb ph ci cp _ rm ir cw sn sc tw ii tg sp ai so mp ap nh li pt) := s in
  Build_state wm bm lm dd ck wr pb ph ci cp v rm ir cw sn sc tw ii tg sp ai so mp ap nh li pt.
Definition set_remaining (v : Z) (s : state) : state :=
  let '(Build_state wm bm lm dd ck wr pb ph ci cp ts _ ir cw sn sc tw ii tg sp ai so mp ap nh li pt) := s in
  Build_state wm bm lm dd ck wr pb ph ci cp ts v ir cw sn sc tw ii tg sp ai so mp ap nh li pt.
Definition set_isRunning (v : bool) (s : state) : state :=
  let '(Build_state wm bm lm dd ck wr pb ph ci cp ts rm _ cw sn sc tw ii tg sp ai so mp ap nh li pt) := s in
  Build_state wm bm lm dd ck wr pb ph ci cp ts rm v cw sn sc tw ii tg sp ai so mp ap nh li pt.
Definition set_completedWorkSessions (v : Z) (s : state) : state :=
  let '(Build_state wm bm lm dd ck wr pb ph ci cp ts rm ir _ sn sc tw ii tg sp ai so mp ap nh li pt) := s in
  Build_state wm bm lm dd ck wr pb ph ci cp ts rm ir v sn sc tw ii tg sp ai so mp ap nh li pt.
Definition set_skippedNotStartedWorkSessions (v : Z) (s : state) : state :=
  let '(Build_state wm bm lm dd ck wr pb ph ci cp ts rm ir cw _ sc tw ii tg sp ai so mp ap nh li pt) := s in
  Build_state wm bm lm dd ck wr pb ph ci cp ts rm ir cw v sc tw ii tg sp ai so mp ap nh li pt.
Definition set_skippedNotCompletedWorkSessions (v : Z) (s : state) : state :=
  let '(Build_state wm bm lm dd ck wr pb ph ci cp ts rm ir cw sn _ tw ii tg sp ai so mp ap nh li pt) := s in
  Build_state wm bm lm dd ck wr pb ph ci cp ts rm ir cw sn v tw ii tg sp ai so mp ap nh li pt.
Definition set_totalWorkSeconds (v : Z) (s : state) : state :=
  let '(Build_state wm bm lm dd ck wr pb ph ci cp ts rm ir cw sn sc _ ii tg sp ai so mp ap nh li pt) := s in
  Build_state wm bm lm dd ck wr pb ph ci cp ts rm ir cw sn sc v ii tg sp ai so mp ap nh li pt.
Definition set_intervalId (v : option nat) (s : state) : state :=
  let '(Build_state wm bm lm dd ck wr pb ph ci cp ts rm ir cw sn sc tw _ tg sp ai so mp ap nh li pt) := s in
  Build_state wm bm lm dd ck wr pb ph ci cp ts rm ir cw sn sc tw v tg sp ai so mp ap nh li pt.
Definition set_targetTimestamp (v : option Z) (s : state) : state :=
  let '(Build_state wm bm lm dd ck wr pb ph ci cp ts rm ir cw sn sc tw ii _ sp ai so mp ap nh li pt) := s in
  Build_state wm bm lm dd ck wr pb ph ci cp ts rm ir cw sn sc tw ii v sp ai so mp ap nh li pt.
Definition set_silentPause (v : bool) (s : state) : state :=
  let '(Build_state wm bm lm dd ck wr pb ph ci cp ts rm ir cw sn sc tw ii tg _ ai so mp ap nh li pt) := s in
  Build_state wm bm lm dd ck wr pb ph ci cp ts rm ir cw sn sc tw ii tg v ai so mp ap nh li pt.
Definition set_autoStartTimeoutId (v : option nat) (s : state) : state :=
  let '(Build_state wm bm lm dd ck wr pb ph ci cp ts rm ir cw sn sc tw ii tg sp _ so mp ap nh li pt) := s in
  Build_state wm bm lm dd ck wr pb ph ci cp ts rm ir cw sn sc tw ii tg sp v so mp ap nh li pt.
Definition set_settingsOpen (v : bool) (s : state) : state :=
  let '(Build_state wm bm lm dd ck wr pb ph ci cp ts rm ir cw sn sc tw ii tg sp ai _ mp ap nh li pt) := s in
  Build_state wm bm lm dd ck wr pb ph ci cp ts rm ir cw sn sc tw ii tg sp ai v mp ap nh li pt.
Definition set_milestonePendingReset (v : bool) (s : state) : state :=
  let '(Build_state wm bm lm dd ck wr pb ph ci cp ts rm ir cw sn sc tw ii tg sp ai so _ ap nh li pt) := s in
  Build_state wm bm lm dd ck wr pb ph ci cp ts rm ir cw sn sc tw ii tg sp ai so v ap nh li pt.
Definition set_appState (v : app_state) (s : state) : state :=
  let '(Build_state wm bm lm dd ck wr pb ph ci cp ts rm ir cw sn sc tw ii tg sp ai so mp _ nh li pt) := s in
  Build_state wm bm lm dd ck wr pb ph ci cp ts rm ir cw sn sc tw ii tg sp ai so mp v nh li pt.
Definition set_nextHandle (v : nat) (s : state) : state :=
  let '(Build_state wm bm lm dd ck wr pb ph ci cp ts rm ir cw sn sc tw ii tg sp ai so mp ap _ li pt) := s in
  Build_state wm bm lm dd ck wr pb ph ci cp ts rm ir cw sn sc tw ii tg sp ai so mp ap v li pt.
Definition set_activeIntervals (v : list nat) (s : state) : state :=
  let '(Build_state wm bm lm dd ck wr pb ph ci cp ts rm ir cw sn sc tw ii tg sp ai so mp ap nh _ pt) := s in
  Build_state wm bm lm dd ck wr pb ph ci cp ts rm ir cw sn sc tw ii tg sp ai so mp ap nh v pt.
Definition set_pendingTimeouts (v : list nat) (s : state) : state :=
  let '(Build_state wm bm lm dd ck wr pb ph ci cp ts rm ir cw sn sc tw ii tg sp ai so mp ap nh li _) := s in
  Build_state wm bm lm dd ck wr pb ph ci cp ts rm ir cw sn sc tw ii tg sp ai so mp ap nh li v.

(** ** Browser timers *)

Definition drop_handle (h : nat) (l : list nat) : list nat :=
  filter (fun x => x <> h) l.

(** [setInterval(cb, 250)]: a fresh handle, now live. *)
Definition setInterval (s : state) : nat * state :=
  let h := nextHandle s in
  (h, set_nextHandle (S h) (set_activeIntervals (h :: activeIntervals s) s)).

Definition clearInterval (h : nat) (s : state) : state :=
  set_activeIntervals (drop_handle h (activeIntervals s)) s.

(** [setTimeout(cb, 600)]: a fresh handle, now pending. *)
Definition setTimeout (s : state) : nat * state :=
  let h := nextHandle s in
  (h, set_nextHandle (S h) (set_pendingTimeouts (h :: pendingTimeouts s) s)).

Definition clearTimeout (h : nat) (s : state) : state :=
  set_pendingTimeouts (drop_handle h (pendingTimeouts s)) s.

(** ** Settings: clamping and the schedule builder *)

Definition clampMinutes (v : jsnum) : Z :=
  match v with
  | NaN => 1                          (* if (isNaN(v)) return 1; *)
  | Num z =>
      if z <? 1 then 1                (* if (v < 1) return 1;    *)
      else if 60 <? z then 60         (* if (v > 60) return 60;  *)
      else z
  end.

(** [buildPhases()] reads the three committed durations. *)
Definition buildPhases (s : state) : list phase :=
  [ Phase work "Work" (workMinutes s * 60);
    Phase break "Break" (breakMinutes s * 60);
    Phase work "Work" (workMinutes s * 60);
    Phase break "Break" (breakMinutes s * 60);
    Phase work "Work" (workMinutes s * 60);
    Phase break "Break" (breakMinutes s * 60);
    Phase work "Work" (workMinutes s * 60);
    Phase longBreak "Long Break" (longBreakMinutes s * 60) ].

(** [phases[i]]: [undefined] (here [None]) outside the array. *)
Definition phaseAt (l : list phase) (i : Z) : option phase :=
  if i <? 0 then None else l !! Z.to_nat i.

(** ** Countdown engine *)

(** [timerState.setState(next)]; every caller passes a member of [APP_STATE]. *)
Definition setState (next : app_state) (s : state) : state := set_appState next s.

(** [updateUI()]: its only write to the variables is the refresh
    [currentPhase = phases[currentPhaseIndex]]; the next line reads
    [currentPhase.label] and raises when the index is out of range. *)
Definition updateUI (s : state) : option state :=
  p ← phaseAt (phases s) (currentPhaseIndex s);
  Some (set_currentPhase p s).

(** [targetTimestamp - Date.now()]; [null] converts to 0. *)
Definition diffToTarget (now : Z) (s : state) : Z :=
  match targetTimestamp s with
  | Some t => t - now
  | None => 0 - now
  end.

Definition pauseTimer (now : Z) (s : state) : option state :=
  if negb (isRunning s) && negb (bool_decide (is_Some (intervalId s))) then Some s
  else
    (* Recalculate remaining time based on the wall clock *)
    let s := match targetTimestamp s with
             | Some t => set_remaining (Z.max 0 (Math_round_div (t - now) 1000)) s
             | None => s
             end in
    let s := set_isRunning false s in
    let s := match intervalId s with
             | Some h => set_intervalId None (clearInterval h s)
             | None => s
             end in
    let s := match autoStartTimeoutId s with
             | Some h => set_autoStartTimeoutId None (clearTimeout h s)
             | None => s
             end in
    s ← (if silentPause s then Some s else updateUI s);
    let s := set_silentPause false s in
    Some (setState (if settingsOpen s then SETTINGS else PAUSED) s).

Definition startTimer (now : Z) (s : state) : option state :=
  if isRunning s || settingsOpen s || milestonePendingReset s then Some s
  else
    let s := set_isRunning true s in
    let s := setState RUNNING s in
    s ← updateUI s;
    (* Use wall-clock time so timer stays accurate even in background tabs *)
    let s := set_targetTimestamp (Some (now + remaining s * 1000)) s in
    let s := match intervalId s with
             | Some h => clearInterval h s
             | None => s
             end in
    let '(h, s) := setInterval s in
    Some (set_intervalId (Some h) s).

Definition resetCurrentPhase (now : Z) (s : state) : option state :=
  s ← pauseTimer now s;
  p ← phaseAt (phases s) (currentPhaseIndex s);
  let s := set_currentPhase p s in
  let s := set_totalSeconds (duration (currentPhase s)) s in
  let s := set_remaining (totalSeconds s) s in
  let s := set_targetTimestamp None s in
  updateUI s.

Definition showMilestoneModal (s : state) : state := setState MILESTONE s.

(** ** Session statistics *)

Definition finalizeCurrentPhase (completed : bool) (s : state) : state :=
  match type (currentPhase s) with
  | work =>
      let rawSpent := duration (currentPhase s) - remaining s in
      let spent := Z.max 0 rawSpent in
      if completed then
        let effectiveSpent := if 0 <? spent then spent else duration (currentPhase s) in
        let s := set_totalWorkSeconds (totalWorkSeconds s + effectiveSpent) s in
        set_completedWorkSessions (completedWorkSessions s + 1) s
      else if 0 <? spent then
        let s := set_totalWorkSeconds (totalWorkSeconds s + spent) s in
        set_skippedNotCompletedWorkSessions (skippedNotCompletedWorkSessions s + 1) s
      else
        set_skippedNotStartedWorkSessions (skippedNotStartedWorkSessions s + 1) s
  | _ => s
  end.

(** ** Phase transition controller *)

Definition moveToNextPhase (autoStart completed : bool) (now : Z) (s : state)
  : option state :=
  let prevPhaseType := type (currentPhase s) in
  let s := finalizeCurrentPhase completed s in
  if bool_decide (prevPhaseType = longBreak) then
    (* a long break just finished: show milestone modal *)
    let s := set_milestonePendingReset true s in
    s ← pauseTimer now s;
    Some (showMilestoneModal s)
  else if milestonePendingReset s then
    pauseTimer now s
  else
    let s := set_silentPause true s in
    s ← pauseTimer now s;
    let s := set_currentPhaseIndex
               (Z.rem (currentPhaseIndex s + 1) (Z.of_nat (length (phases s)))) s in
    p ← phaseAt (phases s) (currentPhaseIndex s);
    let s := set_currentPhase p s in
    let s := set_totalSeconds (duration (currentPhase s)) s in
    let s := set_remaining (totalSeconds s) s in
    let s := set_targetTimestamp None s in
    s ← updateUI s;
    if autoStart then
      let s := match autoStartTimeoutId s with
               | Some h => clearTimeout h s
               | None => s
               end in
      (* Delay auto-start until the flip animation is finished *)
      let '(h, s) := setTimeout s in
      Some (set_autoStartTimeoutId (Some h) s)
    else Some s.

(** The callback given to [setInterval] in [startTimer]. *)
Definition intervalCallback (now : Z) (s : state) : option state :=
  let diff := diffToTarget now s in
  let newRemaining := Z.max 0 (Math_round_div diff 1000) in
  let s := set_remaining newRemaining s in
  s ← updateUI s;
  if remaining s <=? 0 then
    let s := match intervalId s with
             | Some h => clearInterval h s
             | None => s
             end in
    let s := set_intervalId None s in
    let s := set_isRunning false s in
    moveToNextPhase true true now s
  else Some s.

(** The callback given to [setTimeout] in [moveToNextPhase]. *)
Definition autoStartCallback (now : Z) (s : state) : option state :=
  startTimer now s.

(** ** Click handlers *)

Definition handleSingleClick (now : Z) (s : state) : option state :=
  if settingsOpen s || milestonePendingReset s then Some s
  else if isRunning s then pauseTimer now s
  else startTimer now s.

(** [timeOverlay] double click. *)
Definition onTimeDblClick (now : Z) (s : state) : option state :=
  if settingsOpen s || milestonePendingReset s then Some s
  else resetCurrentPhase now s.

(** [nextButton] click: manual skip. *)
Definition onNextClick (now : Z) (s : state) : option state :=
  if settingsOpen s || milestonePendingReset s then Some s
  else
    let wasRunning := isRunning s in
    moveToNextPhase wasRunning false now s.

(** [settingsButton] click: open the settings panel. *)
Definition onSettingsClick (now : Z) (s : state) : option state :=
  if settingsOpen s || milestonePendingReset s then Some s
  else
    let s := set_phaseIndexBeforeSettings (currentPhaseIndex s) s in
    let s := set_settingsOpen true s in
    let s := set_wasRunningBeforeSettings (isRunning s) s in
    s ← pauseTimer now s;
    Some (set_draftDurations
            (Draft (Num (workMinutes s)) (Num (breakMinutes s)) (Num (longBreakMinutes s))) s).

(** [applySettings()], run by the back button of the settings panel. *)
Definition applySettings (now : Z) (s : state) : option state :=
  let s := set_workMinutes (Z.max 5 (clampMinutes (d_work (draftDurations s)))) s in
  let s := set_breakMinutes
             (Z.max CONFIG.TIMER.MIN_BREAK_MINUTES
                (Z.min CONFIG.TIMER.MAX_BREAK_MINUTES
                   (clampMinutes (d_shortBreak (draftDurations s))))) s in
  let s := set_longBreakMinutes
             (Z.max CONFIG.TIMER.MIN_LONG_BREAK_MINUTES
                (clampMinutes (d_longBreak (draftDurations s)))) s in
  let s := set_phases (buildPhases s) s in
  let s := if (phaseIndexBeforeSettings s <? 0)
              || (Z.of_nat (length (phases s)) <=? phaseIndexBeforeSettings s)
           then set_phaseIndexBeforeSettings 0 s else s in
  let s := set_currentPhaseIndex (phaseIndexBeforeSettings s) s in
  p ← phaseAt (phases s) (currentPhaseIndex s);
  let s := set_currentPhase p s in
  let s := set_totalSeconds (duration (currentPhase s)) s in
  let s := set_remaining (totalSeconds s) s in
  let s := set_targetTimestamp None s in
  (* Close settings BEFORE resetting UI so time reflects the restored phase *)
  let s := set_settingsOpen false s in
  let s := setState (if wasRunningBeforeSettings s then RUNNING else IDLE) s in
  s ← resetCurrentPhase now s;
  s ← (if wasRunningBeforeSettings s then startTimer now s else Some s);
  Some (set_wasRunningBeforeSettings false s).

(** [milestoneOkBtn] click: acknowledge the milestone and restart the set. *)
Definition onMilestoneOk (now : Z) (s : state) : option state :=
  let s := set_milestonePendingReset false s in
  let s := set_completedWorkSessions 0 s in
  let s := set_skippedNotStartedWorkSessions 0 s in
  let s := set_skippedNotCompletedWorkSessions 0 s in
  (* Reset to first work phase of a new set *)
  s ← pauseTimer now s;
  let s := set_currentPhaseIndex 0 s in
  p ← phaseAt (phases s) 0;
  let s := set_currentPhase p s in
  let s := set_totalSeconds (duration (currentPhase s)) s in
  let s := set_remaining (totalSeconds s) s in
  s ← updateUI s;
  Some (setState RUNNING s).

(** ** Editing the draft while settings are open *)

(** [workInput] handler; [parsed] is [parseInt(workInput.value, 10)]. *)
Definition onWorkInput (parsed : jsnum) (s : state) : state :=
  if negb (settingsOpen s) then s
  else
    let v := clampMinutes parsed in
    let v := if v <? 10 then 10 else v in
    let d := draftDurations s in
    set_draftDurations (Draft (Num v) (d_shortBreak d) (d_longBreak d)) s.

(** [breakInput] handler. *)
Definition onBreakInput (parsed : jsnum) (s : state) : state :=
  if negb (settingsOpen s) then s
  else
    let v := clampMinutes parsed in
    let v := if v <? 1 then 1 else if 10 <? v then 10 else v in
    let d := draftDurations s in
    set_draftDurations (Draft (d_work d) (Num v) (d_longBreak d)) s.

(** [longBreakInput] handler. *)
Definition onLongBreakInput (parsed : jsnum) (s : state) : state :=
  if negb (settingsOpen s) then s
  else
    let v := clampMinutes parsed in
    let v := if v <? 5 then 5 else v in
    let d := draftDurations s in
    set_draftDurations (Draft (d_work d) (d_shortBreak d) (Num v)) s.

(** [updateDraftDurationFromHandle(e)], reached from the dial (click on the
    ring, or pointer move while dragging) only while settings are open;
    [rounded] is [Math.round(normalized / 360 * 60)] for the pointer angle. *)
Definition updateDraftDurationFromHandle (rounded : jsnum) (s : state) : state :=
  if negb (settingsOpen s) then s
  else
    let minutes := match rounded with
                   | Num 0 => Num 60          (* if (minutes === 0) minutes = 60; *)
                   | m => m
                   end in
    let minutes := clampMinutes minutes in
    let d := draftDurations s in
    match colorTargetPhase s with
    | kWork =>
        let minutes := if minutes <? 10 then 10 else minutes in
        set_draftDurations (Draft (Num minutes) (d_shortBreak d) (d_longBreak d)) s
    | kShortBreak =>
        let minutes := if minutes <? 1 then 1 else if 10 <? minutes then 10 else minutes in
        set_draftDurations (Draft (d_work d) (Num minutes) (d_longBreak d)) s
    | kLongBreak =>
        let minutes := if minutes <? 5 then 5 else minutes in
        set_draftDurations (Draft (d_work d) (d_shortBreak d) (Num minutes)) s
    end.

(** [activateSettingsPhaseByIndex]: choose which duration the dial edits. *)
Definition activateSettingsPhase (k : draft_key) (s : state) : state :=
  set_colorTargetPhase k s.

(** ** The timer as a transition system *)

(** Everything that can run a piece of the script after load. *)
Inductive event : Type :=
  | TimeClick (now : Z)                  (* click on the time: start / pause *)
  | TimeDblClick (now : Z)               (* double click on the time: reset *)
  | NextClick (now : Z)                  (* skip to the next phase *)
  | SettingsClick (now : Z)              (* open settings *)
  | BackClick (now : Z)                  (* commit settings *)
  | MilestoneOk (now : Z)                (* acknowledge the milestone *)
  | IntervalFire (h : nat) (now : Z)     (* the 250 ms refresh of interval h *)
  | TimeoutFire (h : nat) (now : Z)      (* the delayed auto-start h comes due *)
  | WorkInput (parsed : jsnum)
  | BreakInput (parsed : jsnum)
  | LongBreakInput (parsed : jsnum)
  | HandleDrag (rounded : jsnum)
  | PhaseTab (k : draft_key).

(** When the browser can deliver an event: the back button is displayed only
    while the settings panel is open, the OK button only inside the visible
    milestone modal, and a timer fires only while its handle is live. *)
Definition enabled (e : event) (s : state) : bool :=
  match e with
  | BackClick _ => settingsOpen s
  | MilestoneOk _ => milestonePendingReset s
  | IntervalFire h _ => bool_decide (h ∈ activeIntervals s)
  | TimeoutFire h _ => bool_decide (h ∈ pendingTimeouts s)
  | _ => true
  end.

Definition dispatch (e : event) (s : state) : option state :=
  match e with
  | TimeClick now => handleSingleClick now s
  | TimeDblClick now => onTimeDblClick now s
  | NextClick now => onNextClick now s
  | SettingsClick now => onSettingsClick now s
  | BackClick now => applySettings now s
  | MilestoneOk now => onMilestoneOk now s
  | IntervalFire _ now => intervalCallback now s
  | TimeoutFire h now =>
      (* a timeout is one-shot: it leaves the table when it fires *)
      autoStartCallback now (set_pendingTimeouts (drop_handle h (pendingTimeouts s)) s)
  | WorkInput v => Some (onWorkInput v s)
  | BreakInput v => Some (onBreakInput v s)
  | LongBreakInput v => Some (onLongBreakInput v s)
  | HandleDrag v => Some (updateDraftDurationFromHandle v s)
  | PhaseTab k => Some (activateSettingsPhase k s)
  end.

Inductive step (s : state) (e : event) (s' : state) : Prop :=
  | Step : enabled e s = true -> dispatch e s = Some s' -> step s e s'.

(** Run a sequence of events; [None] when one of them cannot be delivered
    or its handler raises. *)
Fixpoint run (es : list event) (s : state) : option state :=
  match es with
  | [] => Some s
  | e :: es' =>
      if enabled e s then s' ← dispatch e s; run es' s' else None
  end.

(** The variables as the script initialises them, with no stored settings:
    [restoreSettingsFromStorage] then keeps the built-in defaults. *)
Definition initial : state :=
  let s0 :=
    {| workMinutes := 25; breakMinutes := 5; longBreakMinutes := 15;
       draftDurations := Draft (Num 25) (Num 5) (Num 15);
       colorTargetPhase := kWork;
       wasRunningBeforeSettings := false; phaseIndexBeforeSettings := 0;
       phases := []; currentPhaseIndex := 0;
       currentPhase := Phase work "Work" (25 * 60);
       totalSeconds := 25 * 60; remaining := 25 * 60; isRunning := false;
       completedWorkSessions := 0; skippedNotStartedWorkSessions := 0;
       skippedNotCompletedWorkSessions := 0; totalWorkSeconds := 0;
       intervalId := None; targetTimestamp := None; silentPause := false;
       autoStartTimeoutId := None; settingsOpen := false;
       milestonePendingReset := false; appState := IDLE;
       nextHandle := 1; activeIntervals := []; pendingTimeouts := [] |} in
  set_phases (buildPhases s0) s0.

Inductive reachable : state -> Prop :=
  | reachable_initial : reachable initial
  | reachable_step s e s' : reachable s -> step s e s' -> reachable s'.

(** ** Invariants of the reachable states *)

(** The schedule is the one built from the committed durations and the
    current phase is the entry at the current index. *)
Record schedule_ok (s : state) : Prop := {
  ok_phases : phases s = buildPhases s;
  ok_index : 0 <= currentPhaseIndex s < 8;
  ok_current : phaseAt (phases s) (currentPhaseIndex s) = Some (currentPhase s)
}.

(** The script's handles agree with the browser's tables, and the run flags
    agree with each other. *)
Record engine_ok (s : state) : Prop := {
  ok_interval : activeIntervals s = match intervalId s with Some h => [h] | None => [] end;
  ok_running : isRunning s = bool_decide (is_Some (intervalId s));
  ok_timeouts : forall h, h ∈ pendingTimeouts s -> autoStartTimeoutId s = Some h;
  ok_settings : settingsOpen s = true -> isRunning s = false;
  ok_milestone : milestonePendingReset s = true ->
                 settingsOpen s = false /\ isRunning s = false
}.

(** All of the above: the invariant of the transition system. *)
Record Inv (s : state) : Prop := {
  inv_schedule : schedule_ok s;
  inv_engine : engine_ok s;
  inv_target : isRunning s = true -> is_Some (targetTimestamp s)
}.



(** ** Auxiliary definitions used by the statements below *)

(** Sum of the durations of the work phases of a schedule. *)
Definition workSeconds (l : list phase) : Z :=
  foldr Z.add 0 (map duration (filter (fun p => type p = work) l)).

(** The state with a given draft in the settings panel. *)
Definition withDraft (d : draft) (s : state) : state :=
  set_settingsOpen true (set_draftDurations d s).

(** Closed forms of the states the engine functions return, used to state
    what [pauseTimer] and [startTimer] do without replaying their bodies. *)

(** The state [pauseTimer] leaves when it does not return early; [cp] is the
    value of [currentPhase] after its [updateUI] call (if any). *)
Definition pausedState (now : Z) (cp : phase) (s : state) : state :=
  setState (if settingsOpen s then SETTINGS else PAUSED)
    (set_silentPause false
      (set_currentPhase cp
        (set_autoStartTimeoutId None
          (set_pendingTimeouts
             (match autoStartTimeoutId s with
              | Some h => drop_handle h (pendingTimeouts s)
              | None => pendingTimeouts s
              end)
            (set_intervalId None
              (set_activeIntervals
                 (match intervalId s with
                  | Some h => drop_handle h (activeIntervals s)
                  | None => activeIntervals s
                  end)
                (set_isRunning false
                  (set_remaining
                     (match targetTimestamp s with
                      | Some t => Z.max 0 (Math_round_div (t - now) 1000)
                      | None => remaining s
                      end) s)))))))).

(** The state [startTimer] leaves when it does start the countdown. *)
Definition startedState (now : Z) (cp : phase) (s : state) : state :=
  set_intervalId (Some (nextHandle s))
    (set_nextHandle (S (nextHandle s))
      (set_activeIntervals
         (nextHandle s :: match intervalId s with
                          | Some h => drop_handle h (activeIntervals s)
                          | None => activeIntervals s
                          end)
        (set_targetTimestamp (Some (now + remaining s * 1000))
          (set_currentPhase cp
            (setState RUNNING (set_isRunning true s)))))).

(** The state [finalizeCurrentPhase] returns, counter by counter. *)
Definition finalizedState (completed : bool) (s : state) : state :=
  let d := duration (currentPhase s) in
  let spent := Z.max 0 (d - remaining s) in
  let isWork := match type (currentPhase s) with work => true | _ => false end in
  set_completedWorkSessions
    (completedWorkSessions s + (if isWork && completed then 1 else 0))
    (set_skippedNotCompletedWorkSessions
      (skippedNotCompletedWorkSessions s
       + (if isWork && negb completed && (0 <? spent) then 1 else 0))
      (set_skippedNotStartedWorkSessions
        (skippedNotStartedWorkSessions s
         + (if isWork && negb completed && negb (0 <? spent) then 1 else 0))
        (set_totalWorkSeconds
          (totalWorkSeconds s
           + (if isWork
              then if 0 <? spent then spent else if completed then d else 0
              else 0)) s))).

(** [pauseTimer]'s early-return test and [startTimer]'s guard. *)
Definition pauseIsNoop (s : state) : bool :=
  negb (isRunning s) && negb (bool_decide (is_Some (intervalId s))).

Definition startIsNoop (s : state) : bool :=
  isRunning s || settingsOpen s || milestonePendingReset s.

(** [wp m Q]: the handler result [m] is a state (no exception) and that
    state satisfies [Q]. *)
Definition wp (m : option state) (Q : state -> Prop) : Prop :=
  exists s', m = Some s' /\ Q s'.

(** ** Concrete scenarios *)

(** Settings open with every draft duration NaN. *)
Definition draftAllNaN : state := withDraft (Draft NaN NaN NaN) initial.

(** One work phase run to its natural end (started at time 0, the refresh
    that sees zero comes at 1 500 000 ms); the break auto-starts 600 ms
    later and is paused; then every remaining phase of the set is skipped
    with the Next button: the milestone modal is up. *)
Definition skipToLongBreak : list event :=
  [ TimeClick 0; IntervalFire 1 1500000;          (* work phase runs to its end *)
    TimeoutFire 2 1500600; TimeClick 1501000;     (* break auto-starts; user pauses *)
    NextClick 1502000; NextClick 1503000; NextClick 1504000; NextClick 1505000;
    NextClick 1506000; NextClick 1507000 ].       (* now on the long break *)

Definition oneFocusThenSkipAll : list event :=
  skipToLongBreak ++ [ NextClick 1508000 ].

(** The states those two sequences lead to. *)
Definition stateAfter (es : list event) : state :=
  match run es initial with
  | Some s => s
  | None => initial
  end.

Definition longBreakIdle : state := stateAfter skipToLongBreak.
Definition milestoneUp : state := stateAfter oneFocusThenSkipAll.

(** The default timer started by a click at time 0. *)
Definition runningAt0 : state := startedState 0 (currentPhase initial) initial.

(** The work phase has just run out at 1 500 000 ms: the timer sits on the
    break with the delayed auto-start (handle 2) pending. *)
Definition autoStartPending : list event :=
  [ TimeClick 0; IntervalFire 1 1500000 ].

(** ... and within the 600 ms delay the user opens the settings panel and
    closes it again; then the delayed auto-start comes due. *)
Definition settingsDuringDelay : list event :=
  autoStartPending ++ [ SettingsClick 1500100; BackClick 1500300 ].

(** The refresh callback run at each of the given times. *)
Fixpoint ticks (times : list Z) (s : state) : option state :=
  match times with
  | [] => Some s
  | t :: times' => s' ← intervalCallback t s; ticks times' s'
  end.

(** What a refresh needs and keeps while the countdown runs towards the
    timestamp [target]. *)
Definition countingTo (target : Z) (s : state) : Prop :=
  targetTimestamp s = Some target
  /\ phaseAt (phases s) (currentPhaseIndex s) = Some (currentPhase s).

From Stdlib Require Import Ascii.
From stdpp Require Import pretty gmap.

Open Scope Z_scope.

(** ** Further invariants of the reachable states *)

(** The schedule [buildPhases] returns, as a function of the three
    durations, and its entry at index [i]. *)
Definition schedule (w b l : Z) : list phase :=
  [ Phase work "Work" (w * 60); Phase break "Break" (b * 60);
    Phase work "Work" (w * 60); Phase break "Break" (b * 60);
    Phase work "Work" (w * 60); Phase break "Break" (b * 60);
    Phase work "Work" (w * 60); Phase longBreak "Long Break" (l * 60) ].

Definition phaseOf (w b l i : Z) : phase :=
  if i =? 7 then Phase longBreak "Long Break" (l * 60)
  else if Z.even i then Phase work "Work" (w * 60)
  else Phase break "Break" (b * 60).

(** The number of work phases of the schedule that lie before the current
    index: the work phases of this set that have been left. *)
Definition workPhasesBefore (s : state) : Z :=
  Z.of_nat (length (filter (fun p => type p = work)
                      (take (Z.to_nat (currentPhaseIndex s)) (phases s)))).

(** The three phase counters together. *)
Definition workPhasesCounted (s : state) : Z :=
  completedWorkSessions s + skippedNotStartedWorkSessions s
  + skippedNotCompletedWorkSessions s.

(** A draft duration is a number within the given bounds. *)
Definition draftWithin (lo hi : Z) (v : jsnum) : Prop :=
  exists z, v = Num z /\ lo <= z <= hi.

Record Extra (s : state) : Prop := {
  ex_work : 10 <= workMinutes s <= 60;
  ex_break : 1 <= breakMinutes s <= 10;
  ex_long : 5 <= longBreakMinutes s <= 60;
  ex_draft_work : draftWithin 10 60 (d_work (draftDurations s));
  ex_draft_break : draftWithin 1 10 (d_shortBreak (draftDurations s));
  ex_draft_long : draftWithin 5 60 (d_longBreak (draftDurations s));
  ex_remaining : 0 <= remaining s;
  ex_total : totalSeconds s = duration (currentPhase s);
  ex_counts : 0 <= completedWorkSessions s /\ 0 <= skippedNotStartedWorkSessions s
              /\ 0 <= skippedNotCompletedWorkSessions s /\ 0 <= totalWorkSeconds s;
  ex_stats : workPhasesCounted s = (currentPhaseIndex s + 1) / 2;
  ex_settings : settingsOpen s = true ->
                phaseIndexBeforeSettings s = currentPhaseIndex s;
  ex_milestone : milestonePendingReset s = true -> currentPhaseIndex s = 7;
  ex_pending : pendingTimeouts s = []
               \/ exists h, autoStartTimeoutId s = Some h /\ pendingTimeouts s = [h]
}.

(** ** What a step may change *)

(** The session statistics, the committed durations and the countdown of
    the current phase, each as one value. *)
Definition statistics (s : state) : Z * Z * Z * Z :=
  (completedWorkSessions s, skippedNotStartedWorkSessions s,
   skippedNotCompletedWorkSessions s, totalWorkSeconds s).

Definition durations (s : state) : Z * Z * Z :=
  (workMinutes s, breakMinutes s, longBreakMinutes s).

Definition countdown (s : state) : Z * Z * bool * option Z :=
  (currentPhaseIndex s, remaining s, isRunning s, targetTimestamp s).

(** The events whose handlers reach [moveToNextPhase] or restart the set,
    and the one that commits the settings. *)
Definition leavesPhase (e : event) : bool :=
  match e with
  | NextClick _ | IntervalFire _ _ | MilestoneOk _ => true
  | _ => false
  end.

Definition commitsSettings (e : event) : bool :=
  match e with
  | BackClick _ => true
  | _ => false
  end.

Definition framed (e : event) (s s' : state) : Prop :=
  totalWorkSeconds s <= totalWorkSeconds s'
  /\ (leavesPhase e = false ->
      statistics s' = statistics s /\ currentPhaseIndex s' = currentPhaseIndex s)
  /\ (commitsSettings e = false ->
      durations s' = durations s /\ phases s' = phases s).

(** The work phase has run out and, during the delay before the break
    starts by itself, the settings panel is opened. *)
Definition panelOpenedInDelay : list event :=
  autoStartPending ++ [ SettingsClick 1500100 ].

(** The default timer started at time 0 and paused after ten minutes. *)
Definition pausedAfterTenMinutes : list event :=
  [ TimeClick 0; TimeClick 600000 ].

(** ** Texts derived from the state *)

(** [updateNextButtonLabel()]: the title given to the Next button; [None]
    when [phases[nextIndex]] is undefined and reading its label raises. *)
Definition nextButtonTitle (s : state) : option string :=
  let nextIndex := Z.rem (currentPhaseIndex s + 1) (Z.of_nat (length (phases s))) in
  p ← phaseAt (phases s) nextIndex;
  Some ("Next (" ++ label p ++ ")")%string.

(** [showMilestoneModal()]: the first part of the modal's title. *)
Definition fullSetWorkCount (s : state) : Z :=
  Z.of_nat (length (filter (fun p => type p = work) (phases s))).

Definition milestoneTitleText (s : state) : string :=
  let c := completedWorkSessions s in
  let y := skippedNotStartedWorkSessions s in
  let z := skippedNotCompletedWorkSessions s in
  let noSkips := (y =? 0) && (z =? 0) in
  if (fullSetWorkCount s <=? c) && noSkips then "Amazing!"
  else if (2 <=? c) && (c <=? 3) then "Great job!"
  else if c =? 1 then "Good job!"
  else if c =? 0 then "Keep going!"
  else "Good job!".

(** ** Time display *)

(** [String(n)] for a whole number [n]: its decimal digits, with a minus
    sign when negative. *)
Definition String_of_int (n : Z) : string := pretty n.

Fixpoint repeatChar (n : nat) (c : ascii) : string :=
  match n with
  | O => EmptyString
  | S n' => String c (repeatChar n' c)
  end.

(** [s.padStart(targetLength, c)] for a one-character pad string. *)
Definition padStart (targetLength : nat) (c : ascii) (s : string) : string :=
  (repeatChar (targetLength - String.length s) c ++ s)%string.

(** [formatTime(sec)]; [Math.floor(sec / 60)] is [sec / 60] and [sec % 60]
    the remainder with the sign of [sec]. *)
Definition formatTime (sec : Z) : string :=
  let m := padStart 2 "0" (String_of_int (sec / 60)) in
  let s := padStart 2 "0" (String_of_int (Z.rem sec 60)) in
  (m ++ ":" ++ s)%string.

Definition formatHMS (totalSec : Z) : string :=
  let h := totalSec / 3600 in
  let m := Z.rem totalSec 3600 / 60 in
  let s := Z.rem totalSec 60 in
  (padStart 2 "0" (String_of_int h) ++ ":" ++
   padStart 2 "0" (String_of_int m) ++ ":" ++
   padStart 2 "0" (String_of_int s))%string.

(** [updateSettingsTimeOverlay(minutes)]: the text put in the time
    display, [None] when the function returns without writing it.  The
    argument is a draft duration as the model has it, a whole number or
    NaN: every call passes a value of [draftDurations] or the value an
    input or dial handler has just clamped, and in the states reachable
    from [initial] these are whole.  A number with a fraction, which only
    a hand-edited stored setting can bring in, is outside the model; for it
    the script prints the fraction ([String(25.5)] is 25.5). *)
Definition updateSettingsTimeOverlay (minutes : jsnum) (s : state) : option string :=
  if negb (settingsOpen s) then None
  else
    let m := clampMinutes minutes in
    let mm := padStart 2 "0" (String_of_int m) in
    Some (mm ++ ":00")%string.

(** The decimal digit [d] as a character, and a number below 100 as two
    digits. *)
Definition digit (d : Z) : ascii := ascii_of_nat (48 + Z.to_nat d).

Definition twoDigits (n : Z) : string :=
  String (digit (n / 10)) (String (digit (n mod 10)) EmptyString).

(** ** Feedback survey *)

(** The survey gate of [js/app.js].  (The second copy of the script in the
    repository decides differently, from a count of completed sets; it is
    not what is embedded here.) *)

Module FEEDBACK.
Definition COOLDOWN_MS : Z := 14 * 24 * 60 * 60 * 1000.
Definition MAX_SHOWS : Z := 2.
End FEEDBACK.

(** The object kept in local storage under [FEEDBACK.STORAGE_KEY]; both
    fields are the whole numbers [markFeedbackShown] writes. *)
Record feedback_state : Type := FeedbackState {
  shownCount : Z;
  lastShownAt : Z
}.

(** [getFeedbackState()]; the storage holds [None] when there is no item
    (or none that parses to an object). *)
Definition getFeedbackState (storage : option feedback_state) : feedback_state :=
  match storage with
  | None => FeedbackState 0 0
  | Some data => FeedbackState (shownCount data) (lastShownAt data)
  end.

Definition shouldShowFeedbackSurvey (now : Z) (storage : option feedback_state) : bool :=
  let state := getFeedbackState storage in
  if FEEDBACK.MAX_SHOWS <=? shownCount state then false
  else if shownCount state =? 0 then true
  else FEEDBACK.COOLDOWN_MS <=? now - lastShownAt state.

(** [markFeedbackShown()], with [saveFeedbackState] storing the new object. *)
Definition markFeedbackShown (now : Z) (storage : option feedback_state)
  : option feedback_state :=
  let prev := getFeedbackState storage in
  let nextCount := Z.min (shownCount prev + 1) FEEDBACK.MAX_SHOWS in
  Some (FeedbackState nextCount now).

(** [openFeedbackSurveyIfEligible()] with the modal present: whether the
    survey is shown, and the storage afterwards. *)
Definition openFeedbackSurveyIfEligible (now : Z) (storage : option feedback_state)
  : bool * option feedback_state :=
  if negb (shouldShowFeedbackSurvey now storage) then (false, storage)
  else (true, markFeedbackShown now storage).

(** The function called at each of the given times (every milestone
    acknowledgement calls it once); the times at which the survey is shown. *)
Fixpoint surveyShownAt (times : list Z) (storage : option feedback_state) : list Z :=
  match times with
  | [] => []
  | now :: times' =>
      let '(shown, storage') := openFeedbackSurveyIfEligible now storage in
      (if shown then [now] else []) ++ surveyShownAt times' storage'
  end.

(** ** Settings tabs and stored settings *)

(** [activateSettingsPhaseByIndex(idx)]: the value given to
    [activePhaseIndex] when there are [count] tabs; [%] is the remainder
    with the sign of the dividend. *)
Definition activePhaseIndexFor (idx count : Z) : Z :=
  Z.rem (Z.rem idx count + count) count.

(** One field of the stored settings object: absent, a (whole) number, or a
    value of another type. *)
Inductive stored : Type :=
  | Absent
  | Number (z : Z)
  | NotANumber.

Record saved_settings : Type := SavedSettings {
  saved_workMinutes : stored;
  saved_breakMinutes : stored;
  saved_longBreakMinutes : stored
}.

(** [persistSettings()]: the durations written to local storage. *)
Definition persistSettings (s : state) : saved_settings :=
  SavedSettings (Number (workMinutes s)) (Number (breakMinutes s))
                (Number (longBreakMinutes s)).

(** [restoreSettingsFromStorage()], durations; [None] when nothing usable is
    stored, in which case the function returns before any assignment. *)
Definition restoreSettingsFromStorage (saved : option saved_settings) (s : state) : state :=
  match saved with
  | None => s
  | Some saved =>
      let s := match saved_workMinutes saved with
               | Number z =>
                   if CONFIG.TIMER.MIN_WORK_MINUTES <=? z then set_workMinutes z s else s
               | _ => s
               end in
      let s := match saved_breakMinutes saved with
               | Number z =>
                   if (CONFIG.TIMER.MIN_BREAK_MINUTES <=? z)
                      && (z <=? CONFIG.TIMER.MAX_BREAK_MINUTES)
                   then set_breakMinutes z s else s
               | _ => s
               end in
      let s := match saved_longBreakMinutes saved with
               | Number z =>
                   if CONFIG.TIMER.MIN_LONG_BREAK_MINUTES <=? z
                   then set_longBreakMinutes z s else s
               | _ => s
               end in
      set_draftDurations
        (Draft (Num (workMinutes s)) (Num (breakMinutes s)) (Num (longBreakMinutes s))) s
  end.

(** The variables after the script has loaded with the given stored
    settings: the defaults, [restoreSettingsFromStorage()], then the
    schedule and the countdown of its first phase. *)
Definition initialFrom (saved : option saved_settings) : state :=
  let s0 :=
    {| workMinutes := 25; breakMinutes := 5; longBreakMinutes := 15;
       draftDurations := Draft (Num 25) (Num 5) (Num 15);
       colorTargetPhase := kWork;
       wasRunningBeforeSettings := false; phaseIndexBeforeSettings := 0;
       phases := []; currentPhaseIndex := 0;
       currentPhase := Phase work "Work" 0;
       totalSeconds := 0; remaining := 0; isRunning := false;
       completedWorkSessions := 0; skippedNotStartedWorkSessions := 0;
       skippedNotCompletedWorkSessions := 0; totalWorkSeconds := 0;
       intervalId := None; targetTimestamp := None; silentPause := false;
       autoStartTimeoutId := None; settingsOpen := false;
       milestonePendingReset := false; appState := IDLE;
       nextHandle := 1; activeIntervals := []; pendingTimeouts := [] |} in
  let s := restoreSettingsFromStorage saved s0 in
  let s := set_phases (buildPhases s) s in
  (* [phases[0]]: the schedule is never empty *)
  let s := set_currentPhase (hd (currentPhase s) (phases s)) s in
  let s := set_totalSeconds (duration (currentPhase s)) s in
  set_remaining (totalSeconds s) s.

(** ** Phase colours *)

(** The colour objects [phaseColors] and [draftPhaseColors] are maps from
    property names to values; the values stored under them may be of any
    type, of which the script only uses whether they are truthy. *)
Section PhaseColors.

Context {V : Type} (truthy : V -> bool).
Context (workDefaultColor breakDefaultColor defaultPhaseColor : V).

(** [o[k] || d] and the truthiness of [o[k]]; a missing property reads as
    [undefined]. *)
Definition truthyAt (o : gmap string V) (k : string) : bool :=
  match o !! k with
  | Some v => truthy v
  | None => false
  end.

Definition orElse (o : gmap string V) (k : string) (d : V) : V :=
  match o !! k with
  | Some v => if truthy v then v else d
  | None => d
  end.

Record theme : Type := Theme {
  phaseColors : gmap string V;
  draftPhaseColors : gmap string V;
  colorTargetKey : string;         (* [colorTargetPhase] *)
  panelOpen : bool                 (* [settingsOpen] *)
}.

(** [restoreSettingsFromStorage()], colours: the legacy key [break] of the
    stored object is renamed to [shortBreak], then the stored colours are
    spread over the current ones. *)
Definition normalizeLegacy (saved : gmap string V) : gmap string V :=
  let saved := if truthyAt saved "break" && negb (truthyAt saved "shortBreak")
               then match saved !! "break" with
                    | Some v => <["shortBreak" := v]> saved
                    | None => saved
                    end
               else saved in
  delete "break" saved.

Definition restoreColors (saved : option (gmap string V)) (th : theme) : theme :=
  let pc := match saved with
            | Some saved => normalizeLegacy saved ∪ phaseColors th
            | None => phaseColors th
            end in
  Theme pc pc (colorTargetKey th) (panelOpen th).

(** The colours after load. *)
Definition initialTheme (saved : option (gmap string V)) : theme :=
  let pc : gmap string V :=
    <["work" := workDefaultColor]>
      (<["shortBreak" := breakDefaultColor]>
         (<["longBreak" := defaultPhaseColor]> ∅)) in
  restoreColors saved (Theme pc pc "work" false).

(** [activateSettingsPhaseByIndex]: the key chosen for a tab whose
    [data-phase] attribute is [attr] ([None] when it has none). *)
Definition settingsPhaseKey (attr : option string) : string :=
  let phase := match attr with
               | Some a => if String.eqb a "" then "work" else a
               | None => "work"
               end in
  if String.eqb phase "break" then "shortBreak" else phase.

Inductive theme_event : Type :=
  | OpenPanel                            (* settings button *)
  | PickColor (color : V)                (* click on a palette segment *)
  | ActivateTab (attr : option string)   (* tab click or wheel *)
  | CommitPanel.                         (* back button: [applySettings] *)

Definition theme_step (e : theme_event) (th : theme) : theme :=
  match e with
  | OpenPanel =>
      if panelOpen th then th
      else Theme (phaseColors th) (phaseColors th) (colorTargetKey th) true
  | PickColor color =>
      if negb (panelOpen th) then th
      else Theme (phaseColors th) (<[colorTargetKey th := color]> (draftPhaseColors th))
                 (colorTargetKey th) true
  | ActivateTab attr =>
      Theme (phaseColors th) (draftPhaseColors th) (settingsPhaseKey attr) (panelOpen th)
  | CommitPanel =>
      Theme (draftPhaseColors th) (draftPhaseColors th) (colorTargetKey th) false
  end.

Definition theme_run (es : list theme_event) (th : theme) : theme :=
  foldl (fun th e => theme_step e th) th es.

(** [applyThemeForPhase(phaseType)]: the colour looked up for a phase. *)
Definition colorKeyOf (ty : phase_type) : string :=
  match ty with
  | work => "work"
  | break => "shortBreak"
  | longBreak => "longBreak"
  end.

Definition themeColorFor (ty : phase_type) (th : theme) : V :=
  orElse (phaseColors th) (colorKeyOf ty) defaultPhaseColor.

(** The [color_short_break] field of the analytics record written by
    [applySettings]: [phaseColors.break || null]. *)
Definition analyticsColorShortBreak (th : theme) : option V :=
  match phaseColors th !! "break" with
  | Some v => if truthy v then Some v else None
  | None => None
  end.

(** No colour object has a property [break] and the key being edited is
    never [break]. *)
Definition theme_ok (th : theme) : Prop :=
  phaseColors th !! "break"%string = None
  /\ draftPhaseColors th !! "break"%string = None
  /\ colorTargetKey th <> "break"%string.

End PhaseColors.

(** A stored colour object of an earlier version of the script: the colour
    of the short break under the key [break]. *)
Definition legacyColors : gmap string string :=
  <["break" := "#336699"%string]> (<["work" := "#cc3344"%string]> ∅).

Definition nonEmpty (v : string) : bool := negb (String.eqb v "").

(** ** Focus dots *)

(** The three state classes one dot of the set indicator can carry. *)
Record dot : Type := Dot {
  cls_active : bool;
  cls_next : bool;
  cls_longbreak : bool
}.

Definition clearDot (d : dot) : dot := Dot false false false.
Definition addActive (d : dot) : dot := Dot true (cls_next d) (cls_longbreak d).
Definition addNext (d : dot) : dot := Dot (cls_active d) true (cls_longbreak d).
Definition addLongbreak (d : dot) : dot := Dot (cls_active d) (cls_next d) true.

(** The indices of the work phases within the schedule. *)
Definition workPhaseIndices (s : state) : list Z :=
  omap (fun ip : nat * phase =>
          if bool_decide (type ip.2 = work) then Some (Z.of_nat ip.1) else None)
       (imap pair (phases s)).

(** The counting loop of [updateFocusDots], which stops at the first work
    index that is not before the current one. *)
Fixpoint completedWorksLoop (indices : list Z) (current : Z) : nat :=
  match indices with
  | [] => O
  | i :: rest => if i <? current then S (completedWorksLoop rest current) else O
  end.

(** [updateFocusDots(prevPhaseType)] on the classes of the dots. *)
Definition updateFocusDots (prevPhaseType : option phase_type) (s : state)
    (focusDots : list dot) : list dot :=
  if bool_decide (length focusDots = O) then focusDots
  else
    let dots :=
      if bool_decide (prevPhaseType = Some longBreak)
         && negb (bool_decide (type (currentPhase s) = longBreak))
      then map clearDot focusDots else focusDots in
    let dots := map clearDot dots in
    if bool_decide (type (currentPhase s) = longBreak) then map addLongbreak dots
    else
      let completedWorks := completedWorksLoop (workPhaseIndices s) (currentPhaseIndex s) in
      let dots := imap (fun i d => if (i <? completedWorks)%nat then addActive d else d) dots in
      match type (currentPhase s) with
      | work =>
          match list_find (fun i => i = currentPhaseIndex s) (workPhaseIndices s) with
          | Some (currentWorkPosition, _) =>
              imap (fun i d => if (i <=? currentWorkPosition)%nat then addActive d else d) dots
          | None => dots
          end
      | break =>
          match list_find (fun i => currentPhaseIndex s < i) (workPhaseIndices s) with
          | Some (nextWorkIndex, _) =>
              if (nextWorkIndex <? length dots)%nat then alter addNext nextWorkIndex dots
              else dots
          | None => dots
          end
      | longBreak => dots
      end.

(** The classes of dot number [i] as the counters give them: active for
    each work phase counted and for the work phase under way, next for the
    dot after the counted ones during a break. *)
Definition dotByCounters (s : state) (i : nat) : dot :=
  let counted := workPhasesCounted s in
  match type (currentPhase s) with
  | work => Dot (Z.of_nat i <=? counted) false false
  | break => Dot (Z.of_nat i <? counted) (Z.of_nat i =? counted) false
  | longBreak => Dot false false true
  end.

(** ** A set left to itself *)

(** Deliver one event, if the browser can. *)
Definition deliver (e : event) (s : state) : option state :=
  if enabled e s then dispatch e s else None.

(** The running phase is left to run out: the refresh of the live interval
    comes at the target time and finds the countdown at zero; the delayed
    auto-start it schedules (if any) comes due 600 ms later. *)
Definition letPhaseRunOut (s : state) : option state :=
  h ← intervalId s;
  t ← targetTimestamp s;
  s ← deliver (IntervalFire h t) s;
  match pendingTimeouts s with
  | h' :: _ => deliver (TimeoutFire h' (t + 600)) s
  | [] => Some s
  end.

Fixpoint letPhasesRunOut (n : nat) (s : state) : option state :=
  match n with
  | O => Some s
  | S n' => s' ← letPhaseRunOut s; letPhasesRunOut n' s'
  end.

(** Phase [k] of a set is running, nothing has been skipped so far and each
    completed work phase has added a full work duration to the [tw0]
    seconds of focus there were when the set began. *)
Record runningInSet (k tw0 : Z) (d : Z * Z * Z) (s : state) : Prop := {
  ris_reachable : reachable s;
  ris_index : currentPhaseIndex s = k;
  ris_running : isRunning s = true;
  ris_pending : pendingTimeouts s = [];
  ris_durations : durations s = d;
  ris_not_started : skippedNotStartedWorkSessions s = 0;
  ris_not_completed : skippedNotCompletedWorkSessions s = 0;
  ris_focus : totalWorkSeconds s = tw0 + completedWorkSessions s * (d.1.1 * 60)
}.

(** ** The state label *)

(** What [timerState.appState] guarantees about the variables. *)
Record Label (s : state) : Prop := {
  lab_running : isRunning s = true -> appState s = RUNNING;
  lab_settings : appState s = SETTINGS -> settingsOpen s = true;
  lab_milestone : appState s = MILESTONE -> milestonePendingReset s = true
}.

(** ** Commit and completion as they occur *)




(** Keep the script's functions folded during simplification; the proofs
    unfold them one at a time. *)
Arguments clampMinutes : simpl never.
Arguments Math_round_div : simpl never.
Arguments phaseAt : simpl never.
Arguments drop_handle : simpl never.
Arguments buildPhases : simpl never.
Arguments updateUI : simpl never.
Arguments pauseTimer : simpl never.
Arguments startTimer : simpl never.
Arguments resetCurrentPhase : simpl never.
Arguments finalizeCurrentPhase : simpl never.
Arguments moveToNextPhase : simpl never.
Arguments intervalCallback : simpl never.
Arguments applySettings : simpl never.
Arguments onMilestoneOk : simpl never.

(** * Proof infrastructure *)

Ltac setters :=
  cbv [set_workMinutes set_breakMinutes set_longBreakMinutes set_draftDurations
       set_colorTargetPhase set_wasRunningBeforeSettings set_phaseIndexBeforeSettings set_phases
       set_currentPhaseIndex set_currentPhase set_totalSeconds set_remaining
       set_isRunning set_completedWorkSessions set_skippedNotStartedWorkSessions set_skippedNotCompletedWorkSessions
       set_totalWorkSeconds set_intervalId set_targetTimestamp set_silentPause
       set_autoStartTimeoutId set_settingsOpen set_milestonePendingReset set_appState
       set_nextHandle set_activeIntervals set_pendingTimeouts
       setState showMilestoneModal clearInterval clearTimeout setInterval setTimeout] in *.

(** Simplify projections of assigned states. *)
Ltac fields := setters; cbn in *.

(** Case analysis on the variables that the code under study branches on. *)
Ltac branch :=
  repeat (match goal with
          | |- context [negb ?x] => is_var x; destruct x
          | |- context [orb ?x _] => is_var x; destruct x
          | |- context [match ?x with _ => _ end] => is_var x; destruct x
          end; cbn).

Lemma phaseAt_None (l : list phase) (i : Z) :
  phaseAt l i = None -> i < 0 \/ Z.of_nat (length l) <= i.
Proof.
  unfold phaseAt. destruct (Z.ltb_spec i 0); [lia|].
  intros Hn. apply lookup_ge_None in Hn. lia.
Qed.

Lemma phaseAt_is_Some (l : list phase) (i : Z) :
  0 <= i < Z.of_nat (length l) -> is_Some (phaseAt l i).
Proof.
  intros Hi. destruct (phaseAt l i) eqn:E; [eauto|].
  apply phaseAt_None in E. lia.
Qed.

(** *** What each engine function does to the state *)

Lemma updateUI_result (s s' : state) :
  updateUI s = Some s' ->
  exists p, phaseAt (phases s) (currentPhaseIndex s) = Some p /\ s' = set_currentPhase p s.
Proof.
  unfold updateUI. destruct (phaseAt _ _) as [p|]; cbn; [|discriminate].
  intros [= <-]. eauto.
Qed.

Lemma updateUI_total (s : state) (p : phase) :
  phaseAt (phases s) (currentPhaseIndex s) = Some p ->
  updateUI s = Some (set_currentPhase p s).
Proof. unfold updateUI. intros ->. reflexivity. Qed.

Lemma pauseTimer_result (now : Z) (s s' : state) :
  pauseTimer now s = Some s' ->
  (s' = s /\ pauseIsNoop s = true)
  \/ (pauseIsNoop s = false
      /\ exists cp,
           (if silentPause s then cp = currentPhase s
            else phaseAt (phases s) (currentPhaseIndex s) = Some cp)
           /\ s' = pausedState now cp s).
Proof.
  unfold pauseTimer, updateUI, pausedState, pauseIsNoop. destruct s; cbn.
  branch; fields;
    try (intros [= <-]; left; done); intros H; right; (split; [done|]).
  all: try (destruct (phaseAt _ _) as [p|] eqn:Hp; cbn in H; [|discriminate]); fields.
  all: injection H as <-; eexists; split; [first [reflexivity|eassumption]|reflexivity].
Qed.

Lemma pauseTimer_total (now : Z) (s : state) (cp : phase) :
  phaseAt (phases s) (currentPhaseIndex s) = Some cp ->
  pauseTimer now s
  = Some (if pauseIsNoop s then s
          else pausedState now (if silentPause s then currentPhase s else cp) s).
Proof.
  unfold pauseTimer, updateUI, pausedState, pauseIsNoop. destruct s; cbn.
  intros Hp. branch; fields; rewrite ?Hp; reflexivity.
Qed.

Lemma startTimer_result (now : Z) (s s' : state) :
  startTimer now s = Some s' ->
  (s' = s /\ startIsNoop s = true)
  \/ (startIsNoop s = false
      /\ exists cp, phaseAt (phases s) (currentPhaseIndex s) = Some cp
                    /\ s' = startedState now cp s).
Proof.
  unfold startTimer, startedState, startIsNoop. destruct s; cbn.
  branch; fields;
    try (intros [= <-]; left; done); intros H; right; (split; [done|]).
  all: apply bind_Some in H as (s1 & Hu & H).
  all: apply updateUI_result in Hu as (p & Hp & ->); fields.
  all: injection H as <-; eexists; split; [eassumption|reflexivity].
Qed.

Lemma startTimer_total (now : Z) (s : state) (cp : phase) :
  phaseAt (phases s) (currentPhaseIndex s) = Some cp ->
  startTimer now s = Some (if startIsNoop s then s else startedState now cp s).
Proof.
  unfold startTimer, updateUI, startedState, startIsNoop. destruct s; cbn.
  intros Hp. branch; fields; rewrite ?Hp; reflexivity.
Qed.

(** *** Rules for [wp] *)

Lemma wp_ret (s : state) (Q : state -> Prop) : Q s -> wp (Some s) Q.
Proof. intros HQ. exists s. auto. Qed.

Lemma wp_bind (m : option state) (k : state -> option state) (Q : state -> Prop) :
  wp m (fun s1 => wp (k s1) Q) -> wp (m ≫= k) Q.
Proof. intros (s1 & -> & HQ). exact HQ. Qed.

Lemma wp_phaseAt (l : list phase) (i : Z) (k : phase -> option state)
    (Q : state -> Prop) (p : phase) :
  phaseAt l i = Some p -> wp (k p) Q -> wp (phaseAt l i ≫= k) Q.
Proof. intros -> HQ. exact HQ. Qed.

Lemma wp_elim (m : option state) (Q : state -> Prop) (s' : state) :
  wp m Q -> m = Some s' -> Q s'.
Proof. intros (s1 & -> & HQ) [= <-]. exact HQ. Qed.

Lemma wp_updateUI (s : state) (cp : phase) (Q : state -> Prop) :
  phaseAt (phases s) (currentPhaseIndex s) = Some cp ->
  Q (set_currentPhase cp s) -> wp (updateUI s) Q.
Proof. intros Hp HQ. rewrite (updateUI_total s cp Hp). now apply wp_ret. Qed.

Lemma wp_pauseTimer (now : Z) (s : state) (cp : phase) (Q : state -> Prop) :
  phaseAt (phases s) (currentPhaseIndex s) = Some cp ->
  (pauseIsNoop s = true -> Q s) ->
  (pauseIsNoop s = false ->
   Q (pausedState now (if silentPause s then currentPhase s else cp) s)) ->
  wp (pauseTimer now s) Q.
Proof.
  intros Hp H1 H2. rewrite (pauseTimer_total now s cp Hp).
  apply wp_ret. destruct (pauseIsNoop s); auto.
Qed.

Lemma wp_startTimer (now : Z) (s : state) (cp : phase) (Q : state -> Prop) :
  phaseAt (phases s) (currentPhaseIndex s) = Some cp ->
  (startIsNoop s = true -> Q s) ->
  (startIsNoop s = false -> Q (startedState now cp s)) ->
  wp (startTimer now s) Q.
Proof.
  intros Hp H1 H2. rewrite (startTimer_total now s cp Hp).
  apply wp_ret. destruct (startIsNoop s); auto.
Qed.

(** *** Handles, schedule lookups and symbolic execution *)

Lemma drop_handle_elem (h x : nat) (l : list nat) :
  x ∈ drop_handle h l <-> x ∈ l /\ x <> h.
Proof. unfold drop_handle. rewrite list_elem_of_filter. tauto. Qed.

Lemma drop_handle_single (h : nat) : drop_handle h [h] = [].
Proof. unfold drop_handle. rewrite filter_cons. case_decide; [congruence|reflexivity]. Qed.

Lemma buildPhases_length (s : state) : length (buildPhases s) = 8%nat.
Proof. reflexivity. Qed.

Ltac solve_phase := cbn; first [eassumption | reflexivity].

(** Bounds of a phase index, also after [(i + 1) % phases.length]. *)
Ltac solve_range :=
  cbn;
  try match goal with
      | |- context [Z.rem ?a ?b] => pose proof (Z.rem_bound_pos a b)
      end;
  lia.

Lemma finalizeCurrentPhase_eq (completed : bool) (s : state) :
  finalizeCurrentPhase completed s = finalizedState completed s.
Proof.
  unfold finalizeCurrentPhase, finalizedState. destruct s as [? ? ? ? ? ? ? ? ? [ty lb d] ? r].
  cbn. destruct ty, completed; cbn; try (f_equal; lia);
    destruct (0 <? Z.max 0 (d - r)); cbn; f_equal; lia.
Qed.

Ltac wp_step :=
  lazymatch goal with
  | |- wp (Some _) _ => apply wp_ret
  | |- wp (phaseAt ?l ?i ≫= _) _ =>
      first [ eapply wp_phaseAt; [solve_phase|]
            | let p := fresh "p" in
              let Hp := fresh "Hp" in
              destruct (phaseAt_is_Some l i) as [p Hp];
              [solve_range | eapply wp_phaseAt; [exact Hp|]] ]
  | |- wp (updateUI _ ≫= _) _ => apply wp_bind; eapply wp_updateUI; [solve_phase|]
  | |- wp (updateUI _) _ => eapply wp_updateUI; [solve_phase|]
  | |- wp (pauseTimer _ _ ≫= _) _ =>
      apply wp_bind; eapply wp_pauseTimer; [solve_phase|intros ?Hnoop|intros ?Hnoop]
  | |- wp (pauseTimer _ _) _ =>
      eapply wp_pauseTimer; [solve_phase|intros ?Hnoop|intros ?Hnoop]
  | |- wp (startTimer _ _ ≫= _) _ =>
      apply wp_bind; eapply wp_startTimer; [solve_phase|intros ?Hnoop|intros ?Hnoop]
  | |- wp (startTimer _ _) _ =>
      eapply wp_startTimer; [solve_phase|intros ?Hnoop|intros ?Hnoop]
  | |- wp (if ?c then _ else _) _ => destruct c eqn:?
  | |- wp (match ?c with _ => _ end) _ => destruct c eqn:?
  | |- wp (_ ≫= _) _ => apply wp_bind
  end; cbn.

Ltac open_state s :=
  destruct s as [wm bm lm dd ck wr pb ph ci cp ts rm ir cw sn sc tw ii tg sp ai so mp ap nh li pt].

Ltac open_Inv :=
  intros [[Hph Hidx Hcur] [Hint Hrun Hto Hset Hmil] Htg];
  cbn in Hph, Hidx, Hcur, Hint, Hrun, Hto, Hset, Hmil, Htg;
  unfold buildPhases in Hph; cbn in Hph;
  match type of Hph with ?x = _ => subst x end.

(** Case analysis on the run flags of the opened state, dropping the
    combinations that the hypotheses exclude. *)
Ltac flags :=
  repeat match goal with
         | H : ?b = true -> _ |- _ => is_var b; destruct b
         | H : _ = bool_decide (is_Some ?i) |- _ => is_var i; destruct i
         | H : ?b = bool_decide _ |- _ => is_var b; destruct b
         | H : context [negb ?b] |- _ => is_var b; destruct b
         | H : context [?b || _] |- _ => is_var b; destruct b
         | H : context [_ || ?b] |- _ => is_var b; destruct b
         end;
  cbn in *;
  repeat match goal with
         | H : ?a = ?a -> _ |- _ => specialize (H eq_refl)
         | H : _ /\ _ |- _ => destruct H
         | H : true = false -> _ |- _ => clear H
         | H : false = true -> _ |- _ => clear H
         end;
  try discriminate.

Ltac solve_clauses :=
  split; [split|split|]; cbn;
  [ (* phases *) try (unfold buildPhases; cbn; congruence)
  | (* index *) try solve_range
  | (* current *)
    try match goal with
        | |- context [if ?b then _ else _] => destruct b
        end; try first [assumption | reflexivity]
  | (* interval *)
    try (subst; rewrite ?drop_handle_single; reflexivity)
  | (* running *) try first [reflexivity | discriminate]
  | (* timeouts *)
    try (intros x Hx;
         repeat match goal with
                | H : context [match ?o with _ => _ end] |- _ => is_var o; destruct o
                end;
         rewrite ?elem_of_cons, ?drop_handle_elem in Hx; naive_solver)
  | (* settings *) try first [reflexivity | discriminate | intros; congruence]
  | (* milestone *) try first [discriminate | intros; split; congruence]
  | (* target *) try first [discriminate | intros; eauto; fail] ].

Ltac solve_Inv :=
  unfold pauseIsNoop, startIsNoop in *; cbn in *; flags; solve_clauses.

(** Read a goal [exists s', m = Some s' /\ Q s'] as [wp m Q]. *)
Ltac to_wp :=
  lazymatch goal with
  | |- exists s', ?m = Some s' /\ @?Q s' => change (wp m Q)
  end.

(** * Properties *)

(** ** Schedule builder *)

Lemma phaseAt_buildPhases (s : state) (i : Z) :
  0 <= i < 8 -> is_Some (phaseAt (buildPhases s) i).
Proof.
  intros Hi.
  assert (i = 0 \/ i = 1 \/ i = 2 \/ i = 3 \/ i = 4 \/ i = 5 \/ i = 6 \/ i = 7) as Hc by lia.
  repeat destruct Hc as [-> | Hc]; try subst i; eexists; reflexivity.
Qed.

(** C8: [buildPhases] returns exactly eight phases in the order Work, Break,
    Work, Break, Work, Break, Work, Long Break, with a single long break at
    the end, each phase lasting its kind's minutes times 60, and the work
    phases add up to 4 x workMinutes x 60 seconds. *)
Theorem buildPhases_shape (s : state) :
  length (buildPhases s) = 8%nat
  /\ map type (buildPhases s)
     = [work; break; work; break; work; break; work; longBreak]
  /\ length (filter (fun p => type p = longBreak) (buildPhases s)) = 1%nat
  /\ last (map type (buildPhases s)) = Some longBreak
  /\ workSeconds (buildPhases s) = 4 * workMinutes s * 60
  /\ Forall (fun p => duration p =
                      match type p with
                      | work => workMinutes s * 60
                      | break => breakMinutes s * 60
                      | longBreak => longBreakMinutes s * 60
                      end) (buildPhases s).
Proof.
  repeat split.
  - cbv -[Z.mul Z.add]. lia.
  - unfold buildPhases. repeat constructor.
Qed.

(** ** Settings commit *)

Lemma clampMinutes_range (v : jsnum) : 1 <= clampMinutes v <= 60.
Proof.
  unfold clampMinutes. destruct v as [|z]; [lia|].
  destruct (Z.ltb_spec z 1); [lia|]. destruct (Z.ltb_spec 60 z); lia.
Qed.

(** [applySettings] never raises, whatever the state and the draft, and it
    commits the three clamped durations and a schedule built from them. *)
Lemma applySettings_wp (now : Z) (s : state) :
  wp (applySettings now s) (fun s' =>
    workMinutes s' = Z.max 5 (clampMinutes (d_work (draftDurations s)))
    /\ breakMinutes s'
       = Z.max CONFIG.TIMER.MIN_BREAK_MINUTES
           (Z.min CONFIG.TIMER.MAX_BREAK_MINUTES
              (clampMinutes (d_shortBreak (draftDurations s))))
    /\ longBreakMinutes s'
       = Z.max CONFIG.TIMER.MIN_LONG_BREAK_MINUTES
           (clampMinutes (d_longBreak (draftDurations s)))
    /\ settingsOpen s' = false
    /\ schedule_ok s').
Proof.
  open_state s. unfold applySettings. cbn.
  match goal with |- context [if ?c then _ else _] => destruct c eqn:Hc end; cbn.
  all: rewrite buildPhases_length in Hc.
  all: lazymatch goal with
       | |- wp (phaseAt (buildPhases ?S) ?i ≫= _) _ =>
           destruct (phaseAt_buildPhases S i) as [p Hp];
             [first [lia
                    | apply orb_false_elim in Hc as [H1 H2];
                      apply Z.ltb_ge in H1; apply Z.leb_gt in H2; lia]|]
       end.
  all: unfold resetCurrentPhase; repeat wp_step.
  all: repeat split; cbn; try reflexivity; try exact Hp; try lia.
  all: apply orb_false_elim in Hc as [H1 H2];
       apply Z.ltb_ge in H1; apply Z.leb_gt in H2; lia.
Qed.

(** C10: committing settings is total and never rejects a draft.  For every
    state and every draft, NaN values included, [applySettings] returns
    without raising and the committed durations land in work 5..60, short
    break 1..10 and long break 5..60 minutes; [clampMinutes NaN = 1], so a
    NaN work value commits as 5 minutes, a NaN short break as 1 and a NaN
    long break as 5. *)
Theorem applySettings_total_bounded (now : Z) (s : state) :
  clampMinutes NaN = 1
  /\ exists s', applySettings now s = Some s'
       /\ 5 <= workMinutes s' <= 60
       /\ 1 <= breakMinutes s' <= 10
       /\ 5 <= longBreakMinutes s' <= 60
       /\ (d_work (draftDurations s) = NaN -> workMinutes s' = 5)
       /\ (d_shortBreak (draftDurations s) = NaN -> breakMinutes s' = 1)
       /\ (d_longBreak (draftDurations s) = NaN -> longBreakMinutes s' = 5).
Proof.
  split; [reflexivity|].
  destruct (applySettings_wp now s) as (s' & Hs' & Hw & Hb & Hl & _).
  exists s'. split; [exact Hs'|].
  pose proof (clampMinutes_range (d_work (draftDurations s))).
  pose proof (clampMinutes_range (d_shortBreak (draftDurations s))).
  pose proof (clampMinutes_range (d_longBreak (draftDurations s))).
  unfold CONFIG.TIMER.MIN_BREAK_MINUTES, CONFIG.TIMER.MAX_BREAK_MINUTES,
    CONFIG.TIMER.MIN_LONG_BREAK_MINUTES in *.
  repeat split; try lia.
  - intros E. rewrite E in Hw. exact Hw.
  - intros E. rewrite E in Hb. exact Hb.
  - intros E. rewrite E in Hl. exact Hl.
Qed.

Lemma applySettings_total_bounded_witness :
  d_work (draftDurations draftAllNaN) = NaN
  /\ exists s', applySettings 0 draftAllNaN = Some s' /\ workMinutes s' = 5.
Proof.
  split; [reflexivity|].
  destruct (applySettings_total_bounded 0 draftAllNaN)
    as (_ & s' & Hs' & _ & _ & _ & Hnan & _).
  exists s'. split; [exact Hs' | apply Hnan; reflexivity].
Defined.

(** The floor that [applySettings] itself puts under the work duration is
    the literal 5, not [CONFIG.TIMER.MIN_WORK_MINUTES]: if the draft held a
    number below 10 it would be committed below 10.  The draft never
    holds one: each of its writers floors the work duration at 10 (see
    [onWorkInput_floor_is_10] and the invariant of the reachable states), so
    this floor is never what decides. *)
Lemma applySettings_work_floor_is_5 (now : Z) (s : state) (z : Z) :
  d_work (draftDurations s) = Num z ->
  z < 10 ->
  exists s', applySettings now s = Some s'
    /\ workMinutes s' = Z.max 5 z
    /\ workMinutes s' < CONFIG.TIMER.MIN_WORK_MINUTES.
Proof.
  intros Hd Hz.
  destruct (applySettings_wp now s) as (s' & Hs' & Hw & _).
  exists s'. split; [exact Hs'|].
  rewrite Hd in Hw. unfold clampMinutes in Hw.
  unfold CONFIG.TIMER.MIN_WORK_MINUTES.
  destruct (Z.ltb_spec z 1); [lia|]. destruct (Z.ltb_spec 60 z); lia.
Qed.

(** The input handler of the work field holds the draft at
    [CONFIG.TIMER.MIN_WORK_MINUTES] or above. *)
Lemma onWorkInput_floor_is_10 (parsed : jsnum) (s : state) :
  settingsOpen s = true ->
  exists v, d_work (draftDurations (onWorkInput parsed s)) = Num v
            /\ CONFIG.TIMER.MIN_WORK_MINUTES <= v <= 60.
Proof.
  intros Ho. unfold onWorkInput. rewrite Ho. cbn.
  pose proof (clampMinutes_range parsed).
  destruct (Z.ltb_spec (clampMinutes parsed) 10);
    destruct s; cbn; eexists; (split; [reflexivity|]);
    unfold CONFIG.TIMER.MIN_WORK_MINUTES; lia.
Qed.

(** ** Session statistics *)

(** What [finalizeCurrentPhase] does to a work phase when it is called with
    [completed = true], whatever is remaining: one more completed phase, the
    skip counters untouched, and a credit of the elapsed seconds when some
    elapsed and of the nominal duration when none did.  With nothing
    remaining, which is how its one caller with [completed = true] (the
    refresh that sees the countdown at zero) reaches it, the credit is the
    nominal duration, the larger of the two. *)
Lemma finalize_completed_work (s : state) :
  type (currentPhase s) = work ->
  let d := duration (currentPhase s) in
  let elapsed := Z.max 0 (d - remaining s) in
  let s' := finalizeCurrentPhase true s in
  let credit := totalWorkSeconds s' - totalWorkSeconds s in
  completedWorkSessions s' = completedWorkSessions s + 1
  /\ skippedNotStartedWorkSessions s' = skippedNotStartedWorkSessions s
  /\ skippedNotCompletedWorkSessions s' = skippedNotCompletedWorkSessions s
  /\ credit = (if 0 <? elapsed then elapsed else d)
  /\ (remaining s = 0 -> credit = d)
  /\ (remaining s = 0 -> 0 <= d -> credit = Z.max elapsed d)
  /\ (0 < elapsed < d -> credit = elapsed /\ credit < Z.max elapsed d).
Proof.
  intros Hw. unfold finalizeCurrentPhase. rewrite Hw. cbn zeta.
  destruct (Z.ltb_spec 0 (Z.max 0 (duration (currentPhase s) - remaining s)));
    destruct s; cbn in *; repeat split; intros; lia.
Qed.

(** ** Milestone acknowledgement *)

Lemma onMilestoneOk_effect (now : Z) (s : state) :
  schedule_ok s ->
  exists s', onMilestoneOk now s = Some s'
    /\ completedWorkSessions s' = 0
    /\ skippedNotStartedWorkSessions s' = 0
    /\ skippedNotCompletedWorkSessions s' = 0
    /\ currentPhaseIndex s' = 0
    /\ milestonePendingReset s' = false
    /\ totalWorkSeconds s' = totalWorkSeconds s.
Proof.
  open_state s. intros [Hph Hidx Hcur]. cbn in Hph, Hidx, Hcur.
  unfold buildPhases in Hph; cbn in Hph.
  unfold onMilestoneOk. cbn.
  assert (exists p0, phaseAt ph 0 = Some p0) as [p0 Hp0]
    by (rewrite Hph; eexists; reflexivity).
  to_wp. repeat wp_step; repeat split; reflexivity.
Qed.

(** C2 (as the code has it): after the milestone OK handler the three phase
    counters are 0, [currentPhaseIndex] is 0 and the milestone flag is down;
    [totalWorkSeconds] is not reset, it keeps its value. *)
Theorem onMilestoneOk_resets (now : Z) (s : state) :
  schedule_ok s ->
  exists s', onMilestoneOk now s = Some s'
    /\ completedWorkSessions s' = 0
    /\ skippedNotStartedWorkSessions s' = 0
    /\ skippedNotCompletedWorkSessions s' = 0
    /\ currentPhaseIndex s' = 0
    /\ milestonePendingReset s' = false
    /\ totalWorkSeconds s' = totalWorkSeconds s.
Proof. exact (onMilestoneOk_effect now s). Qed.

Lemma onMilestoneOk_resets_witness :
  completedWorkSessions milestoneUp = 1 /\ currentPhaseIndex milestoneUp = 7
  /\ milestonePendingReset milestoneUp = true
  /\ exists s', onMilestoneOk 1509000 milestoneUp = Some s'
       /\ completedWorkSessions s' = 0 /\ currentPhaseIndex s' = 0
       /\ milestonePendingReset s' = false /\ totalWorkSeconds s' = 1500.
Proof.
  split; [vm_compute; reflexivity|]. split; [vm_compute; reflexivity|].
  split; [vm_compute; reflexivity|].
  destruct (onMilestoneOk_resets 1509000 milestoneUp)
    as (s' & Hs' & Hc & _ & _ & Hi & Hm & Ht).
  - assert (currentPhaseIndex milestoneUp = 7) as E by (vm_compute; reflexivity).
    split; [vm_compute; reflexivity | rewrite E; lia | vm_compute; reflexivity].
  - exists s'. split; [exact Hs'|]. split; [exact Hc|]. split; [exact Hi|].
    split; [exact Hm|]. rewrite Ht. vm_compute. reflexivity.
Defined.

(** C2 as stated fails: after one completed 25-minute work phase and a set
    skipped to its end, acknowledging the milestone zeroes the three
    counters but leaves [totalWorkSeconds] at 1500. *)
Lemma onMilestoneOk_keeps_focus_seconds :
  exists s s',
    run oneFocusThenSkipAll initial = Some s
    /\ milestonePendingReset s = true
    /\ onMilestoneOk 1509000 s = Some s'
    /\ completedWorkSessions s' = 0
    /\ currentPhaseIndex s' = 0
    /\ totalWorkSeconds s' = 1500
    /\ totalWorkSeconds s' <> 0.
Proof.
  eexists. eexists.
  split; [vm_compute; reflexivity|].
  split; [reflexivity|].
  split; [vm_compute; reflexivity|].
  repeat split. discriminate.
Qed.

(** ** The invariant is kept by every handler *)

Lemma Inv_initial : Inv initial.
Proof.
  split; [split|split|]; cbn; try reflexivity; try lia; try discriminate.
  intros h Hh. inversion Hh.
Qed.

Lemma handleSingleClick_Inv (now : Z) (s : state) :
  Inv s -> wp (handleSingleClick now s) Inv.
Proof.
  open_state s. open_Inv. unfold handleSingleClick. cbn.
  repeat wp_step. all: solve_Inv.
Qed.

Lemma onTimeDblClick_Inv (now : Z) (s : state) :
  Inv s -> wp (onTimeDblClick now s) Inv.
Proof.
  open_state s. open_Inv. unfold onTimeDblClick, resetCurrentPhase. cbn.
  repeat wp_step. all: solve_Inv.
Qed.

(** The statistics do not enter the invariant. *)
Lemma finalizedState_Inv (completed : bool) (s : state) :
  Inv s -> Inv (finalizedState completed s).
Proof.
  open_state s. intros [[Hph Hidx Hcur] [Hint Hrun Hto Hset Hmil] Htg].
  split; [split|split|]; assumption.
Qed.

Lemma moveToNextPhase_Inv (autoStart completed : bool) (now : Z) (s : state) :
  Inv s -> settingsOpen s = false ->
  wp (moveToNextPhase autoStart completed now s) Inv.
Proof.
  intros HI Hso. unfold moveToNextPhase. rewrite finalizeCurrentPhase_eq.
  cbv zeta. generalize (type (currentPhase s)) as ty. intros ty.
  assert (settingsOpen (finalizedState completed s) = false) as Hso'
    by (destruct s; exact Hso).
  apply (finalizedState_Inv completed) in HI.
  revert HI Hso'. generalize (finalizedState completed s). clear s Hso.
  intros s. open_state s. open_Inv. cbn. intros ->.
  repeat wp_step.
  all: try match goal with
           | |- context [nextHandle (match ?x with _ => _ end)] => destruct x; cbn
           end.
  all: solve_Inv.
Qed.

Lemma onNextClick_Inv (now : Z) (s : state) :
  Inv s -> wp (onNextClick now s) Inv.
Proof.
  intros HI. unfold onNextClick.
  destruct (settingsOpen s) eqn:Hso; cbn; [apply wp_ret; exact HI|].
  destruct (milestonePendingReset s); [apply wp_ret; exact HI|].
  apply moveToNextPhase_Inv; assumption.
Qed.

Lemma onSettingsClick_Inv (now : Z) (s : state) :
  Inv s -> wp (onSettingsClick now s) Inv.
Proof.
  open_state s. open_Inv. unfold onSettingsClick. cbn.
  repeat wp_step. all: solve_Inv.
Qed.

Lemma applySettings_Inv (now : Z) (s : state) :
  Inv s -> settingsOpen s = true -> wp (applySettings now s) Inv.
Proof.
  open_state s. open_Inv. cbn. intros ->.
  unfold applySettings. cbn.
  match goal with |- context [if ?c then _ else _] => destruct c eqn:Hc end; cbn.
  all: rewrite buildPhases_length in Hc.
  all: lazymatch goal with
       | |- wp (phaseAt (buildPhases ?S) ?i ≫= _) _ =>
           destruct (phaseAt_buildPhases S i) as [p Hp];
             [first [lia
                    | apply orb_false_elim in Hc as [H1 H2];
                      apply Z.ltb_ge in H1; apply Z.leb_gt in H2; cbn in H2; lia]|]
       end.
  all: unfold resetCurrentPhase; repeat wp_step.
  all: try (apply orb_false_elim in Hc as [H1 H2];
            apply Z.ltb_ge in H1; apply Z.leb_gt in H2; cbn in H2).
  all: solve_Inv.
Qed.

Lemma onMilestoneOk_Inv (now : Z) (s : state) :
  Inv s -> wp (onMilestoneOk now s) Inv.
Proof.
  open_state s. open_Inv. unfold onMilestoneOk. cbn.
  repeat wp_step. all: solve_Inv.
Qed.

Lemma intervalCallback_Inv (h : nat) (now : Z) (s : state) :
  Inv s -> h ∈ activeIntervals s -> wp (intervalCallback now s) Inv.
Proof.
  open_state s. open_Inv. cbn. intros Hh.
  rewrite Hint in Hh. destruct ii as [h'|]; [|inversion Hh].
  cbn in Hrun. subst ir.
  destruct so; [specialize (Hset eq_refl); discriminate|].
  unfold intervalCallback, diffToTarget. cbn.
  wp_step. wp_step.
  - apply moveToNextPhase_Inv; [solve_Inv | reflexivity].
  - wp_step. solve_Inv.
Qed.

Lemma timeoutFire_Inv (h : nat) (now : Z) (s : state) :
  Inv s ->
  wp (autoStartCallback now
        (set_pendingTimeouts (drop_handle h (pendingTimeouts s)) s)) Inv.
Proof.
  open_state s. open_Inv. unfold autoStartCallback. cbn.
  repeat wp_step. all: solve_Inv.
Qed.

Lemma draft_edit_Inv (d : draft) (k : draft_key) (s : state) :
  Inv s -> Inv (set_draftDurations d s) /\ Inv (set_colorTargetPhase k s).
Proof.
  open_state s. intros [[Hph Hidx Hcur] [Hint Hrun Hto Hset Hmil] Htg].
  split; (split; [split|split|]; assumption).
Qed.

(** Every handler, run from a state satisfying the invariant on an event
    the browser can deliver, returns without raising and re-establishes the
    invariant. *)
Lemma dispatch_Inv (e : event) (s : state) :
  Inv s -> enabled e s = true -> wp (dispatch e s) Inv.
Proof.
  intros HI He. destruct e; cbn in *.
  - apply handleSingleClick_Inv, HI.
  - apply onTimeDblClick_Inv, HI.
  - apply onNextClick_Inv, HI.
  - apply onSettingsClick_Inv, HI.
  - apply applySettings_Inv; assumption.
  - apply onMilestoneOk_Inv, HI.
  - apply bool_decide_eq_true in He. eapply intervalCallback_Inv; eassumption.
  - apply timeoutFire_Inv, HI.
  - apply wp_ret. unfold onWorkInput. destruct (negb _); [exact HI|].
    apply draft_edit_Inv; [exact kWork | exact HI].
  - apply wp_ret. unfold onBreakInput. destruct (negb _); [exact HI|].
    apply draft_edit_Inv; [exact kWork | exact HI].
  - apply wp_ret. unfold onLongBreakInput. destruct (negb _); [exact HI|].
    apply draft_edit_Inv; [exact kWork | exact HI].
  - apply wp_ret. unfold updateDraftDurationFromHandle.
    destruct (negb _); [exact HI|]. cbv zeta.
    destruct (colorTargetPhase s); apply draft_edit_Inv; first [exact kWork | exact HI].
  - apply wp_ret. unfold activateSettingsPhase.
    apply draft_edit_Inv; [exact (draftDurations s) | exact HI].
Qed.

Lemma step_Inv (s : state) (e : event) (s' : state) :
  Inv s -> step s e s' -> Inv s'.
Proof.
  intros HI [He Hd]. exact (wp_elim _ _ _ (dispatch_Inv e s HI He) Hd).
Qed.

Lemma reachable_Inv (s : state) : reachable s -> Inv s.
Proof.
  induction 1 as [|s e s' _ IH Hstep]; [exact Inv_initial|].
  exact (step_Inv s e s' IH Hstep).
Qed.

(** From a reachable state no deliverable event makes its handler raise. *)
Lemma reachable_never_raises (s : state) (e : event) :
  reachable s -> enabled e s = true -> exists s', step s e s'.
Proof.
  intros Hr He.
  destruct (dispatch_Inv e s (reachable_Inv s Hr) He) as (s' & Hd & _).
  exists s'. split; assumption.
Qed.

(** ** Running and the target timestamp *)




(** ** Milestone *)

(** In a well-formed schedule the long break is the phase at index 7. *)
Lemma longBreak_index (s : state) :
  schedule_ok s -> type (currentPhase s) = longBreak -> currentPhaseIndex s = 7.
Proof.
  open_state s. intros [Hph Hidx Hcur]. cbn in *. unfold buildPhases in Hph. cbn in Hph.
  subst ph. intros Hty.
  assert (ci = 0 \/ ci = 1 \/ ci = 2 \/ ci = 3 \/ ci = 4 \/ ci = 5 \/ ci = 6 \/ ci = 7)
    as Hc by lia.
  repeat destruct Hc as [-> | Hc]; try subst ci; try reflexivity;
    injection Hcur as <-; discriminate.
Qed.

(** Leaving the long break raises the milestone and stops the engine
    without moving the index. *)
Lemma moveToNextPhase_longBreak (autoStart completed : bool) (now : Z) (s : state) :
  Inv s -> type (currentPhase s) = longBreak ->
  wp (moveToNextPhase autoStart completed now s) (fun s' =>
    milestonePendingReset s' = true
    /\ appState s' = MILESTONE
    /\ isRunning s' = false
    /\ intervalId s' = None
    /\ activeIntervals s' = []
    /\ currentPhaseIndex s' = currentPhaseIndex s).
Proof.
  open_state s. open_Inv. cbn. intros Hty.
  unfold moveToNextPhase. rewrite finalizeCurrentPhase_eq. cbn. rewrite Hty. cbn.
  repeat wp_step.
  all: unfold pauseIsNoop in *; cbn in *; subst li; destruct ir, ii; cbn in *;
    try discriminate; rewrite ?drop_handle_single; repeat split.
Qed.

(** While the milestone is pending, no event other than the OK button
    moves the index or lowers the flag. *)
Lemma milestone_pending_step (e : event) (s s' : state) :
  Inv s -> milestonePendingReset s = true ->
  (forall now, e <> MilestoneOk now) ->
  step s e s' ->
  currentPhaseIndex s' = currentPhaseIndex s /\ milestonePendingReset s' = true.
Proof.
  intros HI Hmp Hne [He Hd]. revert HI Hmp He Hd.
  open_state s. open_Inv. cbn. intros ->.
  destruct (Hmil eq_refl) as [-> ->]. cbn in Hrun.
  destruct ii; [discriminate|]. subst li.
  destruct e; cbn; intros He Hd;
    try (injection Hd as <-; split; reflexivity);
    try discriminate.
  all: first
    [ exfalso; eapply Hne; reflexivity
    | apply bool_decide_eq_true in He; inversion He
    | unfold autoStartCallback in Hd;
      apply startTimer_result in Hd as [[-> _] | [Hn _]];
      [split; reflexivity | unfold startIsNoop in Hn; cbn in Hn; discriminate] ].
Qed.

Lemma milestone_pending_run (es : list event) (s s' : state) :
  Inv s -> milestonePendingReset s = true ->
  Forall (fun e => forall now, e <> MilestoneOk now) es ->
  run es s = Some s' ->
  currentPhaseIndex s' = currentPhaseIndex s /\ milestonePendingReset s' = true.
Proof.
  revert s. induction es as [|e es IH]; intros s HI Hmp Hall Hrun; cbn in Hrun.
  - injection Hrun as <-. auto.
  - apply Forall_cons in Hall as [He Hall].
    destruct (enabled e s) eqn:Hen; [|discriminate].
    destruct (dispatch e s) as [s1|] eqn:Hd; [|discriminate]. cbn in Hrun.
    assert (step s e s1) as Hstep by (split; assumption).
    destruct (milestone_pending_step e s s1 HI Hmp He Hstep) as [Hi1 Hm1].
    destruct (IH s1 (step_Inv s e s1 HI Hstep) Hm1 Hall Hrun) as [Hi2 Hm2].
    split; [congruence | exact Hm2].
Qed.

(** C5: when an advance leaves the long break (index 7) the milestone
    becomes pending ([milestonePendingReset], label MILESTONE), the engine is
    stopped with no refresh left, and the index stays at 7; from then on no
    sequence of events without the OK button moves the index or ends the
    pending state; the OK button sets the index to 0 and ends it. *)
Theorem longBreak_exit_waits_for_ack :
  (forall autoStart completed now s,
     Inv s -> type (currentPhase s) = longBreak ->
     exists s', moveToNextPhase autoStart completed now s = Some s'
       /\ milestonePendingReset s' = true /\ appState s' = MILESTONE
       /\ isRunning s' = false /\ intervalId s' = None /\ activeIntervals s' = []
       /\ currentPhaseIndex s = 7 /\ currentPhaseIndex s' = 7)
  /\ (forall es s s',
        Inv s -> milestonePendingReset s = true ->
        Forall (fun e => forall now, e <> MilestoneOk now) es ->
        run es s = Some s' ->
        currentPhaseIndex s' = currentPhaseIndex s /\ milestonePendingReset s' = true)
  /\ (forall now s,
        Inv s -> milestonePendingReset s = true ->
        exists s', step s (MilestoneOk now) s'
          /\ currentPhaseIndex s' = 0 /\ milestonePendingReset s' = false).
Proof.
  split; [|split].
  - intros a c now s HI Hty.
    pose proof (longBreak_index s (inv_schedule s HI) Hty) as H7.
    destruct (moveToNextPhase_longBreak a c now s HI Hty)
      as (s' & Hs' & Hm & Ha & Hr & Hi & Hl & Hidx).
    exists s'. repeat split; try assumption. congruence.
  - exact milestone_pending_run.
  - intros now s HI Hmp.
    destruct (onMilestoneOk_effect now s (inv_schedule s HI))
      as (s' & Hs' & _ & _ & _ & Hi & Hm & _).
    exists s'. split; [split; [exact Hmp | exact Hs']|]. split; assumption.
Qed.

Lemma longBreak_exit_waits_for_ack_witness :
  (exists s', moveToNextPhase false false 1508000 longBreakIdle = Some s'
     /\ milestonePendingReset s' = true /\ currentPhaseIndex s' = 7)
  /\ (forall s', run [TimeClick 1509000; NextClick 1510000; TimeDblClick 1511000]
                   milestoneUp = Some s' ->
                 currentPhaseIndex s' = 7 /\ milestonePendingReset s' = true)
  /\ (exists s', step milestoneUp (MilestoneOk 1512000) s' /\ currentPhaseIndex s' = 0).
Proof.
  destruct longBreak_exit_waits_for_ack as (Hleave & Hstay & Hack).
  assert (Inv longBreakIdle) as HI1.
  { set (s := longBreakIdle). vm_compute in s. subst s.
    split; [split|split|]; cbn; try reflexivity; try lia; try discriminate.
    intros h Hh. inversion Hh. }
  assert (Inv milestoneUp) as HI2.
  { set (s := milestoneUp). vm_compute in s. subst s.
    split; [split|split|]; cbn; try reflexivity; try lia; try discriminate;
      try (intros _; split; reflexivity).
    intros h Hh. inversion Hh. }
  split; [|split].
  - destruct (Hleave false false 1508000 longBreakIdle HI1 eq_refl)
      as (s' & Hs' & Hm & _ & _ & _ & _ & _ & H7).
    exists s'. split; [exact Hs' | split; [exact Hm | exact H7]].
  - intros s' Hrun.
    apply (Hstay _ milestoneUp s' HI2 eq_refl) in Hrun; [exact Hrun|].
    repeat constructor; discriminate.
  - destruct (Hack 1512000 milestoneUp HI2 eq_refl) as (s' & Hs' & H0 & _).
    exists s'. split; [exact Hs' | exact H0].
Defined.

(** ** Wall-clock accuracy *)

Lemma Math_round_div_exact (m : Z) : Math_round_div (1000 * m) 1000 = m.
Proof.
  unfold Math_round_div.
  replace (2 * (1000 * m) + 1000) with (m * (2 * 1000) + 1000) by lia.
  rewrite Z.div_add_l by lia. rewrite Z.div_small by lia. lia.
Qed.

Lemma Math_round_div_pos (n : Z) : 500 <= n -> 1 <= Math_round_div n 1000.
Proof. intros Hn. unfold Math_round_div. apply Z.div_le_lower_bound; lia. Qed.

Section WallClock.

(** The countdown is started at time [T] (ms) with [R] seconds remaining
    and is looked at [k] whole seconds later, before it runs out. *)
Variables T R k : Z.
Hypothesis Hk : 0 < k < R.

Lemma tick_before_end (t : Z) (s : state) :
  countingTo (T + R * 1000) s -> t <= T + 1000 * k ->
  exists s', intervalCallback t s = Some s' /\ countingTo (T + R * 1000) s'
             /\ isRunning s' = isRunning s
             /\ remaining s' = Math_round_div (T + R * 1000 - t) 1000.
Proof using Hk.
  open_state s. intros [Htg Hcur] Ht. cbn in Htg, Hcur. subst tg. unfold countingTo.
  pose proof (Math_round_div_pos (T + R * 1000 - t) ltac:(lia)) as Hpos.
  unfold intervalCallback, diffToTarget. cbn. to_wp. wp_step.
  destruct (Z.leb_spec (Z.max 0 (Math_round_div (T + R * 1000 - t) 1000)) 0); [lia|].
  wp_step. repeat split; try assumption. cbn. lia.
Qed.

Lemma ticks_before_end (times : list Z) (s : state) :
  countingTo (T + R * 1000) s -> Forall (fun t => t <= T + 1000 * k) times ->
  exists s', ticks times s = Some s' /\ countingTo (T + R * 1000) s'
             /\ isRunning s' = isRunning s.
Proof using Hk.
  revert s. induction times as [|t times IH]; intros s Hs Hall; cbn.
  - exists s. auto.
  - apply Forall_cons in Hall as [Ht Hall].
    destruct (tick_before_end t s Hs Ht) as (s1 & -> & Hs1 & Hr1 & _). cbn.
    destruct (IH s1 Hs1 Hall) as (s' & Hs' & Hc' & Hr').
    exists s'. repeat split; [exact Hs' | apply Hc' | apply Hc' | congruence].
Qed.

(** C6: after [startTimer] at time [T] with [R] seconds remaining, the
    target is [T + R * 1000]; whatever refreshes ran in the meantime (any
    number of them, at any times up to [T + k] seconds), the refresh at
    [T + k] seconds sets [remaining] to [R - k], and so does a pause at
    that time. *)
Theorem wall_clock_accuracy (times : list Z) (s : state) :
  schedule_ok s ->
  isRunning s = false -> settingsOpen s = false -> milestonePendingReset s = false ->
  remaining s = R ->
  Forall (fun t => t <= T + 1000 * k) times ->
  exists s1 s2 s3 s4,
    startTimer T s = Some s1
    /\ targetTimestamp s1 = Some (T + R * 1000)
    /\ ticks times s1 = Some s2
    /\ intervalCallback (T + 1000 * k) s2 = Some s3
    /\ remaining s3 = R - k
    /\ pauseTimer (T + 1000 * k) s2 = Some s4
    /\ remaining s4 = R - k.
Proof using Hk.
  intros [_ _ Hcur] Hir Hso Hmp Hrem Hall.
  assert (startTimer T s = Some (startedState T (currentPhase s) s)) as Hstart.
  { rewrite (startTimer_total T s (currentPhase s) Hcur).
    unfold startIsNoop. rewrite Hir, Hso, Hmp. reflexivity. }
  assert (countingTo (T + R * 1000) (startedState T (currentPhase s) s)
          /\ isRunning (startedState T (currentPhase s) s) = true) as [Hc1 Hr1].
  { revert Hcur Hrem. clear. open_state s. unfold countingTo. cbn. intros Hcur ->.
    repeat split. exact Hcur. }
  destruct (ticks_before_end times _ Hc1 Hall) as (s2 & Hticks & Hc2 & Hrun2).
  destruct (tick_before_end (T + 1000 * k) s2 Hc2 ltac:(lia)) as (s3 & Hs3 & _ & _ & Hr3).
  assert (Math_round_div (T + R * 1000 - (T + 1000 * k)) 1000 = R - k) as Hround.
  { replace (T + R * 1000 - (T + 1000 * k)) with (1000 * (R - k)) by lia.
    apply Math_round_div_exact. }
  assert (isRunning s2 = true) as Hr2 by congruence.
  exists (startedState T (currentPhase s) s), s2, s3.
  destruct Hc2 as [Htg2 Hcur2].
  eexists. split; [exact Hstart|]. split; [apply Hc1|]. split; [exact Hticks|].
  split; [exact Hs3|]. split; [rewrite Hr3, Hround; reflexivity|].
  rewrite (pauseTimer_total _ s2 _ Hcur2).
  unfold pauseIsNoop. rewrite Hr2. cbn. split; [reflexivity|].
  revert Htg2. clear -Hround Hk. open_state s2. cbn. intros ->. rewrite Hround. lia.
Qed.

End WallClock.

Lemma wall_clock_accuracy_witness :
  exists s1 s2 s3 s4,
    startTimer 0 initial = Some s1
    /\ targetTimestamp s1 = Some (0 + 1500 * 1000)
    /\ ticks [250; 500; 9000; 59750] s1 = Some s2
    /\ intervalCallback (0 + 1000 * 60) s2 = Some s3
    /\ remaining s3 = 1500 - 60
    /\ pauseTimer (0 + 1000 * 60) s2 = Some s4
    /\ remaining s4 = 1500 - 60.
Proof.
  apply (wall_clock_accuracy 0 1500 60 ltac:(lia) [250; 500; 9000; 59750] initial).
  - split; cbn; [reflexivity | lia | reflexivity].
  - reflexivity.
  - reflexivity.
  - reflexivity.
  - reflexivity.
  - repeat constructor; lia.
Defined.

(** ** Pausing twice *)

(** C9: [pauseTimer] is idempotent.  Whenever a first call returns, a second
    call right after it (at any clock reading) returns the very same state:
    it takes the early exit, so [remaining] and every other variable are
    unchanged.  The first call does return on every state with a valid
    schedule. *)
Theorem pauseTimer_idempotent (now1 now2 : Z) (s : state) :
  (forall s1, pauseTimer now1 s = Some s1 ->
     pauseTimer now2 s1 = Some s1
     /\ (forall s2, pauseTimer now2 s1 = Some s2 -> remaining s2 = remaining s1))
  /\ (schedule_ok s -> exists s1, pauseTimer now1 s = Some s1).
Proof.
  split.
  - intros s1 H1.
    assert (pauseTimer now2 s1 = Some s1) as H2.
    { apply pauseTimer_result in H1 as [[-> Hn] | (Hn & cp & _ & ->)].
      - unfold pauseTimer. unfold pauseIsNoop in Hn. rewrite Hn. reflexivity.
      - destruct s; reflexivity. }
    split; [exact H2|]. intros s2 H3. congruence.
  - intros [_ _ Hcur]. rewrite (pauseTimer_total now1 s _ Hcur). eauto.
Qed.

Lemma pauseTimer_idempotent_witness :
  exists s1, pauseTimer 1000 runningAt0 = Some s1
    /\ pauseTimer 2000 s1 = Some s1 /\ remaining s1 = 1499.
Proof.
  destruct (pauseTimer_idempotent 1000 2000 runningAt0) as [Hsame Htotal].
  exists (pausedState 1000 (currentPhase runningAt0) runningAt0).
  destruct (Hsame (pausedState 1000 (currentPhase runningAt0) runningAt0))
    as [H2 _]; [reflexivity|].
  split; [reflexivity | split; [exact H2 | reflexivity]].
Defined.

(** ** The delayed auto-start *)

(** C7 (what the code does): with the delayed auto-start pending,
    [pauseTimer] takes its early exit (the engine is not running and no
    refresh is scheduled), so it cancels nothing: the state is unchanged
    and the timeout stays pending.  Opening the settings panel goes through
    that same call; if the panel is closed again before the delay is over,
    the timeout then fires and starts the countdown although the user never
    asked for it. *)
Theorem ghost_start_after_settings :
  exists s1 s2 s3,
    run autoStartPending initial = Some s1
    /\ isRunning s1 = false /\ pendingTimeouts s1 = [2%nat]
    /\ pauseTimer 1500100 s1 = Some s1
    /\ run settingsDuringDelay initial = Some s2
    /\ isRunning s2 = false /\ settingsOpen s2 = false
    /\ pendingTimeouts s2 = [2%nat]
    /\ step s2 (TimeoutFire 2 1500600) s3
    /\ isRunning s3 = true
    /\ targetTimestamp s3 = Some (1500600 + 300 * 1000)
    /\ s3 <> s2.
Proof.
  eexists. eexists. eexists.
  split; [vm_compute; reflexivity|].
  split; [reflexivity|]. split; [reflexivity|].
  split; [vm_compute; reflexivity|].
  split; [vm_compute; reflexivity|].
  split; [reflexivity|]. split; [reflexivity|]. split; [reflexivity|].
  split; [split; vm_compute; reflexivity|].
  split; [reflexivity|]. split; [reflexivity|].
  intros H. apply (f_equal isRunning) in H. discriminate.
Qed.

(** A manual start, by contrast, is safe: the pending callback finds the
    engine running and changes nothing but the browser's table. *)
Lemma ghost_start_after_manual_start (h : nat) (now : Z) (s s' : state) :
  isRunning s = true ->
  dispatch (TimeoutFire h now) s = Some s' ->
  s' = set_pendingTimeouts (drop_handle h (pendingTimeouts s)) s.
Proof.
  intros Hr Hd. cbn in Hd. unfold autoStartCallback in Hd.
  apply startTimer_result in Hd as [[-> _] | [Hn _]]; [reflexivity|].
  unfold startIsNoop in Hn. destruct s; cbn in *. subst. discriminate.
Qed.

(** * Further properties of the timer *)

(** ** The schedule, entry by entry *)

Lemma phaseAt_schedule (w b l i : Z) (p : phase) :
  phaseAt (schedule w b l) i = Some p -> 0 <= i < 8 /\ p = phaseOf w b l i.
Proof.
  intros Hp.
  assert (0 <= i < 8) as Hi.
  { destruct (Z_lt_dec i 0) as [Hn|Hn]; [|destruct (Z_lt_dec i 8) as [Hl|Hl]; [lia|]].
    - unfold phaseAt in Hp. apply Z.ltb_lt in Hn. rewrite Hn in Hp. discriminate.
    - assert (is_Some (phaseAt (schedule w b l) i)) as Hs by eauto.
      destruct (phaseAt (schedule w b l) i) eqn:E; [|discriminate].
      clear Hs Hp. unfold phaseAt in E. destruct (i <? 0); [discriminate|].
      apply lookup_lt_Some in E. cbn in E. lia. }
  split; [exact Hi|].
  assert (i = 0 \/ i = 1 \/ i = 2 \/ i = 3 \/ i = 4 \/ i = 5 \/ i = 6 \/ i = 7) as Hc by lia.
  repeat destruct Hc as [-> | Hc]; try subst i; injection Hp as <-; reflexivity.
Qed.

Lemma phaseOf_duration (w b l i : Z) :
  0 <= w -> 0 <= b -> 0 <= l -> 0 <= duration (phaseOf w b l i).
Proof.
  intros. unfold phaseOf. destruct (i =? 7); [cbn; lia|].
  destruct (Z.even i); cbn; lia.
Qed.

Lemma phaseOf_type_longBreak (w b l i : Z) :
  type (phaseOf w b l i) = longBreak <-> i = 7.
Proof.
  unfold phaseOf. destruct (Z.eqb_spec i 7); [tauto|].
  destruct (Z.even i); cbn; split; (discriminate || tauto).
Qed.

Lemma phaseOf_type_work (w b l i : Z) :
  type (phaseOf w b l i) = work <-> (i <> 7 /\ Z.even i = true).
Proof.
  unfold phaseOf. destruct (Z.eqb_spec i 7); [cbn; split; [discriminate|tauto]|].
  destruct (Z.even i); cbn; split; try discriminate; try tauto.
  intros [_ H]. discriminate.
Qed.

(** Half of the index, rounded up, counts the work phases before it. *)
Lemma half_succ_even (i : Z) : Z.even i = true -> (i + 1 + 1) / 2 = (i + 1) / 2 + 1.
Proof. intros H. apply Z.even_spec in H as [k ->]. Z.div_mod_to_equations. lia. Qed.

Lemma half_succ_odd (i : Z) : Z.even i = false -> (i + 1 + 1) / 2 = (i + 1) / 2.
Proof.
  intros H. assert (Z.odd i = true) as Ho by (rewrite <- Z.negb_even, H; reflexivity).
  apply Z.odd_spec in Ho as [k ->]. Z.div_mod_to_equations. lia.
Qed.

Lemma workPhasesBefore_half (s : state) :
  phases s = buildPhases s -> 0 <= currentPhaseIndex s < 8 ->
  workPhasesBefore s = (currentPhaseIndex s + 1) / 2.
Proof.
  unfold workPhasesBefore. intros -> Hi.
  assert (currentPhaseIndex s = 0 \/ currentPhaseIndex s = 1 \/ currentPhaseIndex s = 2
          \/ currentPhaseIndex s = 3 \/ currentPhaseIndex s = 4 \/ currentPhaseIndex s = 5
          \/ currentPhaseIndex s = 6 \/ currentPhaseIndex s = 7) as Hc by lia.
  repeat destruct Hc as [-> | Hc]; try rewrite Hc; reflexivity.
Qed.

Lemma clampMinutes_id (z : Z) : 1 <= z <= 60 -> clampMinutes (Num z) = z.
Proof.
  intros Hz. unfold clampMinutes.
  destruct (Z.ltb_spec z 1); [lia|]. destruct (Z.ltb_spec 60 z); lia.
Qed.

(** ** The further invariants are kept by every handler *)

Lemma drop_handle_nil (h : nat) : drop_handle h [] = [].
Proof. reflexivity. Qed.

Ltac open_Extra :=
  intros [Hw Hb Hl Hdw Hdb Hdl Hrem Htot Hcnt Hstat Hpb Hmp7 Hpend];
  cbn in Hw, Hb, Hl, Hdw, Hdb, Hdl, Hrem, Htot, Hcnt, Hstat, Hpb, Hmp7, Hpend;
  unfold workPhasesCounted in Hstat; cbn in Hstat;
  destruct Hcnt as (Hcw & Hsn & Hsc & Htw).

(** Replace each phase read from the schedule by its closed form. *)
Ltac phase_forms :=
  repeat match goal with
         | H : phaseAt _ _ = Some ?p |- _ => apply phaseAt_schedule in H as [? ?]
         end.

Ltac split_ifs :=
  repeat match goal with
         | |- context [if ?c then _ else _] => destruct c eqn:?
         | |- context [match ?c with _ => _ end] => destruct c eqn:?
         end.

Ltac solve_pending :=
  match goal with
  | H : _ = [] \/ _ |- _ =>
      let Hai := fresh "Hai" in
      let Hpt := fresh "Hpt" in
      destruct H as [Hpt | (hp & Hai & Hpt)]; rewrite Hpt;
      [ | first [ discriminate Hai | injection Hai as <- | subst ] ]; cbn;
      try match goal with
          | |- context [match ?a with _ => _ end] => is_var a; destruct a
          end;
      rewrite ?drop_handle_single, ?drop_handle_nil; cbn;
      rewrite ?drop_handle_single, ?drop_handle_nil;
      first [ left; reflexivity | right; eexists; split; reflexivity ]
  end.

(** What the proofs need to know of the current phase. *)
Ltac current_phase_facts :=
  match goal with
  | Hcur : phaseAt _ ?ci = Some ?cp, Hw : 10 <= ?wm <= 60 |- _ =>
      let Hcp := fresh "Hcp" in
      pose proof (phaseAt_schedule _ _ _ _ _ Hcur) as [_ Hcp];
      assert (0 <= duration cp) as Hd by (rewrite Hcp; apply phaseOf_duration; lia);
      assert (type cp = longBreak <-> ci = 7) as Hlb
        by (rewrite Hcp; apply phaseOf_type_longBreak);
      assert (type cp = work <-> (ci <> 7 /\ Z.even ci = true)) as Hwk
        by (rewrite Hcp; apply phaseOf_type_work);
      clear Hcp
  end.

Ltac decided :=
  repeat match goal with
         | H : bool_decide _ = true |- _ => apply bool_decide_eq_true in H
         | H : bool_decide _ = false |- _ => apply bool_decide_eq_false in H
         end.

(** The counters after [finalizeCurrentPhase] against the index after the
    advance. *)
Ltac solve_stats :=
  match goal with
  | Hlb : type ?cp = longBreak <-> ?ci = 7,
    Hwk : type ?cp = work <-> _,
    Hidx : 0 <= ?ci < 8 |- _ =>
      destruct (type cp) eqn:Hty; cbn;
      [ destruct Hwk as [Hwk _]; destruct (Hwk eq_refl) as [Hn7 Hev];
        pose proof (half_succ_even ci Hev)
      | assert (ci <> 7) as Hn7 by (intros E; apply Hlb in E; discriminate);
        assert (Z.even ci = false) as Hev
          by (destruct (Z.even ci) eqn:E; [|reflexivity];
              destruct Hwk as [_ Hwk]; discriminate Hwk; auto);
        pose proof (half_succ_odd ci Hev)
      | assert (ci = 7) as H7 by (apply Hlb; reflexivity) ];
      rewrite ?Z.rem_small by lia;
      split_ifs; cbn in *; try discriminate; try congruence; lia
  end.

Ltac solve_draft :=
  first [ assumption | eexists; split; [reflexivity | lia] ].

Ltac Extra_clauses :=
  split; unfold workPhasesCounted; cbn;
  [ try lia | try lia | try lia
  | try solve_draft | try solve_draft | try solve_draft
  | (* remaining *)
    try first [ lia
              | match goal with
                | H : ?p = phaseOf _ _ _ _ |- 0 <= duration ?p =>
                    rewrite H; apply phaseOf_duration; cbn; lia
                end
              | split_ifs; lia ]
  | (* totalSeconds *)
    try first [ assumption | reflexivity | split_ifs; assumption ]
  | (* counters are not negative *)
    try (repeat split; first [ lia | split_ifs; lia ])
  | (* counters and index *)
    try first [ assumption | reflexivity | solve_stats ]
  | (* settings *)
    try first [ assumption | discriminate | reflexivity | intros; congruence ]
  | (* milestone *)
    try first [ assumption | discriminate | intros; congruence | intros; tauto ]
  | (* pending auto-start *)
    try first [ assumption | solve_pending ] ].

Ltac solve_Extra :=
  repeat match goal with
         | H : pauseIsNoop _ = _ |- _ => clear H
         | H : startIsNoop _ = _ |- _ => clear H
         end;
  phase_forms;
  first [ solve [ exfalso;
                  match goal with
                  | Hn : type _ <> longBreak, Hlb : _ <-> _, H7 : true = true -> _ |- _ =>
                      apply Hn, Hlb, H7; reflexivity
                  end ]
        | Extra_clauses ].

Lemma Extra_initial : Extra initial.
Proof.
  split; cbn; try lia; try reflexivity; try discriminate;
    try (eexists; split; [reflexivity|lia]).
  left. reflexivity.
Qed.

Lemma handleSingleClick_Extra (now : Z) (s : state) :
  Inv s -> Extra s -> wp (handleSingleClick now s) Extra.
Proof.
  open_state s. open_Inv. open_Extra. unfold handleSingleClick. cbn.
  repeat wp_step. all: solve_Extra.
Qed.

Lemma onTimeDblClick_Extra (now : Z) (s : state) :
  Inv s -> Extra s -> wp (onTimeDblClick now s) Extra.
Proof.
  open_state s. open_Inv. open_Extra. unfold onTimeDblClick, resetCurrentPhase. cbn.
  repeat wp_step. all: solve_Extra.
Qed.

Lemma onSettingsClick_Extra (now : Z) (s : state) :
  Inv s -> Extra s -> wp (onSettingsClick now s) Extra.
Proof.
  open_state s. open_Inv. open_Extra. unfold onSettingsClick. cbn.
  repeat wp_step. all: solve_Extra.
Qed.

Lemma onMilestoneOk_Extra (now : Z) (s : state) :
  Inv s -> Extra s -> milestonePendingReset s = true ->
  wp (onMilestoneOk now s) Extra.
Proof.
  open_state s. open_Inv. open_Extra. cbn. intros ->.
  destruct (Hmil eq_refl) as [-> _].
  unfold onMilestoneOk. cbn.
  repeat wp_step. all: solve_Extra.
Qed.

Lemma timeoutFire_Extra (h : nat) (now : Z) (s : state) :
  Inv s -> Extra s -> h ∈ pendingTimeouts s ->
  wp (autoStartCallback now
        (set_pendingTimeouts (drop_handle h (pendingTimeouts s)) s)) Extra.
Proof.
  open_state s. open_Inv. open_Extra. unfold autoStartCallback. cbn. intros Hh.
  assert (pt = [h]) as ->.
  { destruct Hpend as [-> | (h' & _ & ->)]; [inversion Hh|].
    apply list_elem_of_singleton in Hh. congruence. }
  rewrite drop_handle_single. clear Hpend.
  assert (@nil nat = [] \/ exists h0, ai = Some h0 /\ @nil nat = [h0]) as Hpend by (left; reflexivity).
  repeat wp_step. all: solve_Extra.
Qed.

Lemma moveToNextPhase_Extra (autoStart completed : bool) (now : Z) (s : state) :
  Inv s -> Extra s -> settingsOpen s = false ->
  wp (moveToNextPhase autoStart completed now s) Extra.
Proof.
  open_state s. open_Inv. open_Extra. cbn. intros ->.
  current_phase_facts.
  unfold moveToNextPhase. rewrite finalizeCurrentPhase_eq. cbn.
  repeat wp_step.
  all: try match goal with
           | |- context [nextHandle (match ?x with _ => _ end)] => destruct x; cbn
           end.
  all: decided.
  all: solve_Extra.
Qed.

Lemma onNextClick_Extra (now : Z) (s : state) :
  Inv s -> Extra s -> wp (onNextClick now s) Extra.
Proof.
  intros HI HE. unfold onNextClick.
  destruct (settingsOpen s) eqn:Hso; cbn; [apply wp_ret; exact HE|].
  destruct (milestonePendingReset s); [apply wp_ret; exact HE|].
  apply moveToNextPhase_Extra; assumption.
Qed.

Lemma applySettings_Extra (now : Z) (s : state) :
  Inv s -> Extra s -> settingsOpen s = true -> wp (applySettings now s) Extra.
Proof.
  open_state s. open_Inv. open_Extra. cbn. intros ->.
  specialize (Hpb eq_refl). subst pb.
  destruct dd as [dw db dl]. cbn in Hdw, Hdb, Hdl.
  destruct Hdw as (a & -> & Ha), Hdb as (b & -> & Hb'), Hdl as (c & -> & Hc').
  unfold applySettings. cbn.
  rewrite !clampMinutes_id by lia.
  unfold CONFIG.TIMER.MIN_BREAK_MINUTES, CONFIG.TIMER.MAX_BREAK_MINUTES,
    CONFIG.TIMER.MIN_LONG_BREAK_MINUTES.
  match goal with |- context [if ?c then _ else _] => destruct c eqn:Hc end; cbn.
  all: rewrite buildPhases_length in Hc.
  all: apply orb_true_iff in Hc || apply orb_false_elim in Hc.
  1: { destruct Hc as [Hc|Hc]; [apply Z.ltb_lt in Hc | apply Z.leb_le in Hc]; lia. }
  destruct Hc as [H1 H2]. apply Z.ltb_ge in H1. apply Z.leb_gt in H2.
  lazymatch goal with
  | |- wp (phaseAt (buildPhases ?S) ?i ≫= _) _ =>
      destruct (phaseAt_buildPhases S i) as [p Hp]; [lia|]
  end.
  unfold resetCurrentPhase. repeat wp_step.
  all: solve_Extra.
  all: try (eexists; split; [reflexivity | lia]).
Qed.

Lemma intervalCallback_Extra (h : nat) (now : Z) (s : state) :
  Inv s -> Extra s -> h ∈ activeIntervals s -> wp (intervalCallback now s) Extra.
Proof.
  open_state s. open_Inv. open_Extra. cbn. intros Hh.
  rewrite Hint in Hh. destruct ii as [h'|]; [|inversion Hh].
  cbn in Hrun. subst ir.
  destruct so; [specialize (Hset eq_refl); discriminate|].
  unfold intervalCallback, diffToTarget. cbn.
  wp_step. wp_step.
  - apply moveToNextPhase_Extra; [solve_Inv | solve_Extra | reflexivity].
  - wp_step. solve_Extra.
Qed.

Lemma onWorkInput_Extra (parsed : jsnum) (s : state) :
  Extra s -> Extra (onWorkInput parsed s).
Proof.
  open_state s. open_Extra. unfold onWorkInput. cbn.
  pose proof (clampMinutes_range parsed).
  destruct so; cbn; [|Extra_clauses; tauto].
  destruct (Z.ltb_spec (clampMinutes parsed) 10);
    Extra_clauses; try tauto; eexists; (split; [reflexivity | lia]).
Qed.

Lemma onBreakInput_Extra (parsed : jsnum) (s : state) :
  Extra s -> Extra (onBreakInput parsed s).
Proof.
  open_state s. open_Extra. unfold onBreakInput. cbn.
  pose proof (clampMinutes_range parsed).
  destruct so; cbn; [|Extra_clauses; tauto].
  destruct (Z.ltb_spec (clampMinutes parsed) 1);
    [|destruct (Z.ltb_spec 10 (clampMinutes parsed))];
    Extra_clauses; try tauto; eexists; (split; [reflexivity | lia]).
Qed.

Lemma onLongBreakInput_Extra (parsed : jsnum) (s : state) :
  Extra s -> Extra (onLongBreakInput parsed s).
Proof.
  open_state s. open_Extra. unfold onLongBreakInput. cbn.
  pose proof (clampMinutes_range parsed).
  destruct so; cbn; [|Extra_clauses; tauto].
  destruct (Z.ltb_spec (clampMinutes parsed) 5);
    Extra_clauses; try tauto; eexists; (split; [reflexivity | lia]).
Qed.

Lemma updateDraftDurationFromHandle_Extra (rounded : jsnum) (s : state) :
  Extra s -> Extra (updateDraftDurationFromHandle rounded s).
Proof.
  open_state s. open_Extra. unfold updateDraftDurationFromHandle. cbn.
  destruct so; cbn; [|Extra_clauses; tauto].
  match goal with
  | |- context [clampMinutes ?m] => pose proof (clampMinutes_range m); generalize dependent (clampMinutes m)
  end.
  intros m Hm.
  destruct ck; cbn;
    [ destruct (Z.ltb_spec m 10)
    | destruct (Z.ltb_spec m 1); [|destruct (Z.ltb_spec 10 m)]
    | destruct (Z.ltb_spec m 5) ];
    Extra_clauses; try tauto; eexists; (split; [reflexivity | lia]).
Qed.

Lemma activateSettingsPhase_Extra (k : draft_key) (s : state) :
  Extra s -> Extra (activateSettingsPhase k s).
Proof. open_state s. open_Extra. Extra_clauses; tauto. Qed.

Lemma dispatch_Extra (e : event) (s : state) :
  Inv s -> Extra s -> enabled e s = true -> wp (dispatch e s) Extra.
Proof.
  intros HI HE He. destruct e; cbn in *.
  - apply handleSingleClick_Extra; assumption.
  - apply onTimeDblClick_Extra; assumption.
  - apply onNextClick_Extra; assumption.
  - apply onSettingsClick_Extra; assumption.
  - apply applySettings_Extra; assumption.
  - apply onMilestoneOk_Extra; assumption.
  - apply bool_decide_eq_true in He. eapply intervalCallback_Extra; eassumption.
  - apply bool_decide_eq_true in He. apply timeoutFire_Extra; assumption.
  - apply wp_ret, onWorkInput_Extra, HE.
  - apply wp_ret, onBreakInput_Extra, HE.
  - apply wp_ret, onLongBreakInput_Extra, HE.
  - apply wp_ret, updateDraftDurationFromHandle_Extra, HE.
  - apply wp_ret, activateSettingsPhase_Extra, HE.
Qed.

Lemma step_Extra (s : state) (e : event) (s' : state) :
  Inv s -> Extra s -> step s e s' -> Extra s'.
Proof.
  intros HI HE [He Hd]. exact (wp_elim _ _ _ (dispatch_Extra e s HI HE He) Hd).
Qed.

Lemma reachable_Extra (s : state) : reachable s -> Extra s.
Proof.
  induction 1 as [|s e s' Hr IH Hstep]; [exact Extra_initial|].
  exact (step_Extra s e s' (reachable_Inv s Hr) IH Hstep).
Qed.

(** ** What holds in every reachable state *)

Lemma run_reachable (es : list event) (s s' : state) :
  reachable s -> run es s = Some s' -> reachable s'.
Proof.
  revert s. induction es as [|e es IH]; intros s Hr Hrun; cbn in Hrun.
  - injection Hrun as <-. exact Hr.
  - destruct (enabled e s) eqn:He; [|discriminate].
    destruct (dispatch e s) as [s1|] eqn:Hd; [|discriminate]. cbn in Hrun.
    apply (IH s1); [|exact Hrun].
    apply (reachable_step s e s1 Hr). split; assumption.
Qed.

(** X1: through the handlers of the page the committed durations never
    leave their ranges: work 10..60, short break 1..10, long break 5..60
    minutes, and the draft holds numbers within the same ranges.  (The
    weaker floor of 5 in [applySettings] is never exercised.) *)
Theorem reachable_durations_bounded (s : state) :
  reachable s ->
  CONFIG.TIMER.MIN_WORK_MINUTES <= workMinutes s <= 60
  /\ CONFIG.TIMER.MIN_BREAK_MINUTES <= breakMinutes s <= CONFIG.TIMER.MAX_BREAK_MINUTES
  /\ CONFIG.TIMER.MIN_LONG_BREAK_MINUTES <= longBreakMinutes s <= 60
  /\ draftWithin 10 60 (d_work (draftDurations s))
  /\ draftWithin 1 10 (d_shortBreak (draftDurations s))
  /\ draftWithin 5 60 (d_longBreak (draftDurations s))
  /\ Forall (fun p => 60 <= duration p <= 3600) (phases s).
Proof.
  intros Hr. pose proof (reachable_Extra s Hr) as HE.
  pose proof (reachable_Inv s Hr) as [[Hph _ _] _ _].
  destruct HE as [Hw Hb Hl Hdw Hdb Hdl _ _ _ _ _ _ _].
  unfold CONFIG.TIMER.MIN_WORK_MINUTES, CONFIG.TIMER.MIN_BREAK_MINUTES,
    CONFIG.TIMER.MAX_BREAK_MINUTES, CONFIG.TIMER.MIN_LONG_BREAK_MINUTES.
  repeat split; try assumption; try lia.
  rewrite Hph. unfold buildPhases. repeat constructor; cbn; lia.
Qed.

Lemma reachable_durations_bounded_witness :
  10 <= workMinutes longBreakIdle <= 60
  /\ Forall (fun p => 60 <= duration p <= 3600) (phases longBreakIdle).
Proof.
  pose proof (reachable_durations_bounded longBreakIdle) as H.
  destruct H as (Hw & _ & _ & _ & _ & _ & Hp).
  - apply (run_reachable skipToLongBreak initial); [constructor|].
    vm_compute. reflexivity.
  - split; [exact Hw | exact Hp].
Defined.

(** X2: the three phase counters together count the work phases of the
    current set that have been left: their sum is the number of work
    phases of the schedule before the current index.  None of the four
    statistics is ever negative, and while the milestone is pending the sum
    is 4. *)
Theorem counters_count_work_phases_left (s : state) :
  reachable s ->
  workPhasesCounted s = workPhasesBefore s
  /\ 0 <= completedWorkSessions s
  /\ 0 <= skippedNotStartedWorkSessions s
  /\ 0 <= skippedNotCompletedWorkSessions s
  /\ 0 <= totalWorkSeconds s
  /\ (milestonePendingReset s = true -> workPhasesCounted s = 4).
Proof.
  intros Hr. pose proof (reachable_Extra s Hr) as HE.
  pose proof (reachable_Inv s Hr) as [[Hph Hidx _] _ _].
  destruct HE as [_ _ _ _ _ _ _ _ (Hc & Hn & Hp & Ht) Hstat _ Hmp7 _].
  rewrite (workPhasesBefore_half s Hph Hidx).
  repeat split; try assumption.
  intros Hm. rewrite Hstat, (Hmp7 Hm). reflexivity.
Qed.

Lemma counters_count_work_phases_left_witness :
  workPhasesCounted milestoneUp = workPhasesBefore milestoneUp
  /\ workPhasesCounted milestoneUp = 4.
Proof.
  pose proof (counters_count_work_phases_left milestoneUp) as H.
  destruct H as (Hs & _ & _ & _ & _ & H4).
  - apply (run_reachable oneFocusThenSkipAll initial); [constructor|].
    vm_compute. reflexivity.
  - split; [exact Hs | apply H4; reflexivity].
Defined.

(** X4: at most one refresh interval is alive at any time, and one is
    alive exactly when [isRunning] is set, its handle being [intervalId];
    at most one delayed auto-start is pending, and its handle is then
    [autoStartTimeoutId]. *)
Theorem one_interval_one_timeout (s : state) :
  reachable s ->
  (isRunning s = false /\ intervalId s = None /\ activeIntervals s = []
   \/ exists h, isRunning s = true /\ intervalId s = Some h /\ activeIntervals s = [h])
  /\ (pendingTimeouts s = []
      \/ exists h, autoStartTimeoutId s = Some h /\ pendingTimeouts s = [h]).
Proof.
  intros Hr. pose proof (reachable_Extra s Hr) as HE.
  pose proof (reachable_Inv s Hr) as [_ [Hint Hrun _ _ _] _].
  split; [|exact (ex_pending s HE)].
  rewrite Hint, Hrun. destruct (intervalId s) as [h|]; cbn.
  - right. exists h. auto.
  - left. auto.
Qed.

Lemma one_interval_one_timeout_witness :
  exists h, isRunning runningAt0 = true /\ activeIntervals runningAt0 = [h].
Proof.
  pose proof (one_interval_one_timeout runningAt0) as H.
  destruct H as [[(Hf & _) | (h & Hr & _ & Hl)] _].
  - apply (run_reachable [TimeClick 0] initial); [constructor|].
    vm_compute. reflexivity.
  - discriminate Hf.
  - exists h. split; [exact Hr | exact Hl].
Defined.

(** ** What a step may change *)

Ltac solve_framed :=
  unfold framed, statistics, durations; cbn;
  repeat match goal with
         | |- _ /\ _ => split
         | |- _ -> _ => intros ?
         end;
  try discriminate; try reflexivity; try lia;
  try (split_ifs; first [lia | reflexivity]).

Lemma moveToNextPhase_framed (e : event) (autoStart completed : bool) (now : Z) (s : state) :
  Inv s -> Extra s -> leavesPhase e = true -> commitsSettings e = false ->
  wp (moveToNextPhase autoStart completed now s) (framed e s).
Proof.
  open_state s. open_Inv. open_Extra. cbn. intros He1 He2.
  current_phase_facts.
  unfold moveToNextPhase. rewrite finalizeCurrentPhase_eq. cbn.
  repeat wp_step.
  all: try match goal with
           | |- context [nextHandle (match ?x with _ => _ end)] => destruct x; cbn
           end.
  all: unfold framed; rewrite He1, He2; solve_framed.
Qed.

Lemma dispatch_framed (e : event) (s : state) :
  Inv s -> Extra s -> enabled e s = true -> wp (dispatch e s) (framed e s).
Proof.
  intros HI HE He. destruct e; cbn [dispatch].
  - revert HI HE. open_state s. open_Inv. open_Extra. unfold handleSingleClick. cbn.
    repeat wp_step. all: solve_framed.
  - revert HI HE. open_state s. open_Inv. open_Extra.
    unfold onTimeDblClick, resetCurrentPhase. cbn.
    repeat wp_step. all: solve_framed.
  - unfold onNextClick.
    destruct (settingsOpen s || milestonePendingReset s) eqn:Hc.
    + apply wp_ret. solve_framed.
    + apply moveToNextPhase_framed; auto.
  - revert HI HE. open_state s. open_Inv. open_Extra. unfold onSettingsClick. cbn.
    repeat wp_step. all: solve_framed.
  - cbn in He. revert HI HE He. open_state s. open_Inv. open_Extra. cbn. intros ->.
    specialize (Hpb eq_refl). subst pb.
    unfold applySettings. cbn.
    match goal with |- context [if ?c then _ else _] => destruct c eqn:Hc end; cbn.
    all: rewrite buildPhases_length in Hc.
    all: apply orb_true_iff in Hc || apply orb_false_elim in Hc.
    1: { destruct Hc as [Hc|Hc]; [apply Z.ltb_lt in Hc | apply Z.leb_le in Hc]; lia. }
    lazymatch goal with
    | |- wp (phaseAt (buildPhases ?S) ?i ≫= _) _ =>
        destruct (phaseAt_buildPhases S i) as [p Hp]; [lia|]
    end.
    unfold resetCurrentPhase. repeat wp_step.
    all: solve_framed.
  - cbn in He. revert HI HE He. open_state s. open_Inv. open_Extra. cbn. intros ->.
    destruct (Hmil eq_refl) as [-> _].
    unfold onMilestoneOk. cbn.
    repeat wp_step. all: solve_framed.
  - cbn in He. apply bool_decide_eq_true in He.
    revert HI HE He. open_state s. open_Inv. open_Extra. cbn. intros Hh.
    rewrite Hint in Hh. destruct ii as [h'|]; [|inversion Hh].
    cbn in Hrun. subst ir.
    destruct so; [specialize (Hset eq_refl); discriminate|].
    unfold intervalCallback, diffToTarget. cbn.
    wp_step. wp_step.
    + lazymatch goal with
      | |- wp (moveToNextPhase _ _ _ ?S) _ =>
          assert (wp (moveToNextPhase true true now S) (framed (IntervalFire h now) S)) as Hw1
            by (apply moveToNextPhase_framed; [solve_Inv | solve_Extra | reflexivity | reflexivity])
      end.
      destruct Hw1 as (s' & -> & Hf). apply wp_ret.
      revert Hf. unfold framed, statistics, durations. cbn. tauto.
    + wp_step. solve_framed.
  - revert HI HE. open_state s. open_Inv. open_Extra. unfold autoStartCallback. cbn.
    repeat wp_step. all: solve_framed.
  - apply wp_ret. clear HI HE He. destruct s. unfold onWorkInput. cbn.
    split_ifs; solve_framed.
  - apply wp_ret. clear HI HE He. destruct s. unfold onBreakInput. cbn.
    split_ifs; solve_framed.
  - apply wp_ret. clear HI HE He. destruct s. unfold onLongBreakInput. cbn.
    split_ifs; solve_framed.
  - apply wp_ret. clear HI HE He. destruct s. unfold updateDraftDurationFromHandle. cbn.
    split_ifs; solve_framed.
  - apply wp_ret. destruct s. solve_framed.
Qed.

(** X3: the seconds of focus never decrease.  The statistics and the
    phase index change only in the handlers that leave a phase (the Next
    button, the refresh that sees the countdown at zero, the milestone
    acknowledgement); the committed durations and the schedule change only
    when the settings are committed. *)
Theorem statistics_change_only_on_phase_exit (s : state) (e : event) (s' : state) :
  reachable s -> step s e s' ->
  totalWorkSeconds s <= totalWorkSeconds s'
  /\ (leavesPhase e = false ->
      statistics s' = statistics s /\ currentPhaseIndex s' = currentPhaseIndex s)
  /\ (commitsSettings e = false ->
      durations s' = durations s /\ phases s' = phases s).
Proof.
  intros Hr [He Hd].
  exact (wp_elim _ _ _
           (dispatch_framed e s (reachable_Inv s Hr) (reachable_Extra s Hr) He) Hd).
Qed.

Lemma statistics_change_only_on_phase_exit_witness :
  totalWorkSeconds longBreakIdle <= totalWorkSeconds milestoneUp
  /\ durations milestoneUp = durations longBreakIdle.
Proof.
  pose proof (statistics_change_only_on_phase_exit
                longBreakIdle (NextClick 1508000) milestoneUp) as H.
  destruct H as (Ht & _ & Hd).
  - apply (run_reachable skipToLongBreak initial); [constructor|].
    vm_compute. reflexivity.
  - split; vm_compute; reflexivity.
  - split; [exact Ht | apply Hd; reflexivity].
Defined.

Lemma dispatch_settingsOpen (e : event) (s s' : state) :
  Inv s -> settingsOpen s = true -> commitsSettings e = false ->
  enabled e s = true -> dispatch e s = Some s' ->
  countdown s' = countdown s /\ statistics s' = statistics s
  /\ durations s' = durations s /\ phases s' = phases s
  /\ currentPhase s' = currentPhase s /\ settingsOpen s' = true.
Proof.
  open_state s. open_Inv. cbn. intros -> Hc He Hd.
  specialize (Hset eq_refl). rewrite Hset in Hrun. clear Htg.
  destruct ii as [hi|]; [discriminate Hrun|]. cbn in Hint.
  rewrite Hint in *. rewrite Hset in *. clear Hint Hset Hrun.
  destruct e; cbn in Hc, He, Hd; try discriminate Hc.
  - injection Hd as <-. repeat split.
  - injection Hd as <-. repeat split.
  - injection Hd as <-. repeat split.
  - injection Hd as <-. repeat split.
  - subst mp. destruct (Hmil eq_refl) as [[=] _].
  - apply bool_decide_eq_true in He. inversion He.
  - unfold autoStartCallback, startTimer in Hd. cbn in Hd.
    injection Hd as <-. repeat split.
  - injection Hd as <-. unfold onWorkInput. cbn. split_ifs; repeat split.
  - injection Hd as <-. unfold onBreakInput. cbn. split_ifs; repeat split.
  - injection Hd as <-. unfold onLongBreakInput. cbn. split_ifs; repeat split.
  - injection Hd as <-. unfold updateDraftDurationFromHandle. cbn.
    split_ifs; repeat split.
  - injection Hd as <-. repeat split.
Qed.

(** X5: while the settings panel is open the timer is frozen.  Every
    event other than the back button (clicks on the time, the Next and
    settings buttons, a delayed auto-start coming due, edits of the draft)
    leaves the index, the remaining seconds, the run flag, the target
    timestamp, the statistics, the committed durations and the schedule
    as they were, and the panel open. *)
Theorem settings_open_freezes_timer (s : state) (e : event) (s' : state) :
  reachable s -> settingsOpen s = true -> commitsSettings e = false ->
  step s e s' ->
  countdown s' = countdown s /\ statistics s' = statistics s
  /\ durations s' = durations s /\ phases s' = phases s
  /\ currentPhase s' = currentPhase s /\ settingsOpen s' = true.
Proof.
  intros Hr Hso Hc [He Hd].
  exact (dispatch_settingsOpen e s s' (reachable_Inv s Hr) Hso Hc He Hd).
Qed.

Lemma settings_open_freezes_timer_witness :
  countdown (stateAfter (panelOpenedInDelay ++ [TimeoutFire 2 1500200]))
  = countdown (stateAfter panelOpenedInDelay).
Proof.
  destruct (settings_open_freezes_timer
              (stateAfter panelOpenedInDelay) (TimeoutFire 2 1500200)
              (stateAfter (panelOpenedInDelay ++ [TimeoutFire 2 1500200])))
    as (H & _).
  - apply (run_reachable panelOpenedInDelay initial); [constructor|].
    vm_compute. reflexivity.
  - vm_compute. reflexivity.
  - reflexivity.
  - split; vm_compute; reflexivity.
  - exact H.
Defined.

Lemma settings_roundtrip (now1 now2 : Z) (s : state) :
  Inv s -> Extra s -> settingsOpen s = false -> milestonePendingReset s = false ->
  wp (onSettingsClick now1 s) (fun s1 =>
    settingsOpen s1 = true /\
    wp (applySettings now2 s1) (fun s2 =>
      durations s2 = durations s /\ phases s2 = phases s
      /\ currentPhaseIndex s2 = currentPhaseIndex s
      /\ statistics s2 = statistics s
      /\ remaining s2 = duration (currentPhase s)
      /\ isRunning s2 = isRunning s
      /\ targetTimestamp s2
         = (if isRunning s then Some (now2 + duration (currentPhase s) * 1000) else None)
      /\ settingsOpen s2 = false)).
Proof.
  open_state s. open_Inv. open_Extra. cbn. intros -> ->.
  unfold onSettingsClick. cbn.
  repeat wp_step.
  all: split; [reflexivity|].
  all: unfold applySettings; cbn.
  all: rewrite !clampMinutes_id by lia.
  all: unfold CONFIG.TIMER.MIN_BREAK_MINUTES, CONFIG.TIMER.MAX_BREAK_MINUTES,
         CONFIG.TIMER.MIN_LONG_BREAK_MINUTES.
  all: rewrite buildPhases_length.
  all: replace ((ci <? 0) || (Z.of_nat 8 <=? ci)) with false
         by (symmetry; apply orb_false_intro; [apply Z.ltb_ge | apply Z.leb_gt]; lia).
  all: cbn.
  all: rewrite (Z.max_r 5 wm), (Z.min_r 10 bm), (Z.max_r 1 bm), (Z.max_r 5 lm) by lia.
  all: unfold buildPhases; cbn.
  all: unfold resetCurrentPhase; repeat wp_step.
  all: unfold pauseIsNoop, startIsNoop in *; cbn in *.
  all: unfold durations, statistics, countdown; cbn.
  all: flags.
  all: repeat split; try reflexivity; try discriminate.
Qed.

(** X6: opening the settings panel and closing it again without an edit
    is not neutral for the countdown: both handlers return, the durations,
    the schedule, the index and the statistics are kept, but the current
    phase starts over with its full duration, and a timer that was running
    runs again, towards a target one full duration after the commit. *)
Theorem settings_roundtrip_restarts_phase (now1 now2 : Z) (s : state) :
  reachable s -> settingsOpen s = false -> milestonePendingReset s = false ->
  exists s1 s2,
    step s (SettingsClick now1) s1 /\ step s1 (BackClick now2) s2
    /\ durations s2 = durations s /\ phases s2 = phases s
    /\ currentPhaseIndex s2 = currentPhaseIndex s
    /\ statistics s2 = statistics s
    /\ remaining s2 = duration (currentPhase s)
    /\ isRunning s2 = isRunning s
    /\ targetTimestamp s2
       = (if isRunning s then Some (now2 + duration (currentPhase s) * 1000) else None)
    /\ settingsOpen s2 = false.
Proof.
  intros Hr Hso Hmp.
  destruct (settings_roundtrip now1 now2 s (reachable_Inv s Hr) (reachable_Extra s Hr)
              Hso Hmp) as (s1 & H1 & Hso1 & s2 & H2 & HQ).
  exists s1, s2. split; [split; [reflexivity | exact H1]|].
  split; [split; [exact Hso1 | exact H2]|]. exact HQ.
Qed.

Lemma settings_roundtrip_restarts_phase_witness :
  exists s1 s2,
    step runningAt0 (SettingsClick 600000) s1 /\ step s1 (BackClick 700000) s2
    /\ remaining s2 = 1500 /\ targetTimestamp s2 = Some 2200000.
Proof.
  destruct (settings_roundtrip_restarts_phase 600000 700000 runningAt0)
    as (s1 & s2 & H1 & H2 & _ & _ & _ & _ & Hrem & _ & Htg & _).
  - apply (run_reachable [TimeClick 0] initial); [constructor|].
    vm_compute. reflexivity.
  - reflexivity.
  - reflexivity.
  - exists s1, s2. split; [exact H1|]. split; [exact H2|].
    split; [exact Hrem | exact Htg].
Defined.

(** ** Reset, skip, natural end and auto-start *)

Ltac solve_handles :=
  try match goal with
      | H : ?l = [_] |- context [drop_handle _ ?l] => rewrite H
      end;
  try match goal with
      | H : ?l = [] \/ _ |- context [?l] =>
          let Hai := fresh "Hai" in
          let Hpt := fresh "Hpt" in
          destruct H as [Hpt | (hp & Hai & Hpt)]; rewrite Hpt;
          [ | first [ discriminate Hai | injection Hai as <- | rewrite Hai ] ]; cbn;
          try match goal with
              | |- context [match ?a with _ => _ end] => is_var a; destruct a
              end
      end;
  rewrite ?drop_handle_single, ?drop_handle_nil; cbn;
  first [ reflexivity | eexists; split; reflexivity ].

Ltac solve_effect :=
  unfold pauseIsNoop, startIsNoop in *; cbn in *;
  unfold durations, statistics, countdown; cbn;
  flags;
  repeat match goal with
         | |- _ /\ _ => split
         | |- _ -> _ => intros ?
         end;
  try discriminate; try reflexivity; try assumption; try lia;
  try solve_handles.

Lemma reset_effect (now : Z) (s : state) :
  Inv s -> Extra s -> settingsOpen s = false -> milestonePendingReset s = false ->
  wp (onTimeDblClick now s) (fun s' =>
    remaining s' = duration (currentPhase s)
    /\ totalSeconds s' = duration (currentPhase s)
    /\ isRunning s' = false /\ targetTimestamp s' = None
    /\ activeIntervals s' = []
    /\ currentPhaseIndex s' = currentPhaseIndex s
    /\ statistics s' = statistics s /\ durations s' = durations s
    /\ (isRunning s = true -> pendingTimeouts s' = [])
    /\ (isRunning s = false -> pendingTimeouts s' = pendingTimeouts s)).
Proof.
  open_state s. open_Inv. open_Extra. cbn. intros -> ->.
  unfold onTimeDblClick, resetCurrentPhase. cbn.
  repeat wp_step.
  all: solve_effect.
Qed.

(** X7: a double click on the time (outside the settings panel and the
    milestone modal) always returns and puts the current phase back to its
    full duration: the timer is stopped, no refresh interval is left, the
    target timestamp is cleared, while the index, the statistics and the
    durations are untouched.  A pending auto-start is cancelled only if the
    timer was running. *)
Theorem reset_restores_full_phase (now : Z) (s : state) :
  reachable s -> settingsOpen s = false -> milestonePendingReset s = false ->
  exists s',
    step s (TimeDblClick now) s'
    /\ remaining s' = duration (currentPhase s)
    /\ totalSeconds s' = duration (currentPhase s)
    /\ isRunning s' = false /\ targetTimestamp s' = None
    /\ activeIntervals s' = []
    /\ currentPhaseIndex s' = currentPhaseIndex s
    /\ statistics s' = statistics s /\ durations s' = durations s
    /\ (isRunning s = true -> pendingTimeouts s' = [])
    /\ (isRunning s = false -> pendingTimeouts s' = pendingTimeouts s).
Proof.
  intros Hr Hso Hmp.
  destruct (reset_effect now s (reachable_Inv s Hr) (reachable_Extra s Hr) Hso Hmp)
    as (s' & H1 & HQ).
  exists s'. split; [split; [reflexivity | exact H1] | exact HQ].
Qed.

Lemma reset_restores_full_phase_witness :
  exists s', step runningAt0 (TimeDblClick 600000) s'
             /\ remaining s' = 1500 /\ isRunning s' = false.
Proof.
  destruct (reset_restores_full_phase 600000 runningAt0)
    as (s' & H1 & Hrem & _ & Hrun & _).
  - apply (run_reachable [TimeClick 0] initial); [constructor|].
    vm_compute. reflexivity.
  - reflexivity.
  - reflexivity.
  - exists s'. split; [exact H1|]. split; [exact Hrem | exact Hrun].
Defined.

Lemma skip_effect (now : Z) (s : state) :
  Inv s -> Extra s -> settingsOpen s = false -> milestonePendingReset s = false ->
  currentPhaseIndex s <> 7 ->
  wp (onNextClick now s) (fun s' =>
    currentPhaseIndex s' = currentPhaseIndex s + 1
    /\ phaseAt (phases s) (currentPhaseIndex s + 1) = Some (currentPhase s')
    /\ remaining s' = duration (currentPhase s')
    /\ isRunning s' = false /\ targetTimestamp s' = None
    /\ completedWorkSessions s' = completedWorkSessions s
    /\ (type (currentPhase s) = work ->
        if remaining s <? duration (currentPhase s)
        then skippedNotCompletedWorkSessions s' = skippedNotCompletedWorkSessions s + 1
             /\ skippedNotStartedWorkSessions s' = skippedNotStartedWorkSessions s
             /\ totalWorkSeconds s'
                = totalWorkSeconds s + (duration (currentPhase s) - remaining s)
        else skippedNotStartedWorkSessions s' = skippedNotStartedWorkSessions s + 1
             /\ skippedNotCompletedWorkSessions s' = skippedNotCompletedWorkSessions s
             /\ totalWorkSeconds s' = totalWorkSeconds s)
    /\ (type (currentPhase s) <> work -> statistics s' = statistics s)
    /\ (isRunning s = true ->
        exists h, autoStartTimeoutId s' = Some h /\ pendingTimeouts s' = [h])
    /\ (isRunning s = false -> pendingTimeouts s' = pendingTimeouts s)).
Proof.
  open_state s. open_Inv. open_Extra. cbn. intros -> -> Hn7.
  current_phase_facts.
  unfold onNextClick, moveToNextPhase. rewrite finalizeCurrentPhase_eq. cbn.
  repeat wp_step.
  all: try match goal with
           | |- context [nextHandle (match ?x with _ => _ end)] => destruct x; cbn
           end.
  all: decided.
  all: try solve [exfalso; tauto].
  all: rewrite ?Z.rem_small in * by lia.
  all: destruct (type cp) eqn:Hty; cbn.
  all: destruct (Z.ltb_spec rm (duration cp));
         destruct (Z.ltb_spec 0 (Z.max 0 (duration cp - rm))); try lia; cbn.
  all: solve_effect.
  all: try congruence.
  all: rewrite ?Z.add_0_r; reflexivity.
Qed.

(** X8: the Next button on a phase other than the long break always
    returns and moves to the next index with the full duration of the new
    phase; it never counts the phase as completed.  A work phase is counted
    as skipped-not-completed, with the seconds spent as of the last refresh
    added to the focus seconds, if any second was spent, and as
    skipped-not-started otherwise; a break changes no statistic.  If the
    timer was running the next phase is scheduled to start by itself, else
    the pending auto-starts are left as they are. *)
Theorem manual_skip_effect (now : Z) (s : state) :
  reachable s -> settingsOpen s = false -> milestonePendingReset s = false ->
  currentPhaseIndex s <> 7 ->
  exists s',
    step s (NextClick now) s'
    /\ currentPhaseIndex s' = currentPhaseIndex s + 1
    /\ phaseAt (phases s) (currentPhaseIndex s + 1) = Some (currentPhase s')
    /\ remaining s' = duration (currentPhase s')
    /\ isRunning s' = false /\ targetTimestamp s' = None
    /\ completedWorkSessions s' = completedWorkSessions s
    /\ (type (currentPhase s) = work ->
        if remaining s <? duration (currentPhase s)
        then skippedNotCompletedWorkSessions s' = skippedNotCompletedWorkSessions s + 1
             /\ skippedNotStartedWorkSessions s' = skippedNotStartedWorkSessions s
             /\ totalWorkSeconds s'
                = totalWorkSeconds s + (duration (currentPhase s) - remaining s)
        else skippedNotStartedWorkSessions s' = skippedNotStartedWorkSessions s + 1
             /\ skippedNotCompletedWorkSessions s' = skippedNotCompletedWorkSessions s
             /\ totalWorkSeconds s' = totalWorkSeconds s)
    /\ (type (currentPhase s) <> work -> statistics s' = statistics s)
    /\ (isRunning s = true ->
        exists h, autoStartTimeoutId s' = Some h /\ pendingTimeouts s' = [h])
    /\ (isRunning s = false -> pendingTimeouts s' = pendingTimeouts s).
Proof.
  intros Hr Hso Hmp Hn7.
  destruct (skip_effect now s (reachable_Inv s Hr) (reachable_Extra s Hr) Hso Hmp Hn7)
    as (s' & H1 & HQ).
  exists s'. split; [split; [reflexivity | exact H1] | exact HQ].
Qed.

Lemma manual_skip_effect_witness :
  exists s', step (stateAfter pausedAfterTenMinutes) (NextClick 700000) s'
             /\ completedWorkSessions s' = 0
             /\ skippedNotCompletedWorkSessions s' = 1
             /\ totalWorkSeconds s' = 600.
Proof.
  destruct (manual_skip_effect 700000 (stateAfter pausedAfterTenMinutes))
    as (s' & H1 & _ & _ & _ & _ & _ & Hc & Hw & _).
  - apply (run_reachable pausedAfterTenMinutes initial); [constructor|].
    vm_compute. reflexivity.
  - reflexivity.
  - reflexivity.
  - vm_compute. discriminate.
  - exists s'. split; [exact H1|]. split; [exact Hc|].
    specialize (Hw eq_refl). vm_compute in Hw. destruct Hw as (Hs & _ & Ht).
    split; [exact Hs | exact Ht].
Defined.

Lemma Math_round_div_end (n : Z) : n < 500 -> Z.max 0 (Math_round_div n 1000) = 0.
Proof.
  intros Hn. unfold Math_round_div.
  assert ((2 * n + 1000) / (2 * 1000) <= 0); [|lia].
  apply Z.lt_succ_r. apply Z.div_lt_upper_bound; lia.
Qed.

Lemma natural_end_effect (h : nat) (now t : Z) (s : state) :
  Inv s -> Extra s -> h ∈ activeIntervals s ->
  targetTimestamp s = Some t -> t - now < 500 -> currentPhaseIndex s <> 7 ->
  wp (intervalCallback now s) (fun s' =>
    currentPhaseIndex s' = currentPhaseIndex s + 1
    /\ phaseAt (phases s) (currentPhaseIndex s + 1) = Some (currentPhase s')
    /\ remaining s' = duration (currentPhase s')
    /\ isRunning s' = false /\ targetTimestamp s' = None
    /\ activeIntervals s' = []
    /\ (exists h', autoStartTimeoutId s' = Some h' /\ pendingTimeouts s' = [h'])
    /\ (type (currentPhase s) = work ->
        completedWorkSessions s' = completedWorkSessions s + 1
        /\ totalWorkSeconds s' = totalWorkSeconds s + duration (currentPhase s)
        /\ skippedNotStartedWorkSessions s' = skippedNotStartedWorkSessions s
        /\ skippedNotCompletedWorkSessions s' = skippedNotCompletedWorkSessions s)
    /\ (type (currentPhase s) <> work -> statistics s' = statistics s)
    /\ settingsOpen s' = false /\ milestonePendingReset s' = false).
Proof.
  open_state s. open_Inv. open_Extra. cbn. intros Hh -> Hlt Hn7.
  rewrite Hint in Hh. destruct ii as [h'|]; [|inversion Hh].
  cbn in Hrun. subst ir.
  destruct so; [specialize (Hset eq_refl); discriminate|].
  destruct mp; [destruct (Hmil eq_refl); discriminate|].
  current_phase_facts.
  assert (60 <= duration cp) as Hd60.
  { pose proof (phaseAt_schedule _ _ _ _ _ Hcur) as [_ ->].
    unfold phaseOf. split_ifs; cbn; lia. }
  unfold intervalCallback, diffToTarget. cbn.
  rewrite (Math_round_div_end _ Hlt).
  wp_step. cbn.
  unfold moveToNextPhase. rewrite finalizeCurrentPhase_eq. cbn.
  repeat wp_step.
  all: try match goal with
           | |- context [nextHandle (match ?x with _ => _ end)] => destruct x; cbn
           end.
  all: decided.
  all: try solve [exfalso; tauto].
  all: rewrite ?Z.rem_small in * by lia.
  all: destruct (type cp) eqn:Hty; cbn.
  all: destruct (Z.ltb_spec 0 (Z.max 0 (duration cp - 0))); try lia; cbn.
  all: solve_effect.
  all: try congruence.
  all: rewrite ?Z.add_0_r; reflexivity.
Qed.

(** X9: the refresh that finds less than half a second left before the
    target (phases other than the long break) always returns and hands over
    to the next phase: the index advances by one, the new phase has its
    full duration, the timer is stopped with no interval left and no
    target, and exactly one delayed auto-start is pending.  A work phase is
    counted as completed and adds its whole duration to the focus seconds;
    a break changes no statistic. *)
Theorem natural_end_hands_over (h : nat) (now t : Z) (s : state) :
  reachable s -> h ∈ activeIntervals s ->
  targetTimestamp s = Some t -> t - now < 500 -> currentPhaseIndex s <> 7 ->
  exists s',
    step s (IntervalFire h now) s'
    /\ currentPhaseIndex s' = currentPhaseIndex s + 1
    /\ phaseAt (phases s) (currentPhaseIndex s + 1) = Some (currentPhase s')
    /\ remaining s' = duration (currentPhase s')
    /\ isRunning s' = false /\ targetTimestamp s' = None
    /\ activeIntervals s' = []
    /\ (exists h', autoStartTimeoutId s' = Some h' /\ pendingTimeouts s' = [h'])
    /\ (type (currentPhase s) = work ->
        completedWorkSessions s' = completedWorkSessions s + 1
        /\ totalWorkSeconds s' = totalWorkSeconds s + duration (currentPhase s)
        /\ skippedNotStartedWorkSessions s' = skippedNotStartedWorkSessions s
        /\ skippedNotCompletedWorkSessions s' = skippedNotCompletedWorkSessions s)
    /\ (type (currentPhase s) <> work -> statistics s' = statistics s)
    /\ settingsOpen s' = false /\ milestonePendingReset s' = false.
Proof.
  intros Hr Hh Ht Hlt Hn7.
  destruct (natural_end_effect h now t s (reachable_Inv s Hr) (reachable_Extra s Hr)
              Hh Ht Hlt Hn7) as (s' & H1 & HQ).
  exists s'. split; [split; [cbn; apply bool_decide_eq_true; exact Hh | exact H1] | exact HQ].
Qed.

Lemma natural_end_hands_over_witness :
  exists s', step runningAt0 (IntervalFire 1 1499600) s'
             /\ currentPhaseIndex s' = 1
             /\ completedWorkSessions s' = 1 /\ totalWorkSeconds s' = 1500.
Proof.
  destruct (natural_end_hands_over 1 1499600 1500000 runningAt0)
    as (s' & H1 & Hi & _ & _ & _ & _ & _ & _ & Hw & _ & _ & _).
  - apply (run_reachable [TimeClick 0] initial); [constructor|].
    vm_compute. reflexivity.
  - vm_compute. apply list_elem_of_here.
  - reflexivity.
  - lia.
  - vm_compute. discriminate.
  - exists s'. split; [exact H1|]. split; [exact Hi|].
    destruct (Hw eq_refl) as (Hc & Ht & _). split; [exact Hc | exact Ht].
Defined.

Lemma autoStart_effect (h : nat) (now : Z) (s : state) :
  Inv s -> Extra s -> h ∈ pendingTimeouts s ->
  wp (dispatch (TimeoutFire h now) s) (fun s' =>
    pendingTimeouts s' = []
    /\ currentPhaseIndex s' = currentPhaseIndex s
    /\ remaining s' = remaining s
    /\ statistics s' = statistics s
    /\ if isRunning s || settingsOpen s || milestonePendingReset s
       then isRunning s' = isRunning s /\ targetTimestamp s' = targetTimestamp s
            /\ activeIntervals s' = activeIntervals s
       else isRunning s' = true
            /\ targetTimestamp s' = Some (now + remaining s * 1000)
            /\ exists h', intervalId s' = Some h' /\ activeIntervals s' = [h']).
Proof.
  open_state s. open_Inv. open_Extra. cbn [dispatch]. unfold autoStartCallback. cbn.
  intros Hh.
  assert (pt = [h]) as ->.
  { destruct Hpend as [-> | (h' & _ & ->)]; [inversion Hh|].
    apply list_elem_of_singleton in Hh. congruence. }
  rewrite drop_handle_single. clear Hpend Hto.
  repeat wp_step.
  all: unfold startIsNoop in *; cbn in *.
  all: match goal with H : _ || _ || _ = _ |- _ => rewrite H end.
  all: solve_effect.
  all: eexists; split; [reflexivity | congruence].
Qed.

(** X10: when a delayed auto-start comes due it leaves the table of
    pending timeouts and changes neither index, remaining seconds nor
    statistics.  If the timer is stopped, the settings panel closed and
    no milestone pending, the countdown starts: the run flag is set, the
    target is [now + remaining * 1000] and one refresh interval is alive;
    otherwise run flag, target and intervals stay as they are. *)
Theorem auto_start_effect (h : nat) (now : Z) (s : state) :
  reachable s -> h ∈ pendingTimeouts s ->
  exists s',
    step s (TimeoutFire h now) s'
    /\ pendingTimeouts s' = []
    /\ currentPhaseIndex s' = currentPhaseIndex s
    /\ remaining s' = remaining s
    /\ statistics s' = statistics s
    /\ if isRunning s || settingsOpen s || milestonePendingReset s
       then isRunning s' = isRunning s /\ targetTimestamp s' = targetTimestamp s
            /\ activeIntervals s' = activeIntervals s
       else isRunning s' = true
            /\ targetTimestamp s' = Some (now + remaining s * 1000)
            /\ exists h', intervalId s' = Some h' /\ activeIntervals s' = [h'].
Proof.
  intros Hr Hh.
  destruct (autoStart_effect h now s (reachable_Inv s Hr) (reachable_Extra s Hr) Hh)
    as (s' & H1 & HQ).
  exists s'. split; [split; [cbn; apply bool_decide_eq_true; exact Hh | exact H1] | exact HQ].
Qed.

Lemma auto_start_effect_witness :
  exists s', step (stateAfter autoStartPending) (TimeoutFire 2 1500600) s'
             /\ isRunning s' = true /\ targetTimestamp s' = Some 1800600.
Proof.
  destruct (auto_start_effect 2 1500600 (stateAfter autoStartPending))
    as (s' & H1 & _ & _ & _ & _ & Hs).
  - apply (run_reachable autoStartPending initial); [constructor|].
    vm_compute. reflexivity.
  - vm_compute. apply list_elem_of_here.
  - exists s'. split; [exact H1|]. vm_compute in Hs.
    destruct Hs as (Hr & Ht & _). split; [exact Hr | exact Ht].
Defined.

Lemma Math_round_div_near (n : Z) :
  n - 500 < Math_round_div n 1000 * 1000 <= n + 500.
Proof. unfold Math_round_div. Z.div_mod_to_equations. lia. Qed.

Lemma pause_resume_effect (now1 now2 t : Z) (s : state) :
  Inv s -> Extra s -> isRunning s = true -> targetTimestamp s = Some t ->
  wp (handleSingleClick now1 s) (fun s1 =>
    isRunning s1 = false /\ activeIntervals s1 = []
    /\ remaining s1 = Z.max 0 (Math_round_div (t - now1) 1000)
    /\ wp (handleSingleClick now2 s1) (fun s2 =>
         isRunning s2 = true
         /\ targetTimestamp s2 = Some (now2 + remaining s1 * 1000)
         /\ remaining s2 = remaining s1
         /\ currentPhaseIndex s2 = currentPhaseIndex s
         /\ statistics s2 = statistics s)).
Proof.
  open_state s. open_Inv. open_Extra. cbn. intros -> ->.
  destruct so; [specialize (Hset eq_refl); discriminate|].
  destruct mp; [destruct (Hmil eq_refl); discriminate|].
  destruct ii as [hi|]; [|discriminate Hrun]. cbn in Hint. subst li.
  unfold handleSingleClick. cbn.
  wp_step; [unfold pauseIsNoop in *; cbn in *; discriminate|].
  unfold pausedState. cbn. rewrite drop_handle_single.
  split; [reflexivity|]. split; [reflexivity|]. split; [reflexivity|].
  wp_step; [unfold startIsNoop in *; cbn in *; discriminate|].
  repeat split.
Qed.

(** X11: pausing a running timer before its target and resuming it later
    keeps the time left, up to the rounding to whole seconds: both clicks
    return, the timer is stopped in between, and the time from the resume to
    the new target differs from the time that was left at the pause by at
    most half a second.  Index and statistics are unchanged. *)
Theorem pause_resume_keeps_time_left (now1 now2 t : Z) (s : state) :
  reachable s -> isRunning s = true -> targetTimestamp s = Some t -> now1 <= t ->
  exists s1 s2 t2,
    step s (TimeClick now1) s1 /\ step s1 (TimeClick now2) s2
    /\ isRunning s1 = false /\ isRunning s2 = true
    /\ targetTimestamp s2 = Some t2
    /\ (t - now1) - 500 < t2 - now2 <= (t - now1) + 500
    /\ currentPhaseIndex s2 = currentPhaseIndex s
    /\ statistics s2 = statistics s.
Proof.
  intros Hr Hrun Ht Hle.
  destruct (pause_resume_effect now1 now2 t s (reachable_Inv s Hr) (reachable_Extra s Hr)
              Hrun Ht) as (s1 & H1 & Hr1 & _ & Hrem & s2 & H2 & Hr2 & Ht2 & _ & Hi & Hs).
  exists s1, s2, (now2 + remaining s1 * 1000).
  split; [split; [reflexivity | exact H1]|].
  split; [split; [reflexivity | exact H2]|].
  repeat split; try assumption.
  - rewrite Hrem. pose proof (Math_round_div_near (t - now1)). lia.
  - rewrite Hrem. pose proof (Math_round_div_near (t - now1)). lia.
Qed.

Lemma pause_resume_keeps_time_left_witness :
  exists s1 s2 t2,
    step runningAt0 (TimeClick 600400) s1 /\ step s1 (TimeClick 900000) s2
    /\ targetTimestamp s2 = Some t2 /\ 899100 < t2 - 900000 <= 900100.
Proof.
  destruct (pause_resume_keeps_time_left 600400 900000 1500000 runningAt0)
    as (s1 & s2 & t2 & H1 & H2 & _ & _ & Ht & Hb & _).
  - apply (run_reachable [TimeClick 0] initial); [constructor|].
    vm_compute. reflexivity.
  - reflexivity.
  - reflexivity.
  - lia.
  - exists s1, s2, t2. split; [exact H1|]. split; [exact H2|].
    split; [exact Ht | lia].
Defined.

(** ** Button label and milestone title *)

Lemma milestoneOk_effect (now : Z) (s : state) :
  Inv s -> Extra s -> milestonePendingReset s = true ->
  wp (onMilestoneOk now s) (fun s' =>
    currentPhaseIndex s' = 0
    /\ phaseAt (phases s) 0 = Some (currentPhase s')
    /\ remaining s' = duration (currentPhase s')
    /\ isRunning s' = false /\ appState s' = RUNNING
    /\ milestonePendingReset s' = false
    /\ pendingTimeouts s' = pendingTimeouts s
    /\ durations s' = durations s).
Proof.
  open_state s. open_Inv. open_Extra. cbn. intros ->.
  destruct (Hmil eq_refl) as [-> ->].
  unfold onMilestoneOk. cbn.
  repeat wp_step. all: solve_effect.
Qed.

(** X12: the title of the Next button never fails to be computed in a
    reachable state, and it announces the phase the timer goes to next: on
    every phase but the long break it carries the label of the phase that a
    click on Next makes current, and on the long break the label of the
    phase that the milestone acknowledgement makes current. *)
Theorem next_button_names_next_phase (s : state) :
  reachable s ->
  exists p,
    nextButtonTitle s = Some ("Next (" ++ label p ++ ")")%string
    /\ (settingsOpen s = false -> milestonePendingReset s = false ->
        currentPhaseIndex s <> 7 ->
        forall now s', step s (NextClick now) s' -> currentPhase s' = p)
    /\ (currentPhaseIndex s = 7 ->
        forall now s', step s (MilestoneOk now) s' -> currentPhase s' = p).
Proof.
  intros Hr. pose proof (reachable_Inv s Hr) as HI. pose proof (reachable_Extra s Hr) as HE.
  destruct HI as [[Hph Hidx Hcur] He Ht].
  assert (length (phases s) = 8%nat) as Hlen by (rewrite Hph; reflexivity).
  destruct (phaseAt_is_Some (phases s) (Z.rem (currentPhaseIndex s + 1) 8)) as [p Hp].
  { rewrite Hlen. pose proof (Z.rem_bound_pos (currentPhaseIndex s + 1) 8). lia. }
  exists p. split; [|split].
  - unfold nextButtonTitle. rewrite Hlen. change (Z.of_nat 8) with 8. rewrite Hp. reflexivity.
  - intros Hso Hmp Hn7 now s' [_ Hd]. cbn in Hd.
    destruct (skip_effect now s (Build_Inv s (Build_schedule_ok s Hph Hidx Hcur) He Ht)
                HE Hso Hmp Hn7) as (s1 & H1 & _ & Hp1 & _).
    rewrite Hd in H1. injection H1 as <-.
    rewrite Z.rem_small in Hp by lia. congruence.
  - intros H7 now s' [Hen Hd]. cbn in Hen, Hd.
    destruct (milestoneOk_effect now s (Build_Inv s (Build_schedule_ok s Hph Hidx Hcur) He Ht)
                HE Hen) as (s1 & H1 & _ & Hp1 & _).
    rewrite Hd in H1. injection H1 as <-.
    rewrite H7 in Hp. change (Z.rem (7 + 1) 8) with 0 in Hp. congruence.
Qed.

Lemma next_button_names_next_phase_witness :
  exists p, nextButtonTitle longBreakIdle = Some ("Next (" ++ label p ++ ")")%string.
Proof.
  destruct (next_button_names_next_phase longBreakIdle) as (p & Hp & _).
  - apply (run_reachable skipToLongBreak initial); [constructor|].
    vm_compute. reflexivity.
  - exists p. exact Hp.
Defined.

Lemma fullSetWorkCount_4 (s : state) : phases s = buildPhases s -> fullSetWorkCount s = 4.
Proof. unfold fullSetWorkCount. intros ->. reflexivity. Qed.

(** X13: while the milestone is pending the completed count lies between
    0 and 4 and alone decides the title: 4 gives Amazing!, 2 and 3 give
    Great job!, 1 gives Good job!, 0 gives Keep going!; the fall-through
    default of [showMilestoneModal] is never what decides.  The title is
    Amazing! exactly when no work phase of the set was skipped. *)
Theorem milestone_title_by_completed (s : state) :
  reachable s -> milestonePendingReset s = true ->
  0 <= completedWorkSessions s <= 4
  /\ milestoneTitleText s
     = (if (completedWorkSessions s =? 4)%Z then "Amazing!"
        else if (2 <=? completedWorkSessions s)%Z then "Great job!"
        else if (completedWorkSessions s =? 1)%Z then "Good job!"
        else "Keep going!")%string
  /\ (milestoneTitleText s = "Amazing!"%string
      <-> skippedNotStartedWorkSessions s = 0 /\ skippedNotCompletedWorkSessions s = 0).
Proof.
  intros Hr Hmp. pose proof (reachable_Extra s Hr) as HE.
  pose proof (reachable_Inv s Hr) as [[Hph _ _] _ _].
  destruct HE as [_ _ _ _ _ _ _ _ (Hc & Hn & Hp & _) Hstat _ Hmp7 _].
  rewrite (Hmp7 Hmp) in Hstat. unfold workPhasesCounted in Hstat.
  change ((7 + 1) / 2) with 4 in Hstat.
  unfold milestoneTitleText. rewrite (fullSetWorkCount_4 s Hph).
  set (c := completedWorkSessions s) in *.
  set (y := skippedNotStartedWorkSessions s) in *.
  set (z := skippedNotCompletedWorkSessions s) in *.
  assert (c = 0 \/ c = 1 \/ c = 2 \/ c = 3 \/ c = 4) as Hcase by lia.
  split; [lia|].
  destruct Hcase as [Hc0 | [Hc1 | [Hc2 | [Hc3 | Hc4]]]].
  1-4: rewrite ?Hc0, ?Hc1, ?Hc2, ?Hc3; cbn; split; [reflexivity|];
       split; [discriminate | lia].
  assert (y = 0) as Hy by lia. assert (z = 0) as Hz by lia.
  rewrite Hc4, Hy, Hz. cbn. split; [reflexivity|]. split; auto.
Qed.

Lemma milestone_title_by_completed_witness :
  milestoneTitleText milestoneUp = "Good job!"%string.
Proof.
  destruct (milestone_title_by_completed milestoneUp) as (_ & Ht & _).
  - apply (run_reachable oneFocusThenSkipAll initial); [constructor|].
    vm_compute. reflexivity.
  - reflexivity.
  - rewrite Ht. vm_compute. reflexivity.
Defined.

(** X14: the milestone acknowledgement puts the first work phase in place
    with its full duration but does not start it: the handler returns with
    the engine stopped, although it sets the state label to RUNNING; the
    durations are kept. *)
Theorem milestone_ack_leaves_timer_stopped (now : Z) (s : state) :
  reachable s -> milestonePendingReset s = true ->
  exists s',
    step s (MilestoneOk now) s'
    /\ currentPhaseIndex s' = 0
    /\ type (currentPhase s') = work
    /\ remaining s' = workMinutes s * 60
    /\ isRunning s' = false /\ appState s' = RUNNING
    /\ milestonePendingReset s' = false
    /\ durations s' = durations s.
Proof.
  intros Hr Hmp. pose proof (reachable_Inv s Hr) as HI.
  destruct (milestoneOk_effect now s HI (reachable_Extra s Hr) Hmp)
    as (s' & H1 & Hi & Hp & Hrem & Hrun & Hap & Hmp' & _ & Hd).
  exists s'. split; [split; [exact Hmp | exact H1]|].
  destruct HI as [[Hph _ _] _ _]. rewrite Hph in Hp.
  cbn in Hp. injection Hp as Hp. rewrite Hrem, <- Hp. cbn.
  repeat split; assumption.
Qed.

Lemma milestone_ack_leaves_timer_stopped_witness :
  exists s', step milestoneUp (MilestoneOk 1509000) s'
             /\ remaining s' = 1500 /\ isRunning s' = false /\ appState s' = RUNNING.
Proof.
  destruct (milestone_ack_leaves_timer_stopped 1509000 milestoneUp)
    as (s' & H1 & _ & _ & Hrem & Hrun & Hap & _).
  - apply (run_reachable oneFocusThenSkipAll initial); [constructor|].
    vm_compute. reflexivity.
  - reflexivity.
  - exists s'. split; [exact H1|]. split; [exact Hrem|]. split; [exact Hrun | exact Hap].
Defined.

(** ** Time display *)

Lemma padStart_twoDigits_upto :
  forallb (fun k => String.eqb (padStart 2 "0" (String_of_int (Z.of_nat k)))
                      (twoDigits (Z.of_nat k)))
          (seq 0 100) = true.
Proof. vm_compute. reflexivity. Qed.

(** A whole number from 0 to 99 is printed as its two decimal digits. *)
Lemma padStart_twoDigits (n : Z) :
  0 <= n < 100 -> padStart 2 "0" (String_of_int n) = twoDigits n.
Proof.
  intros Hn. pose proof padStart_twoDigits_upto as H.
  rewrite forallb_forall in H. specialize (H (Z.to_nat n)).
  rewrite Z2Nat.id in H by lia. apply String.eqb_eq, H.
  apply in_seq. lia.
Qed.

Lemma digit_inj (a b : Z) : 0 <= a < 10 -> 0 <= b < 10 -> digit a = digit b -> a = b.
Proof.
  unfold digit. intros Ha Hb H. apply (f_equal nat_of_ascii) in H.
  rewrite !nat_ascii_embedding in H by lia. lia.
Qed.

Lemma twoDigits_inj (a b : Z) :
  0 <= a < 100 -> 0 <= b < 100 -> twoDigits a = twoDigits b -> a = b.
Proof.
  unfold twoDigits. intros Ha Hb H. injection H as H1 H2.
  apply digit_inj in H1; [|split; Z.div_mod_to_equations; lia ..].
  apply digit_inj in H2; [|split; Z.div_mod_to_equations; lia ..].
  Z.div_mod_to_equations. lia.
Qed.

Lemma formatTime_eq (sec : Z) :
  0 <= sec < 6000 ->
  formatTime sec = (twoDigits (sec / 60) ++ ":" ++ twoDigits (sec mod 60))%string.
Proof.
  intros Hs. unfold formatTime. rewrite Z.rem_mod_nonneg by lia.
  rewrite !padStart_twoDigits; [reflexivity | |].
  - pose proof (Z.mod_pos_bound sec 60). lia.
  - split; [apply Z.div_pos; lia | apply Z.div_lt_upper_bound; lia].
Qed.

(** X15: for 0 to 5999 seconds [formatTime] gives five characters: the
    two digits of the whole minutes, a colon, the two digits of the
    seconds; on that range different values are displayed differently. *)
Theorem formatTime_mm_ss (sec : Z) :
  0 <= sec < 6000 ->
  formatTime sec = (twoDigits (sec / 60) ++ ":" ++ twoDigits (sec mod 60))%string
  /\ String.length (formatTime sec) = 5%nat
  /\ forall sec', 0 <= sec' < 6000 -> formatTime sec' = formatTime sec -> sec' = sec.
Proof.
  intros Hs. split; [exact (formatTime_eq sec Hs)|]. split.
  - rewrite (formatTime_eq sec Hs). reflexivity.
  - intros sec' Hs' H. rewrite (formatTime_eq sec Hs), (formatTime_eq sec' Hs') in H.
    unfold twoDigits in H. cbn in H. injection H as H1 H2 H3 H4.
    assert (sec' / 60 = sec / 60) as Hm.
    { apply twoDigits_inj.
      - split; [apply Z.div_pos; lia | apply Z.div_lt_upper_bound; lia].
      - split; [apply Z.div_pos; lia | apply Z.div_lt_upper_bound; lia].
      - unfold twoDigits. congruence. }
    assert (sec' mod 60 = sec mod 60) as Hr.
    { apply twoDigits_inj.
      - pose proof (Z.mod_pos_bound sec' 60). lia.
      - pose proof (Z.mod_pos_bound sec 60). lia.
      - unfold twoDigits. congruence. }
    rewrite (Z.div_mod sec' 60), (Z.div_mod sec 60) by lia. congruence.
Qed.

Lemma formatTime_mm_ss_witness :
  formatTime 1499 = "24:59"%string /\ String.length (formatTime 1499) = 5%nat.
Proof.
  destruct (formatTime_mm_ss 1499) as (He & Hl & _); [lia|].
  split; [rewrite He; vm_compute; reflexivity | exact Hl].
Defined.

(** X16: below 100 hours [formatHMS] gives hh:mm:ss: the two digits of
    the hours, of the minutes within the hour and of the seconds within the
    minute. *)
Theorem formatHMS_hh_mm_ss (totalSec : Z) :
  0 <= totalSec < 360000 ->
  formatHMS totalSec
  = (twoDigits (totalSec / 3600) ++ ":" ++ twoDigits (totalSec mod 3600 / 60)
     ++ ":" ++ twoDigits (totalSec mod 60))%string
  /\ String.length (formatHMS totalSec) = 8%nat.
Proof.
  intros Hs. unfold formatHMS. rewrite !Z.rem_mod_nonneg by lia.
  rewrite !padStart_twoDigits; [split; reflexivity | | |].
  - pose proof (Z.mod_pos_bound totalSec 60). lia.
  - pose proof (Z.mod_pos_bound totalSec 3600).
    split; [apply Z.div_pos; lia | apply Z.div_lt_upper_bound; lia].
  - split; [apply Z.div_pos; lia | apply Z.div_lt_upper_bound; lia].
Qed.

Lemma formatHMS_hh_mm_ss_witness : formatHMS 5025 = "01:23:45"%string.
Proof.
  destruct (formatHMS_hh_mm_ss 5025) as (He & _); [lia|].
  rewrite He. vm_compute. reflexivity.
Defined.

(** X17: for a whole number of minutes or NaN, the values a draft
    duration takes in the model, the text that [updateSettingsTimeOverlay]
    shows while the settings are open is the text the timer itself shows at
    the start of a phase of that many (clamped) minutes.  (Numbers with a
    fraction are not covered: for them the script prints the fraction.) *)
Theorem settings_overlay_matches_timer (minutes : jsnum) (s : state) :
  settingsOpen s = true ->
  updateSettingsTimeOverlay minutes s = Some (formatTime (clampMinutes minutes * 60)).
Proof.
  intros Hso. unfold updateSettingsTimeOverlay. rewrite Hso. cbn [negb].
  pose proof (clampMinutes_range minutes) as Hm.
  f_equal. rewrite formatTime_eq by lia.
  rewrite Z.div_mul by lia. rewrite Z.mod_mul by lia.
  rewrite padStart_twoDigits by lia. reflexivity.
Qed.

Lemma settings_overlay_matches_timer_witness :
  updateSettingsTimeOverlay NaN draftAllNaN = Some "01:00"%string.
Proof.
  rewrite (settings_overlay_matches_timer NaN draftAllNaN); [|reflexivity].
  vm_compute. reflexivity.
Defined.

(** ** Feedback survey *)

Lemma surveyShownAt_exhausted (times : list Z) (c t : Z) :
  2 <= c -> surveyShownAt times (Some (FeedbackState c t)) = [].
Proof.
  intros Hc. induction times as [|now times IH]; [reflexivity|].
  cbn. unfold openFeedbackSurveyIfEligible, shouldShowFeedbackSurvey. cbn.
  unfold FEEDBACK.MAX_SHOWS.
  destruct (Z.leb_spec 2 c); [|lia]. cbn. exact IH.
Qed.

Lemma surveyShownAt_once (times : list Z) (t1 : Z) :
  surveyShownAt times (Some (FeedbackState 1 t1))
  = match List.find (fun t => FEEDBACK.COOLDOWN_MS <=? t - t1) times with
    | Some t2 => [t2]
    | None => []
    end.
Proof.
  induction times as [|now times IH]; [reflexivity|].
  cbn. unfold openFeedbackSurveyIfEligible, shouldShowFeedbackSurvey, markFeedbackShown. cbn.
  destruct (FEEDBACK.COOLDOWN_MS <=? now - t1); cbn.
  - rewrite surveyShownAt_exhausted by (unfold FEEDBACK.MAX_SHOWS; lia). reflexivity.
  - exact IH.
Qed.

(** X18: with nothing stored to begin with, the survey is shown at the
    first call, a second time at the first later call that comes at least
    [COOLDOWN_MS] (14 days) after the first showing, and never again: at
    most [MAX_SHOWS] times in all. *)
Theorem survey_shown_at_most_twice (t1 : Z) (times : list Z) :
  surveyShownAt (t1 :: times) None
  = t1 :: match List.find (fun t => FEEDBACK.COOLDOWN_MS <=? t - t1) times with
          | Some t2 => [t2]
          | None => []
          end
  /\ Z.of_nat (length (surveyShownAt (t1 :: times) None)) <= FEEDBACK.MAX_SHOWS.
Proof.
  assert (surveyShownAt (t1 :: times) None
          = t1 :: surveyShownAt times (Some (FeedbackState 1 t1))) as -> by reflexivity.
  rewrite surveyShownAt_once. split; [reflexivity|].
  unfold FEEDBACK.MAX_SHOWS. destruct (List.find _ times); cbn; lia.
Qed.

(** ** Settings tabs and stored settings *)

(** X19: with at least one tab, the index that
    [activateSettingsPhaseByIndex] makes active is a valid tab index for
    every requested index, negative ones included: it is the requested
    index modulo the number of tabs.  One step down from the first tab is
    the last tab, one step up from the last is the first. *)
Theorem activePhaseIndex_wraps (idx count : Z) :
  0 < count ->
  0 <= activePhaseIndexFor idx count < count
  /\ activePhaseIndexFor idx count = idx mod count
  /\ activePhaseIndexFor (0 - 1) count = count - 1
  /\ activePhaseIndexFor (count - 1 + 1) count = 0.
Proof.
  intros Hc.
  assert (forall i, activePhaseIndexFor i count = i mod count) as Hmod.
  { intros i. unfold activePhaseIndexFor.
    pose proof (Z.rem_bound_abs i count) as Hb.
    rewrite (Z.rem_mod_nonneg (Z.rem i count + count) count) by lia.
    replace (Z.rem i count + count) with (Z.rem i count + 1 * count) by lia.
    rewrite Z.mod_add by lia.
    transitivity ((Z.rem i count + Z.quot i count * count) mod count).
    - rewrite Z.mod_add by lia. reflexivity.
    - f_equal. pose proof (Z.quot_rem' i count). lia. }
  rewrite !Hmod. split; [apply Z.mod_pos_bound; lia|]. split; [reflexivity|]. split.
  - replace (0 - 1) with ((count - 1) + (-1) * count) by lia.
    rewrite Z.mod_add by lia. apply Z.mod_small. lia.
  - replace (count - 1 + 1) with (0 + 1 * count) by lia.
    rewrite Z.mod_add by lia. apply Z.mod_small. lia.
Qed.

Lemma activePhaseIndex_wraps_witness :
  activePhaseIndexFor (0 - 1) 3 = 2 /\ activePhaseIndexFor (2 + 1) 3 = 0.
Proof.
  destruct (activePhaseIndex_wraps 0 3) as (_ & _ & Hd & Hu); [lia|].
  split; [exact Hd | exact Hu].
Defined.

(** X20: the durations that [persistSettings] stores in any reachable
    state are accepted unchanged by [restoreSettingsFromStorage] at the next
    load: the reloaded script has the same durations, the same schedule and
    a matching draft, and starts at the first phase with its full duration,
    stopped, with all statistics at 0.  With nothing stored the script
    starts in the state [initial]. *)
Theorem stored_settings_round_trip (s : state) :
  reachable s ->
  let s0 := initialFrom (Some (persistSettings s)) in
  durations s0 = durations s /\ phases s0 = phases s
  /\ draftDurations s0
     = Draft (Num (workMinutes s)) (Num (breakMinutes s)) (Num (longBreakMinutes s))
  /\ currentPhaseIndex s0 = 0 /\ remaining s0 = workMinutes s * 60
  /\ isRunning s0 = false /\ statistics s0 = (0, 0, 0, 0)
  /\ initialFrom None = initial.
Proof.
  intros Hr. pose proof (reachable_Extra s Hr) as HE.
  pose proof (reachable_Inv s Hr) as [[Hph _ _] _ _].
  destruct HE as [Hw Hb Hl _ _ _ _ _ _ _ _ _ _].
  rewrite Hph. unfold buildPhases.
  unfold initialFrom, restoreSettingsFromStorage, persistSettings.
  cbn [saved_workMinutes saved_breakMinutes saved_longBreakMinutes].
  replace (CONFIG.TIMER.MIN_WORK_MINUTES <=? workMinutes s) with true
    by (symmetry; apply Z.leb_le; unfold CONFIG.TIMER.MIN_WORK_MINUTES; lia).
  replace (CONFIG.TIMER.MIN_BREAK_MINUTES <=? breakMinutes s) with true
    by (symmetry; apply Z.leb_le; unfold CONFIG.TIMER.MIN_BREAK_MINUTES; lia).
  replace (breakMinutes s <=? CONFIG.TIMER.MAX_BREAK_MINUTES) with true
    by (symmetry; apply Z.leb_le; unfold CONFIG.TIMER.MAX_BREAK_MINUTES; lia).
  replace (CONFIG.TIMER.MIN_LONG_BREAK_MINUTES <=? longBreakMinutes s) with true
    by (symmetry; apply Z.leb_le; unfold CONFIG.TIMER.MIN_LONG_BREAK_MINUTES; lia).
  cbn. repeat split.
Qed.

Lemma stored_settings_round_trip_witness :
  durations (initialFrom (Some (persistSettings longBreakIdle))) = durations longBreakIdle.
Proof.
  destruct (stored_settings_round_trip longBreakIdle) as (Hd & _).
  - apply (run_reachable skipToLongBreak initial); [constructor|].
    vm_compute. reflexivity.
  - exact Hd.
Defined.

(** ** Phase colours *)

Section PhaseColorsFacts.

Context {V : Type} (truthy : V -> bool).
Context (workDefaultColor breakDefaultColor defaultPhaseColor : V).

Lemma settingsPhaseKey_not_break (attr : option string) :
  settingsPhaseKey attr <> "break"%string.
Proof.
  unfold settingsPhaseKey.
  set (phase := match attr with
                | Some a => if String.eqb a "" then "work"%string else a
                | None => "work"%string
                end).
  destruct (String.eqb_spec phase "break"); [discriminate | assumption].
Qed.

Lemma normalizeLegacy_no_break (saved : gmap string V) :
  normalizeLegacy truthy saved !! "break"%string = None.
Proof. unfold normalizeLegacy. apply lookup_delete_eq. Qed.

Lemma initialTheme_ok (saved : option (gmap string V)) :
  theme_ok (initialTheme truthy workDefaultColor breakDefaultColor defaultPhaseColor saved).
Proof.
  unfold initialTheme, restoreColors, theme_ok. cbn.
  assert ((<["work"%string := workDefaultColor]>
             (<["shortBreak"%string := breakDefaultColor]>
                (<["longBreak"%string := defaultPhaseColor]> (∅ : gmap string V))))
          !! "break"%string = None) as Hd.
  { rewrite !lookup_insert_ne by discriminate. apply lookup_empty. }
  destruct saved as [saved|]; cbn.
  - rewrite lookup_union_r by apply normalizeLegacy_no_break.
    repeat split; try exact Hd. discriminate.
  - repeat split; try exact Hd. discriminate.
Qed.

Lemma theme_step_ok (e : theme_event) (th : @theme V) :
  theme_ok th -> theme_ok (theme_step e th).
Proof.
  intros (Hp & Hd & Hk). destruct e; cbn.
  - destruct (panelOpen th); repeat split; assumption.
  - destruct (panelOpen th); cbn; repeat split; try assumption.
    cbv [draftPhaseColors]. rewrite lookup_insert_ne by exact Hk. exact Hd.
  - repeat split; try assumption. apply settingsPhaseKey_not_break.
  - repeat split; assumption.
Qed.

Lemma theme_run_ok (es : list theme_event) (th : @theme V) :
  theme_ok th -> theme_ok (theme_run es th).
Proof.
  revert th. induction es as [|e es IH]; intros th Hok; [exact Hok|].
  cbn. apply IH, theme_step_ok, Hok.
Qed.

(** X21: whatever colours were stored and whatever is done in the
    settings panel afterwards (tabs, colour picks, opening, committing), the
    colour object never has a property [break]; so the analytics record
    written on commit, which reads [phaseColors.break], never reports a
    short-break colour. *)
Theorem short_break_colour_never_reported
    (saved : option (gmap string V)) (es : list theme_event) :
  let th := theme_run es
              (initialTheme truthy workDefaultColor breakDefaultColor defaultPhaseColor saved) in
  phaseColors th !! "break"%string = None
  /\ analyticsColorShortBreak truthy th = None.
Proof.
  cbn. destruct (theme_run_ok es _ (initialTheme_ok saved)) as (Hp & _).
  split; [exact Hp|]. unfold analyticsColorShortBreak. rewrite Hp. reflexivity.
Qed.

(** X22: a colour stored under the legacy key [break] becomes the colour
    of the break phases after load when no (truthy) [shortBreak] colour is
    stored with it; a stored truthy [shortBreak] colour is used whether or
    not a legacy one is present. *)
Theorem legacy_break_colour_migrated (saved : gmap string V) (v : V) :
  truthy v = true ->
  (saved !! "break"%string = Some v /\ truthyAt truthy saved "shortBreak" = false)
  \/ saved !! "shortBreak"%string = Some v ->
  themeColorFor truthy defaultPhaseColor break
    (initialTheme truthy workDefaultColor breakDefaultColor defaultPhaseColor (Some saved))
  = v.
Proof.
  intros Hv Hs. unfold themeColorFor, initialTheme, restoreColors, orElse. cbn.
  assert (normalizeLegacy truthy saved !! "shortBreak"%string = Some v) as Hn.
  { unfold normalizeLegacy. rewrite lookup_delete_ne by discriminate.
    destruct Hs as [[Hb Hsb] | Hsb].
    - unfold truthyAt at 1. rewrite Hb, Hv, Hsb. cbn [andb negb].
      apply lookup_insert_eq.
    - assert (truthyAt truthy saved "shortBreak" = true) as ->
        by (unfold truthyAt; rewrite Hsb; exact Hv).
      rewrite andb_false_r. exact Hsb. }
  rewrite (lookup_union_Some_l _ _ _ _ Hn), Hv. reflexivity.
Qed.

End PhaseColorsFacts.

Lemma legacy_break_colour_migrated_witness :
  themeColorFor nonEmpty "#2b2f3a"%string break
    (initialTheme nonEmpty "rgb(255, 159, 174)"%string "rgb(43, 47, 58)"%string
       "#2b2f3a"%string (Some legacyColors))
  = "#336699"%string.
Proof.
  apply (legacy_break_colour_migrated nonEmpty); [reflexivity|].
  left. split; reflexivity.
Defined.

(** ** Focus dots *)

Lemma workPhaseIndices_schedule (s : state) :
  phases s = buildPhases s -> workPhaseIndices s = [0; 2; 4; 6].
Proof. unfold workPhaseIndices. intros ->. reflexivity. Qed.

Lemma clearDot_twice (c : bool) (dots : list dot) :
  map clearDot (if c then map clearDot dots else dots) = map clearDot dots.
Proof.
  destruct c; [|reflexivity]. rewrite map_map. reflexivity.
Qed.

(** X23: the set indicator shows what the counters hold.  Whatever
    classes the dots carried and whatever phase came before, after
    [updateFocusDots] the dots are, for every number of dots: on a work
    phase, active for each work phase counted so far and for the one under
    way; on a break, active for each work phase counted and next for the dot
    after them; on the long break, all flashing, none active. *)
Theorem focus_dots_follow_counters (prevPhaseType : option phase_type) (s : state)
    (focusDots : list dot) :
  reachable s ->
  updateFocusDots prevPhaseType s focusDots
  = map (dotByCounters s) (seq 0 (length focusDots)).
Proof.
  intros Hr. pose proof (reachable_Extra s Hr) as HE.
  pose proof (reachable_Inv s Hr) as [[Hph Hidx Hcur] _ _].
  pose proof (ex_stats s HE) as Hstat.
  pose proof (workPhaseIndices_schedule s Hph) as Hwpi.
  rewrite Hph in Hcur. unfold buildPhases in Hcur.
  apply (phaseAt_schedule (workMinutes s) (breakMinutes s) (longBreakMinutes s)) in Hcur
    as [_ Hcp].
  unfold updateFocusDots. rewrite clearDot_twice, Hwpi.
  destruct (bool_decide_reflect (length focusDots = O)) as [Hl|Hl].
  { destruct focusDots; [reflexivity | discriminate Hl]. }
  unfold dotByCounters. remember (workPhasesCounted s) as counted eqn:Hcnt.
  clear Hcnt HE Hr Hph Hwpi.
  assert (currentPhaseIndex s = 0 \/ currentPhaseIndex s = 1 \/ currentPhaseIndex s = 2
          \/ currentPhaseIndex s = 3 \/ currentPhaseIndex s = 4 \/ currentPhaseIndex s = 5
          \/ currentPhaseIndex s = 6 \/ currentPhaseIndex s = 7) as Hc by lia.
  destruct (type (currentPhase s)) eqn:Hty; rewrite Hcp in Hty; clear Hcp.
  all: repeat destruct Hc as [Hc | Hc]; rewrite Hc in *; vm_compute in Hty;
         try discriminate Hty; vm_compute in Hstat; subst counted.
  all: rewrite ?bool_decide_eq_false_2 by discriminate.
  all: rewrite ?bool_decide_eq_true_2 by reflexivity.
  all: try match goal with
           | |- context [list_find ?P ?l] =>
               let r := eval vm_compute in (list_find P l) in
               change (list_find P l) with r
           end.
  all: cbv beta iota zeta.
  all: rewrite ?length_imap, ?length_map.
  all: try match goal with
           | |- context [if (?k <? ?n)%nat then _ else _] => destruct (Nat.ltb_spec k n)
           end.
  all: cbn.
  all: apply list_eq; intros i.
  all: try match goal with
           | |- context [alter addNext ?k ?l !! ?j] =>
               destruct (decide (j = k)) as [Hjk|Hjk];
               [ rewrite Hjk, list_lookup_alter
               | rewrite list_lookup_alter_ne by congruence ]
           end.
  all: rewrite ?list_lookup_imap, !list_lookup_fmap.
  all: match goal with
       | |- context [?l !! ?j] =>
           is_var l;
           destruct (l !! j) as [d|] eqn:E;
           [ apply lookup_lt_Some in E; rewrite lookup_seq_lt by exact E
           | apply lookup_ge_None in E; rewrite lookup_seq_ge by lia; reflexivity ]
       end.
  all: cbn; f_equal; unfold addActive, addNext, addLongbreak, clearDot; cbn.
  all: repeat match goal with
              | |- context [(?a <? ?b)%nat] => destruct (Nat.ltb_spec a b)
              | |- context [(?a <=? ?b)%nat] => destruct (Nat.leb_spec a b)
              end; cbn.
  all: repeat match goal with
              | |- context [?a <? ?b] => destruct (Z.ltb_spec a b)
              | |- context [?a <=? ?b] => destruct (Z.leb_spec a b)
              | |- context [?a =? ?b] => destruct (Z.eqb_spec a b)
              end; cbn.
  all: try reflexivity; try lia.
Qed.

Lemma focus_dots_follow_counters_witness :
  updateFocusDots (Some work) (stateAfter autoStartPending)
    [Dot true true true; Dot true false false; Dot false false true; Dot false true false]
  = [Dot true false false; Dot false true false; Dot false false false; Dot false false false].
Proof.
  rewrite (focus_dots_follow_counters (Some work) (stateAfter autoStartPending)).
  - vm_compute. reflexivity.
  - apply (run_reachable autoStartPending initial); [constructor|].
    vm_compute. reflexivity.
Defined.

(** ** A set left to itself *)

Lemma longBreak_end_effect (h : nat) (now t : Z) (s : state) :
  Inv s -> Extra s -> h ∈ activeIntervals s ->
  targetTimestamp s = Some t -> t - now < 500 -> currentPhaseIndex s = 7 ->
  wp (intervalCallback now s) (fun s' =>
    currentPhaseIndex s' = 7 /\ milestonePendingReset s' = true
    /\ isRunning s' = false /\ pendingTimeouts s' = pendingTimeouts s
    /\ statistics s' = statistics s /\ durations s' = durations s
    /\ phases s' = phases s).
Proof.
  open_state s. open_Inv. open_Extra. cbn. intros Hh -> Hlt H7.
  rewrite Hint in Hh. destruct ii as [h'|]; [|inversion Hh].
  cbn in Hrun. subst ir.
  destruct so; [specialize (Hset eq_refl); discriminate|].
  destruct mp; [destruct (Hmil eq_refl); discriminate|].
  current_phase_facts.
  assert (type cp = longBreak) as Hty by (apply Hlb; exact H7).
  unfold intervalCallback, diffToTarget. cbn.
  rewrite (Math_round_div_end _ Hlt).
  wp_step. cbn.
  unfold moveToNextPhase. rewrite finalizeCurrentPhase_eq. cbn.
  repeat wp_step.
  all: decided.
  all: try congruence.
  all: rewrite Hty in *; cbn.
  all: solve_effect.
  all: rewrite ?Z.add_0_r; reflexivity.
Qed.

Lemma start_effect (now : Z) (s : state) :
  Inv s -> Extra s -> isRunning s = false -> settingsOpen s = false ->
  milestonePendingReset s = false ->
  wp (handleSingleClick now s) (fun s' =>
    isRunning s' = true /\ currentPhaseIndex s' = currentPhaseIndex s
    /\ targetTimestamp s' = Some (now + remaining s * 1000)
    /\ pendingTimeouts s' = pendingTimeouts s
    /\ statistics s' = statistics s /\ durations s' = durations s).
Proof.
  open_state s. open_Inv. open_Extra. cbn. intros -> -> ->.
  unfold handleSingleClick. cbn.
  repeat wp_step. all: solve_effect.
Qed.

Lemma running_handles (s : state) :
  Inv s -> isRunning s = true ->
  exists h t, intervalId s = Some h /\ targetTimestamp s = Some t
              /\ h ∈ activeIntervals s.
Proof.
  intros [_ [Hint Hrun _ _ _] Htg] Hr.
  destruct (Htg Hr) as [t Ht]. rewrite Hr in Hrun.
  destruct (intervalId s) as [h|]; [|discriminate Hrun].
  exists h, t. rewrite Hint. repeat split; [exact Ht | apply list_elem_of_here].
Qed.

Lemma work_phase_duration (s : state) :
  Inv s -> type (currentPhase s) = work -> duration (currentPhase s) = workMinutes s * 60.
Proof.
  intros [[Hph _ Hcur] _ _] Hty. rewrite Hph in Hcur. unfold buildPhases in Hcur.
  apply (phaseAt_schedule (workMinutes s) (breakMinutes s) (longBreakMinutes s)) in Hcur
    as [_ Hcp].
  rewrite Hcp in *. unfold phaseOf in *.
  destruct (currentPhaseIndex s =? 7); [discriminate Hty|].
  destruct (Z.even (currentPhaseIndex s)); [reflexivity | discriminate Hty].
Qed.

Lemma deliver_step (e : event) (s s' : state) : deliver e s = Some s' -> step s e s'.
Proof.
  unfold deliver. destruct (enabled e s) eqn:He; [|discriminate].
  intros Hd. split; assumption.
Qed.

Lemma step_durations (s : state) (e : event) (s' : state) :
  reachable s -> step s e s' -> commitsSettings e = false -> durations s' = durations s.
Proof.
  intros Hr [He Hd] Hc.
  destruct (wp_elim _ _ _
              (dispatch_framed e s (reachable_Inv s Hr) (reachable_Extra s Hr) He) Hd)
    as (_ & _ & Hfr).
  apply Hfr, Hc.
Qed.

Lemma letPhaseRunOut_step (k tw0 : Z) (d : Z * Z * Z) (s : state) :
  runningInSet k tw0 d s -> k <> 7 ->
  exists s', letPhaseRunOut s = Some s' /\ runningInSet (k + 1) tw0 d s'.
Proof.
  intros [Hr Hk Hrun Hpt Hd Hn Hc Hf] Hk7.
  pose proof (reachable_Inv s Hr) as HI. pose proof (reachable_Extra s Hr) as HE.
  destruct (running_handles s HI Hrun) as (h & t & Hii & Ht & Hh).
  destruct (natural_end_effect h t t s HI HE Hh Ht ltac:(lia) ltac:(congruence))
    as (s1 & H1 & Hi1 & _ & _ & Hrun1 & _ & _ & (h' & _ & Hpt1) & Hw & Hnw & Hso1 & Hmp1).
  assert (deliver (IntervalFire h t) s = Some s1) as Hd1.
  { unfold deliver. cbn. rewrite bool_decide_eq_true_2 by exact Hh. exact H1. }
  pose proof (deliver_step _ _ _ Hd1) as Hs1.
  pose proof (reachable_step s _ s1 Hr Hs1) as Hr1.
  pose proof (reachable_Inv s1 Hr1) as HI1. pose proof (reachable_Extra s1 Hr1) as HE1.
  pose proof (step_durations s _ s1 Hr Hs1 eq_refl) as Hdu1.
  assert (h' ∈ pendingTimeouts s1) as Hh' by (rewrite Hpt1; apply list_elem_of_here).
  destruct (autoStart_effect h' (t + 600) s1 HI1 HE1 Hh')
    as (s2 & H2 & Hpt2 & Hi2 & _ & Hst2 & Hif).
  rewrite Hrun1, Hso1, Hmp1 in Hif. cbn in Hif. destruct Hif as (Hrun2 & _).
  assert (deliver (TimeoutFire h' (t + 600)) s1 = Some s2) as Hd2.
  { unfold deliver. cbn [enabled]. rewrite bool_decide_eq_true_2 by exact Hh'. exact H2. }
  pose proof (deliver_step _ _ _ Hd2) as Hs2.
  pose proof (step_durations s1 _ s2 Hr1 Hs2 eq_refl) as Hdu2.
  exists s2. split.
  - unfold letPhaseRunOut. rewrite Hii, Ht. cbn. rewrite Hd1. cbn. rewrite Hpt1. exact Hd2.
  - unfold statistics in Hst2. injection Hst2 as Hc2 Hn2 Hs2' Ht2.
    assert (d.1.1 = workMinutes s) as Hwm by (rewrite <- Hd; reflexivity).
    split.
    + exact (reachable_step s1 _ s2 Hr1 Hs2).
    + lia.
    + exact Hrun2.
    + exact Hpt2.
    + congruence.
    + destruct (decide (type (currentPhase s) = work)) as [Hty|Hty].
      * destruct (Hw Hty) as (_ & _ & Hx & _). lia.
      * specialize (Hnw Hty). unfold statistics in Hnw. injection Hnw as ? ? ? ?. lia.
    + destruct (decide (type (currentPhase s) = work)) as [Hty|Hty].
      * destruct (Hw Hty) as (_ & _ & _ & Hx). lia.
      * specialize (Hnw Hty). unfold statistics in Hnw. injection Hnw as ? ? ? ?. lia.
    + destruct (decide (type (currentPhase s) = work)) as [Hty|Hty].
      * destruct (Hw Hty) as (Hx & Hy & _). rewrite (work_phase_duration s HI Hty) in Hy.
        rewrite Hwm. lia.
      * specialize (Hnw Hty). unfold statistics in Hnw. injection Hnw as ? ? ? ?. lia.
Qed.

Lemma letPhaseRunOut_longBreak (tw0 : Z) (d : Z * Z * Z) (s : state) :
  runningInSet 7 tw0 d s ->
  exists s', letPhaseRunOut s = Some s' /\ reachable s'
             /\ milestonePendingReset s' = true /\ currentPhaseIndex s' = 7
             /\ statistics s' = statistics s /\ durations s' = d.
Proof.
  intros [Hr Hk Hrun Hpt Hd Hn Hc Hf].
  pose proof (reachable_Inv s Hr) as HI. pose proof (reachable_Extra s Hr) as HE.
  destruct (running_handles s HI Hrun) as (h & t & Hii & Ht & Hh).
  destruct (longBreak_end_effect h t t s HI HE Hh Ht ltac:(lia) Hk)
    as (s1 & H1 & Hi1 & Hmp1 & _ & Hpt1 & Hst1 & Hdu1 & _).
  assert (deliver (IntervalFire h t) s = Some s1) as Hd1.
  { unfold deliver. cbn. rewrite bool_decide_eq_true_2 by exact Hh. exact H1. }
  exists s1. split.
  - unfold letPhaseRunOut. rewrite Hii, Ht. cbn. rewrite Hd1. cbn.
    rewrite Hpt1, Hpt. reflexivity.
  - repeat split; try assumption; [|congruence].
    exact (reachable_step s _ s1 Hr (deliver_step _ _ _ Hd1)).
Qed.

Lemma milestoneTitleText_amazing (s : state) :
  phases s = buildPhases s -> completedWorkSessions s = 4 ->
  skippedNotStartedWorkSessions s = 0 -> skippedNotCompletedWorkSessions s = 0 ->
  milestoneTitleText s = "Amazing!"%string.
Proof.
  intros Hph Hc Hn Hs. unfold milestoneTitleText.
  rewrite (fullSetWorkCount_4 s Hph), Hc, Hn, Hs. reflexivity.
Qed.

(** X24: a set left to itself.  From a reachable state on the first
    phase, stopped, with the panel closed, no milestone and no auto-start
    pending: after the click that starts the timer, if each of the eight
    phases runs out (the refresh comes at the target time, the delayed
    auto-start 600 ms later), every handler returns and the timer ends on
    the long break with the milestone pending, 4 work phases completed,
    none skipped, four full work durations added to the focus seconds, and
    the title Amazing!. *)
Theorem uninterrupted_set_completes (now : Z) (s : state) :
  reachable s -> currentPhaseIndex s = 0 -> isRunning s = false ->
  settingsOpen s = false -> milestonePendingReset s = false ->
  pendingTimeouts s = [] ->
  exists s1 s',
    deliver (TimeClick now) s = Some s1 /\ letPhasesRunOut 8 s1 = Some s'
    /\ reachable s'
    /\ currentPhaseIndex s' = 7 /\ milestonePendingReset s' = true
    /\ completedWorkSessions s' = 4
    /\ skippedNotStartedWorkSessions s' = 0
    /\ skippedNotCompletedWorkSessions s' = 0
    /\ totalWorkSeconds s' = totalWorkSeconds s + 4 * (workMinutes s * 60)
    /\ durations s' = durations s
    /\ milestoneTitleText s' = "Amazing!"%string.
Proof.
  intros Hr Hi0 Hrun Hso Hmp Hpt.
  pose proof (reachable_Inv s Hr) as HI. pose proof (reachable_Extra s Hr) as HE.
  destruct (start_effect now s HI HE Hrun Hso Hmp)
    as (s1 & H1 & Hrun1 & Hi1 & _ & Hpt1 & Hst1 & Hdu1).
  assert (deliver (TimeClick now) s = Some s1) as Hd1 by exact H1.
  pose proof (reachable_step s _ s1 Hr (deliver_step _ _ _ Hd1)) as Hr1.
  destruct HE as [_ _ _ _ _ _ _ _ (Hc0 & Hn0 & Hs0 & _) Hstat _ _ _].
  unfold workPhasesCounted in Hstat. rewrite Hi0 in Hstat.
  change ((0 + 1) / 2) with 0 in Hstat.
  unfold statistics in Hst1. injection Hst1 as Hc1 Hn1 Hs1 Ht1.
  assert (runningInSet 0 (totalWorkSeconds s) (durations s) s1) as R0.
  { split; try assumption; try lia; [congruence|]. rewrite Ht1, Hc1.
    assert (completedWorkSessions s = 0) as -> by lia. lia. }
  destruct (letPhaseRunOut_step _ _ _ _ R0 ltac:(lia)) as (s2 & E1 & R1).
  destruct (letPhaseRunOut_step _ _ _ _ R1 ltac:(lia)) as (s3 & E2 & R2).
  destruct (letPhaseRunOut_step _ _ _ _ R2 ltac:(lia)) as (s4 & E3 & R3).
  destruct (letPhaseRunOut_step _ _ _ _ R3 ltac:(lia)) as (s5 & E4 & R4).
  destruct (letPhaseRunOut_step _ _ _ _ R4 ltac:(lia)) as (s6 & E5 & R5).
  destruct (letPhaseRunOut_step _ _ _ _ R5 ltac:(lia)) as (s7 & E6 & R6).
  destruct (letPhaseRunOut_step _ _ _ _ R6 ltac:(lia)) as (s8 & E7 & R7).
  change (0 + 1 + 1 + 1 + 1 + 1 + 1 + 1) with 7 in R7.
  destruct (letPhaseRunOut_longBreak _ _ _ R7) as (s9 & E8 & Hr9 & Hmp9 & Hi9 & Hst9 & Hdu9).
  exists s1, s9. split; [exact Hd1|]. split.
  { cbn. rewrite E1. cbn. rewrite E2. cbn. rewrite E3. cbn. rewrite E4. cbn.
    rewrite E5. cbn. rewrite E6. cbn. rewrite E7. cbn. rewrite E8. reflexivity. }
  destruct R7 as [Hr8 Hi8 _ _ Hdu8 Hn8 Hs8 Hf8].
  pose proof (ex_stats s8 (reachable_Extra s8 Hr8)) as Hstat8.
  unfold workPhasesCounted in Hstat8. rewrite Hi8, Hn8, Hs8 in Hstat8.
  change ((7 + 1) / 2) with 4 in Hstat8.
  unfold statistics in Hst9. injection Hst9 as Hc9 Hn9 Hs9 Ht9.
  assert (completedWorkSessions s9 = 4) as Hc4 by lia.
  pose proof (reachable_Inv s9 Hr9) as [[Hph9 _ _] _ _].
  repeat split; try assumption; try lia.
  - rewrite Ht9, Hf8. cbn. lia.
  - apply milestoneTitleText_amazing; [assumption | lia | lia | lia].
Qed.

Lemma uninterrupted_set_completes_witness :
  exists s1 s',
    deliver (TimeClick 0) initial = Some s1 /\ letPhasesRunOut 8 s1 = Some s'
    /\ completedWorkSessions s' = 4 /\ totalWorkSeconds s' = 6000.
Proof.
  destruct (uninterrupted_set_completes 0 initial)
    as (s1 & s' & H1 & H8 & _ & _ & _ & Hc & _ & _ & Ht & _);
    try reflexivity; [constructor|].
  exists s1, s'. split; [exact H1|]. split; [exact H8|]. split; [exact Hc | exact Ht].
Defined.

(** ** The state label *)

Ltac solve_Label :=
  unfold pauseIsNoop, startIsNoop in *; cbn in *; flags;
  split; cbn; intros; first [reflexivity | discriminate | assumption | congruence | tauto].

Lemma Label_initial : Label initial.
Proof. split; cbn; intros; discriminate. Qed.

Lemma moveToNextPhase_Label (autoStart completed : bool) (now : Z) (s : state) :
  Inv s -> Label s -> settingsOpen s = false ->
  wp (moveToNextPhase autoStart completed now s) Label.
Proof.
  open_state s. open_Inv. intros [Lr Ls Lm]. cbn in Lr, Ls, Lm. cbn. intros ->.
  unfold moveToNextPhase. rewrite finalizeCurrentPhase_eq. cbn.
  repeat wp_step.
  all: try match goal with
           | |- context [nextHandle (match ?x with _ => _ end)] => destruct x; cbn
           end.
  all: solve_Label.
Qed.

Lemma dispatch_Label (e : event) (s : state) :
  Inv s -> Extra s -> Label s -> enabled e s = true -> wp (dispatch e s) Label.
Proof.
  intros HI HE HL He. destruct e; cbn [dispatch].
  - revert HI HL. open_state s. open_Inv. intros [Lr Ls Lm]. cbn in Lr, Ls, Lm.
    unfold handleSingleClick. cbn. repeat wp_step. all: solve_Label.
  - revert HI HL. open_state s. open_Inv. intros [Lr Ls Lm]. cbn in Lr, Ls, Lm.
    unfold onTimeDblClick, resetCurrentPhase. cbn. repeat wp_step. all: solve_Label.
  - unfold onNextClick.
    destruct (settingsOpen s) eqn:Hso; cbn; [apply wp_ret; exact HL|].
    destruct (milestonePendingReset s); [apply wp_ret; exact HL|].
    apply moveToNextPhase_Label; assumption.
  - revert HI HL. open_state s. open_Inv. intros [Lr Ls Lm]. cbn in Lr, Ls, Lm.
    unfold onSettingsClick. cbn. repeat wp_step. all: solve_Label.
  - cbn in He. revert HI HE HL He. open_state s. open_Inv. open_Extra.
    intros [Lr Ls Lm]. cbn in Lr, Ls, Lm. cbn. intros ->.
    specialize (Hpb eq_refl). subst pb.
    unfold applySettings. cbn.
    match goal with |- context [if ?c then _ else _] => destruct c eqn:Hc end; cbn.
    all: rewrite buildPhases_length in Hc.
    all: apply orb_true_iff in Hc || apply orb_false_elim in Hc.
    1: { destruct Hc as [Hc|Hc]; [apply Z.ltb_lt in Hc | apply Z.leb_le in Hc]; lia. }
    lazymatch goal with
    | |- wp (phaseAt (buildPhases ?S) ?i ≫= _) _ =>
        destruct (phaseAt_buildPhases S i) as [p Hp]; [lia|]
    end.
    unfold resetCurrentPhase. repeat wp_step.
    all: solve_Label.
  - cbn in He. revert HI HL He. open_state s. open_Inv.
    intros [Lr Ls Lm]. cbn in Lr, Ls, Lm. cbn. intros ->.
    destruct (Hmil eq_refl) as [-> _].
    unfold onMilestoneOk. cbn. repeat wp_step. all: solve_Label.
  - cbn in He. apply bool_decide_eq_true in He.
    revert HI HL He. open_state s. open_Inv.
    intros [Lr Ls Lm]. cbn in Lr, Ls, Lm. cbn. intros Hh.
    rewrite Hint in Hh. destruct ii as [h'|]; [|inversion Hh].
    cbn in Hrun. subst ir.
    destruct so; [specialize (Hset eq_refl); discriminate|].
    unfold intervalCallback, diffToTarget. cbn.
    wp_step. wp_step.
    + apply moveToNextPhase_Label; [solve_Inv | | reflexivity].
      split; cbn; intros; first [discriminate | tauto].
    + wp_step. solve_Label.
  - revert HI HL. open_state s. open_Inv. intros [Lr Ls Lm]. cbn in Lr, Ls, Lm.
    unfold autoStartCallback. cbn. repeat wp_step. all: solve_Label.
  - apply wp_ret. clear HI HE He. destruct s, HL. unfold onWorkInput. cbn in *.
    split_ifs; split; assumption.
  - apply wp_ret. clear HI HE He. destruct s, HL. unfold onBreakInput. cbn in *.
    split_ifs; split; assumption.
  - apply wp_ret. clear HI HE He. destruct s, HL. unfold onLongBreakInput. cbn in *.
    split_ifs; split; assumption.
  - apply wp_ret. clear HI HE He. destruct s, HL.
    unfold updateDraftDurationFromHandle. cbn in *.
    split_ifs; split; assumption.
  - apply wp_ret. clear HI HE He. destruct s, HL. split; assumption.
Qed.

Lemma reachable_Label (s : state) : reachable s -> Label s.
Proof.
  induction 1 as [|s e s' Hr IH [He Hd]]; [exact Label_initial|].
  exact (wp_elim _ _ _
           (dispatch_Label e s (reachable_Inv s Hr) (reachable_Extra s Hr) IH He) Hd).
Qed.

(** X25: what the state label guarantees in every reachable state: a
    running engine has the label RUNNING, the label SETTINGS is only there
    while the settings panel is open, and the label MILESTONE only while the
    milestone is pending. *)
Theorem state_label_guarantees (s : state) :
  reachable s ->
  (isRunning s = true -> appState s = RUNNING)
  /\ (appState s = SETTINGS -> settingsOpen s = true)
  /\ (appState s = MILESTONE -> milestonePendingReset s = true).
Proof.
  intros Hr. destruct (reachable_Label s Hr) as [Lr Ls Lm]. auto.
Qed.

Lemma state_label_guarantees_witness : appState runningAt0 = RUNNING.
Proof.
  destruct (state_label_guarantees runningAt0) as (Lr & _).
  - apply (run_reachable [TimeClick 0] initial); [constructor|].
    vm_compute. reflexivity.
  - apply Lr. reflexivity.
Defined.

Lemma settingsClick_stopped (now : Z) (s : state) :
  Inv s -> isRunning s = false -> settingsOpen s = false ->
  milestonePendingReset s = false ->
  wp (onSettingsClick now s) (fun s' =>
    settingsOpen s' = true /\ appState s' = appState s
    /\ pendingTimeouts s' = pendingTimeouts s
    /\ countdown s' = countdown s).
Proof.
  open_state s. open_Inv. cbn. intros -> -> ->.
  unfold onSettingsClick. cbn.
  repeat wp_step. all: solve_effect.
Qed.

(** X26: the converse of the second guarantee fails.  Opening the
    settings panel while the timer is stopped always returns with the panel
    open but leaves the state label as it was (so it is not SETTINGS), and
    leaves the countdown and any pending auto-start untouched: [pauseTimer]
    returns before it sets the label. *)
Theorem settings_on_stopped_timer_keeps_label (now : Z) (s : state) :
  reachable s -> isRunning s = false -> settingsOpen s = false ->
  milestonePendingReset s = false ->
  exists s',
    step s (SettingsClick now) s'
    /\ settingsOpen s' = true /\ appState s' = appState s
    /\ appState s' <> SETTINGS
    /\ pendingTimeouts s' = pendingTimeouts s
    /\ countdown s' = countdown s.
Proof.
  intros Hr Hrun Hso Hmp.
  destruct (settingsClick_stopped now s (reachable_Inv s Hr) Hrun Hso Hmp)
    as (s' & H1 & Hso' & Hap & Hpt & Hcd).
  exists s'. split; [split; [reflexivity | exact H1]|].
  repeat split; try assumption.
  rewrite Hap. intros Hs. apply (lab_settings s (reachable_Label s Hr)) in Hs. congruence.
Qed.

Lemma settings_on_stopped_timer_keeps_label_witness :
  exists s', step initial (SettingsClick 0) s'
             /\ settingsOpen s' = true /\ appState s' = IDLE.
Proof.
  destruct (settings_on_stopped_timer_keeps_label 0 initial)
    as (s' & H1 & Hso & Hap & _); try reflexivity; [constructor|].
  exists s'. split; [exact H1|]. split; [exact Hso | exact Hap].
Defined.

(** ** Commit and completion as they occur *)





(** *** Completed work phases *)









